(** * Ragde Challenge Timekeeper: race timing, estimates and leaderboard

    A shallow embedding of the timing core of the application:

    - [JS]               the JavaScript built-ins the code calls
                         (numbers, [trim], [split], [parseInt], [parseFloat],
                         [toString], [padStart], stable [sort]);
    - [EstimateInput]    components/EstimateInput.tsx;
    - [RaceTimer]        components/RaceTimer.tsx;
    - [Storage]          storage.ts;
    - [ActiveRacesManager] components/ActiveRacesManager.tsx;
    - [Leaderboard]      components/Leaderboard.tsx;
    - [ExcelBackup]      utils/excelBackup.ts.

    [Spec] holds the vocabulary in which the properties are stated and
    [Examples] concrete data; the properties follow, one module for each
    component.

    Modelling conventions.

    - Clock readings ([Date.now()]) and split times are integer milliseconds,
      modelled as [Z].  Every clock read of the source is an explicit
      argument, in the order in which the source performs the reads.
    - Values produced by [parseFloat] may be fractional, [NaN] or infinite;
      they are modelled by [JS.number], whose finite values are exact
      rationals.  IEEE rounding is not modelled: the statements on parsed
      and printed times (C8, X5, X27) bound their values by
      [Number.MAX_SAFE_INTEGER], up to which whole numbers are exact in
      doubles, and C7 reads seconds with at most three decimals.
    - Strings are sequences of characters with codes below 256.
    - Firestore collections are finite maps from document ids to documents.
    - Identifiers generated at run time ([crypto.randomUUID()], the ids
      chosen by [addDoc]) are explicit arguments. *)

From Stdlib Require Import ZArith QArith Qcanon List Lia Lqa Ascii String Sorted.
From stdpp Require Import gmap strings.
Import ListNotations.

Open Scope Z_scope.

(* ===================================================================== *)
(** * JavaScript built-ins *)
(* ===================================================================== *)

Module JS.

(** ** Numbers *)

(** A JavaScript number: [NaN], the two infinities, or a finite value.
    [-0] is identified with [0]; no operation of the modelled code
    distinguishes them. *)
Inductive number : Type :=
  | NaN
  | NegInf
  | PosInf
  | Fin (q : Qc).

Definition ofZ (z : Z) : number := Fin (Q2Qc (inject_Z z)).

Definition zero : number := ofZ 0.

Definition isNaN (x : number) : bool :=
  match x with NaN => true | _ => false end.

(** [x < 0]; false for [NaN]. *)
Definition ltZero (x : number) : bool :=
  match x with
  | NegInf => true
  | Fin q => match (q ?= 0)%Qc with Lt => true | _ => false end
  | _ => false
  end.

(** [0 < x]; false for [NaN]. *)
Definition gtZero (x : number) : bool :=
  match x with
  | PosInf => true
  | Fin q => match (q ?= 0)%Qc with Gt => true | _ => false end
  | _ => false
  end.

Definition isZero (x : number) : bool :=
  match x with
  | Fin q => match (q ?= 0)%Qc with Eq => true | _ => false end
  | _ => false
  end.

(** ToBoolean on a number: [0] and [NaN] are falsy. *)
Definition truthy (x : number) : bool :=
  match x with
  | NaN => false
  | Fin _ => negb (isZero x)
  | _ => true
  end.

(** ToBoolean on [number | null | undefined]. *)
Definition truthyOpt (x : option number) : bool :=
  match x with
  | Some v => truthy v
  | None => false
  end.

(** ToNumber on [number | undefined]. *)
Definition toNumber (x : option number) : number :=
  match x with
  | Some v => v
  | None => NaN
  end.

Definition add (x y : number) : number :=
  match x, y with
  | NaN, _ | _, NaN => NaN
  | PosInf, NegInf | NegInf, PosInf => NaN
  | PosInf, _ | _, PosInf => PosInf
  | NegInf, _ | _, NegInf => NegInf
  | Fin a, Fin b => Fin (a + b)%Qc
  end.

Definition neg (x : number) : number :=
  match x with
  | NaN => NaN
  | PosInf => NegInf
  | NegInf => PosInf
  | Fin a => Fin (- a)%Qc
  end.

Definition sub (x y : number) : number := add x (neg y).

Definition mul (x y : number) : number :=
  match x, y with
  | NaN, _ | _, NaN => NaN
  | Fin a, Fin b => Fin (a * b)%Qc
  | _, _ =>
      if isZero x || isZero y then NaN
      else if Bool.eqb (ltZero x) (ltZero y) then PosInf else NegInf
  end.

(** The sign of a comparator's return value as [Array.prototype.sort]
    reads it: negative, positive, or zero ([NaN] counts as zero). *)
Definition sign (x : number) : comparison :=
  if ltZero x then Lt else if gtZero x then Gt else Eq.

(** ** Characters and strings *)

(** The white space and line terminators that [trim], [parseInt] and
    [parseFloat] skip, among the characters below 256: TAB, LF, VT, FF,
    CR, SP and NBSP. *)
Definition isWhiteSpace (c : ascii) : bool :=
  let n := N_of_ascii c in
  ((9 <=? n) && (n <=? 13) || (n =? 32) || (n =? 160))%N.

Definition isDigit (c : ascii) : bool :=
  let n := N_of_ascii c in
  ((48 <=? n) && (n <=? 57))%N.

Definition digitValue (c : ascii) : N := (N_of_ascii c - 48)%N.

Fixpoint trimStart (s : string) : string :=
  match s with
  | EmptyString => EmptyString
  | String c s' => if isWhiteSpace c then trimStart s' else s
  end.

Fixpoint trimEnd (s : string) : string :=
  match s with
  | EmptyString => EmptyString
  | String c s' =>
      match trimEnd s' with
      | EmptyString => if isWhiteSpace c then EmptyString else String c EmptyString
      | t => String c t
      end
  end.

(** [String.prototype.trim]. *)
Definition trim (s : string) : string := trimEnd (trimStart s).

(** ToBoolean on a string: only the empty string is falsy. *)
Definition nonEmpty (s : string) : bool :=
  match s with EmptyString => false | _ => true end.

(** [s.split(sep)] for a one-character separator. *)
Fixpoint split (sep : ascii) (s : string) : list string :=
  match s with
  | EmptyString => [EmptyString]
  | String c s' =>
      if Ascii.eqb c sep then EmptyString :: split sep s'
      else match split sep s' with
           | p :: ps => String c p :: ps
           | [] => [String c EmptyString]
           end
  end.

(** The longest run of decimal digits at the start of [s]: its value
    (continuing the accumulator [acc]), the number of digits read, and
    the rest of the string. *)
Fixpoint scanDigits (s : string) (acc : N) (cnt : nat) : N * nat * string :=
  match s with
  | String c s' =>
      if isDigit c then scanDigits s' (10 * acc + digitValue c)%N (S cnt)
      else (acc, cnt, s)
  | EmptyString => (acc, cnt, s)
  end.

(** An optional leading [+] or [-]; [true] when the sign is [-]. *)
Definition scanSign (s : string) : bool * string :=
  match s with
  | String "-"%char s' => (true, s')
  | String "+"%char s' => (false, s')
  | _ => (false, s)
  end.

Definition applySign (negative : bool) (z : Z) : Z :=
  if negative then - z else z.

(** [parseInt(s, 10)]. *)
Definition parseInt (s : string) : number :=
  let '(negative, s1) := scanSign (trimStart s) in
  let '(v, cnt, _) := scanDigits s1 0%N 0%nat in
  match cnt with
  | O => NaN
  | S _ => ofZ (applySign negative (Z.of_N v))
  end.

(** The value [m * 10^e] of a decimal literal. *)
Definition scale10 (m : Z) (e : Z) : Q :=
  if 0 <=? e then inject_Z (m * 10 ^ e)
  else (inject_Z m / inject_Z (10 ^ (- e)))%Q.

(** The optional exponent part of a decimal literal; [0] when there is
    none or when it has no digit. *)
Definition scanExponent (s : string) : Z :=
  match s with
  | String c s' =>
      if Ascii.eqb c "e" || Ascii.eqb c "E" then
        let '(negative, s1) := scanSign s' in
        let '(v, cnt, _) := scanDigits s1 0%N 0%nat in
        match cnt with
        | O => 0
        | S _ => applySign negative (Z.of_N v)
        end
      else 0
  | EmptyString => 0
  end.

(** [parseFloat(s)]: the longest prefix of the trimmed input that is a
    StrDecimalLiteral. *)
Definition parseFloat (s : string) : number :=
  let '(negative, s1) := scanSign (trimStart s) in
  if String.prefix "Infinity" s1 then (if negative then NegInf else PosInf)
  else
    let '(ip, ni, s2) := scanDigits s1 0%N 0%nat in
    let '(m, nf, s3) :=
      match s2 with
      | String "."%char r => scanDigits r ip 0%nat
      | _ => (ip, 0%nat, s2)
      end in
    match (ni + nf)%nat with
    | O => NaN
    | S _ =>
        Fin (Q2Qc (scale10 (applySign negative (Z.of_N m))
                           (scanExponent s3 - Z.of_nat nf)))
    end.

(** Decimal digits of a natural number, most significant first. *)
Fixpoint digitsFuel (fuel : nat) (n : N) (acc : string) : string :=
  match fuel with
  | O => acc
  | S fuel' =>
      let acc' := String (ascii_of_N (48 + n mod 10)) acc in
      if (n / 10 =? 0)%N then acc' else digitsFuel fuel' (n / 10)%N acc'
  end.

Definition digits (n : N) : string :=
  digitsFuel (S (N.to_nat (N.size n))) n EmptyString.

(** [Number.prototype.toString] on an integer below [10^21] in absolute
    value, where JavaScript prints plain decimal digits. *)
Definition toString (z : Z) : string :=
  match z with
  | Z0 => "0"
  | Zpos p => digits (Npos p)
  | Zneg p => String "-" (digits (Npos p))
  end.

Fixpoint repeatChar (n : nat) (c : ascii) (s : string) : string :=
  match n with
  | O => s
  | S n' => String c (repeatChar n' c s)
  end.

(** [s.padStart(len, c)] for a one-character filler. *)
Definition padStart (len : nat) (c : ascii) (s : string) : string :=
  repeatChar (len - String.length s) c s.

(** ** [Array.prototype.sort]

    The sort is stable (ECMAScript 2019); the comparator's result is read
    through its sign.  For a comparator that is a consistent ordering, as
    the ones of this program are, the result is the one of any stable
    sort; insertion from the right is one. *)
Section Sort.
Context {A : Type} (cmp : A -> A -> number).

Fixpoint insertSorted (x : A) (l : list A) : list A :=
  match l with
  | [] => [x]
  | y :: l' =>
      match sign (cmp x y) with
      | Gt => y :: insertSorted x l'
      | _ => x :: l
      end
  end.

Fixpoint sort (l : list A) : list A :=
  match l with
  | [] => []
  | x :: l' => insertSorted x (sort l')
  end.
End Sort.

End JS.

(* ===================================================================== *)
(** * Types (types.ts) *)
(* ===================================================================== *)

Inductive Discipline : Type := treadmill | skiErg | rowing.

Definition Discipline_eqb (a b : Discipline) : bool :=
  match a, b with
  | treadmill, treadmill | skiErg, skiErg | rowing, rowing => true
  | _, _ => false
  end.

Record Person : Type := mkPerson {
  person_id : string;
  person_name : string;
  person_createdAt : string;
  person_createdBy : option string
}.

Record Split : Type := mkSplit {
  discipline : Discipline;
  time : Z;                (* time in milliseconds *)
  timestamp : string
}.

Record RaceResult : Type := mkRaceResult {
  result_id : string;
  personId : string;
  personName : string;
  result_splits : list Split;
  totalTime : Z;           (* total time in milliseconds *)
  completedAt : string;
  result_createdBy : option string
}.

(** Every field is optional: [None] is an absent key. *)
Record EstimatedSplits : Type := mkEstimatedSplits {
  est_treadmill : option JS.number;
  est_skiErg : option JS.number;
  est_rowing : option JS.number;
  est_total : option JS.number
}.

Record ActiveRace : Type := mkActiveRace {
  race_id : string;
  person : Person;
  startTime : Z;
  splits : list Split;
  currentDisciplineIndex : nat;
  estimatedSplits : option EstimatedSplits;
  createdBy : option string
}.

(** The empty object [{}]. *)
Definition noEstimates : EstimatedSplits := mkEstimatedSplits None None None None.

(** Object spread [{...a, ...b}] on optional fields: a key of [b] wins. *)
Definition spreadField {A : Type} (a b : option A) : option A :=
  match b with
  | Some v => Some v
  | None => a
  end.

Definition spread (a b : EstimatedSplits) : EstimatedSplits :=
  {| est_treadmill := spreadField (est_treadmill a) (est_treadmill b);
     est_skiErg := spreadField (est_skiErg a) (est_skiErg b);
     est_rowing := spreadField (est_rowing a) (est_rowing b);
     est_total := spreadField (est_total a) (est_total b) |}.

(** [{...e}] where [e] may be [undefined]. *)
Definition spreadOpt (e : option EstimatedSplits) : EstimatedSplits :=
  match e with
  | Some e' => e'
  | None => noEstimates
  end.

Definition estimateOf (d : Discipline) (e : EstimatedSplits) : option JS.number :=
  match d with
  | treadmill => est_treadmill e
  | skiErg => est_skiErg e
  | rowing => est_rowing e
  end.

(** [s.discipline === d] *)
Definition isDiscipline (d : Discipline) (s : Split) : bool :=
  Discipline_eqb (discipline s) d.

(** [l.reduce((sum, s) => sum + s.time, 0)] *)
Definition sumTimes (l : list Split) : Z :=
  fold_left (fun sum s => sum + time s) l 0.

(* ===================================================================== *)
(** * components/EstimateInput.tsx *)
(* ===================================================================== *)

Module EstimateInput.
Import JS.

(** Milliseconds to MM:SS or HH:MM:SS, on integer milliseconds. *)
Definition msToTimeString (ms : Z) : string :=
  let totalSeconds := ms / 1000 in
  let hours := totalSeconds / 3600 in
  let minutes := Z.rem totalSeconds 3600 / 60 in
  let seconds := Z.rem totalSeconds 60 in
  if 0 <? hours then
    toString hours +:+ ":" +:+ padStart 2 "0" (toString minutes)
                   +:+ ":" +:+ padStart 2 "0" (toString seconds)
  else
    toString minutes +:+ ":" +:+ padStart 2 "0" (toString seconds).

(** Time string (MM:SS or HH:MM:SS) to milliseconds; [None] is [null]. *)
Definition parseTimeToMs (timeString : string) : option number :=
  let trimmed := trim timeString in
  if negb (nonEmpty trimmed) then None
  else
    match map trim (split ":" trimmed) with
    | [p0; p1] =>
        let minutes := parseInt p0 in
        let seconds := parseFloat p1 in
        if isNaN minutes || isNaN seconds || ltZero minutes || ltZero seconds
        then None
        else Some (mul (add (mul minutes (ofZ 60)) seconds) (ofZ 1000))
    | [p0; p1; p2] =>
        let hours := parseInt p0 in
        let minutes := parseInt p1 in
        let seconds := parseFloat p2 in
        if isNaN hours || isNaN minutes || isNaN seconds
           || ltZero hours || ltZero minutes || ltZero seconds
        then None
        else Some (mul (add (add (mul hours (ofZ 3600)) (mul minutes (ofZ 60))) seconds)
                       (ofZ 1000))
    | _ => None
    end.

(** What [handleConfirm] does to one discipline's estimate. *)
Inductive FieldAction : Type :=
  | SetTo (ms : number)    (* estimates.d = ms *)
  | Invalid                (* newErrors.d = 'Invalid time format' *)
  | Delete                 (* delete estimates.d *)
  | Keep.

(** The branch of [handleConfirm] for one discipline: [completed] is
    [completedSplits.some(s => s.discipline === d)], [input] the text of
    the field, [existing] is [existingEstimates?.d]. *)
Definition fieldAction (completed : bool) (input : string)
    (existing : option number) : FieldAction :=
  if negb completed && nonEmpty (trim input) then
    match parseTimeToMs input with
    | Some ms => if truthy ms then SetTo ms else Invalid
    | None => Invalid
    end
  else if negb completed && negb (nonEmpty (trim input)) && truthyOpt existing
  then Delete
  else Keep.

Definition applyAction (a : FieldAction) (current : option number) : option number :=
  match a with
  | SetTo ms => Some ms
  | Delete => None
  | Invalid | Keep => current
  end.

Definition isInvalid (a : FieldAction) : bool :=
  match a with Invalid => true | _ => false end.

(** The text of the three fields. *)
Record Form : Type := mkForm {
  treadmillEst : string;
  skiErgEst : string;
  rowingEst : string
}.

Definition inputOf (d : Discipline) (f : Form) : string :=
  match d with
  | treadmill => treadmillEst f
  | skiErg => skiErgEst f
  | rowing => rowingEst f
  end.

Definition isCompleted (completedSplits : list Split) (d : Discipline) : bool :=
  existsb (isDiscipline d) completedSplits.

Definition actionFor (existingEstimates : option EstimatedSplits)
    (completedSplits : list Split) (f : Form) (d : Discipline) : FieldAction :=
  fieldAction (isCompleted completedSplits d) (inputOf d f)
              (estimateOf d (spreadOpt existingEstimates)).

(** The keys of [newErrors], in insertion order. *)
Definition newErrors (existingEstimates : option EstimatedSplits)
    (completedSplits : list Split) (f : Form) : list Discipline :=
  List.filter (fun d => isInvalid (actionFor existingEstimates completedSplits f d))
         [treadmill; skiErg; rowing].

(** [handleConfirm]: [inl errors] when the form is rejected ([setErrors]
    and return, [onConfirm] is not called), [inr estimates] for
    [onConfirm(estimates)]. *)
Definition handleConfirm (existingEstimates : option EstimatedSplits)
    (completedSplits : list Split) (f : Form)
    : list Discipline + EstimatedSplits :=
  let act := actionFor existingEstimates completedSplits f in
  let start := spreadOpt existingEstimates in
  let t := applyAction (act treadmill) (est_treadmill start) in
  let s := applyAction (act skiErg) (est_skiErg start) in
  let r := applyAction (act rowing) (est_rowing start) in
  match newErrors existingEstimates completedSplits f with
  | _ :: _ => inl (newErrors existingEstimates completedSplits f)
  | [] =>
      let total :=
        if truthyOpt t && truthyOpt s && truthyOpt r
        then Some (add (add (toNumber t) (toNumber s)) (toNumber r))
        else if truthyOpt (est_total start) then None
        else est_total start in
      inr {| est_treadmill := t; est_skiErg := s; est_rowing := r;
             est_total := total |}
  end.

End EstimateInput.

(* ===================================================================== *)
(** * Authentication context (context/AuthContext.tsx) *)
(* ===================================================================== *)

(** The fields of the Firebase user the components read. *)
Record User : Type := mkUser {
  email : option string;
  uid : string
}.

Record Auth : Type := mkAuth {
  user : option User;      (* [None] for a guest *)
  isAdmin : bool
}.

(** [a || b] on optional strings: the empty string is falsy. *)
Definition orElse (a b : option string) : option string :=
  match a with
  | Some s => if JS.nonEmpty s then Some s else b
  | None => b
  end.

Definition truthyStr (a : option string) : bool :=
  match a with
  | Some s => JS.nonEmpty s
  | None => false
  end.

(** [user?.email || user?.uid] *)
Definition currentUserId (auth : Auth) : option string :=
  match user auth with
  | Some u => orElse (email u) (Some (uid u))
  | None => None
  end.

(** [user?.email || user?.uid || undefined]: the identity recorded as
    [createdBy]. *)
Definition callerIdentity (auth : Auth) : option string :=
  orElse (currentUserId auth) None.

(** [a === b] on [string | undefined]. *)
Definition sameId (a b : option string) : bool :=
  match a, b with
  | Some x, Some y => String.eqb x y
  | None, None => true
  | _, _ => false
  end.

(* ===================================================================== *)
(** * components/RaceTimer.tsx *)
(* ===================================================================== *)

Module RaceTimer.

Record DisciplineInfo : Type := mkInfo {
  key : Discipline;
  name : string;
  distance : string
}.

Definition DISCIPLINES : list DisciplineInfo :=
  [ mkInfo treadmill "5000m Treadmill (10% incline)" "5000m";
    mkInfo skiErg "5000m SkiErg" "5000m";
    mkInfo rowing "2000m Rowing" "2000m" ].

(** The props that the handlers read.  The callbacks [onUpdate],
    [onUpdateEstimates] and [onRaceComplete] are the ones the manager
    passes; calling them is recorded as an [Effect]. *)
Record Props : Type := mkProps {
  raceId : string;
  racer : Person;
  initialStartTime : Z;            (* startTimeRef.current *)
  canModify : bool;
  raceCreatedBy : option string;
  auth : Auth                      (* useAuth() *)
}.

(** The component state the handlers read and write. *)
Record State : Type := mkState {
  st_splits : list Split;
  st_currentDisciplineIndex : nat;
  st_estimatedSplits : option EstimatedSplits
}.

(** Calls that leave the component. *)
Inductive Effect : Type :=
  | OnUpdate (newSplits : list Split) (newDisciplineIndex : nat)
  | OnUpdateEstimates (mergedEstimates : EstimatedSplits)
  | SaveResult (result : RaceResult)       (* storage.saveResult(result) *)
  | OnRaceComplete.

(** [handleComplete(finalSplits)]; [now] is its [Date.now()] and
    [completedAtNow] its [new Date().toISOString()]. *)
Definition handleComplete (p : Props) (finalSplits : list Split)
    (now : Z) (completedAtNow : string) : list Effect :=
  let totalTime := now - initialStartTime p in
  let createdBy := orElse (raceCreatedBy p) (callerIdentity (auth p)) in
  let result :=
    {| result_id := raceId p;
       personId := person_id (racer p);
       personName := person_name (racer p);
       result_splits := finalSplits;
       totalTime := totalTime;
       completedAt := completedAtNow;
       result_createdBy := createdBy |} in
  [SaveResult result; OnRaceComplete].

(** The clock reads of one run of [handleSplit], in program order: its
    own [Date.now()] and [new Date().toISOString()], then the two of
    [handleComplete] (read only when the race completes). *)
Record Clock : Type := mkClock {
  splitNow : Z;
  splitTimestamp : string;
  completeNow : Z;
  completeTimestamp : string
}.

(** [handleSplit].  [None] is the TypeError thrown by
    [DISCIPLINES[currentDisciplineIndex].key] when the index is out of
    range; it is thrown by the first statement, before any state update
    or callback. *)
Definition handleSplit (p : Props) (st : State) (c : Clock)
    : option (State * list Effect) :=
  match nth_error DISCIPLINES (st_currentDisciplineIndex st) with
  | None => None
  | Some info =>
      let discipline := key info in
      let splitTime := splitNow c - initialStartTime p - sumTimes (st_splits st) in
      let split := {| discipline := discipline; time := splitTime;
                      timestamp := splitTimestamp c |} in
      let newSplits := st_splits st ++ [split] in
      let newDisciplineIndex := (st_currentDisciplineIndex st + 1)%nat in
      let st' := {| st_splits := newSplits;
                    st_currentDisciplineIndex := newDisciplineIndex;
                    st_estimatedSplits := st_estimatedSplits st |} in
      Some (st',
            OnUpdate newSplits newDisciplineIndex ::
            (if (length DISCIPLINES <=? newDisciplineIndex)%nat
             then handleComplete p newSplits (completeNow c) (completeTimestamp c)
             else []))
  end.

(** [handleEstimateConfirm(newEstimates)]. *)
Definition mergeEstimates (estimatedSplits : option EstimatedSplits)
    (newEstimates : EstimatedSplits) : EstimatedSplits :=
  let merged := spread (spreadOpt estimatedSplits) newEstimates in
  if JS.truthyOpt (est_treadmill merged) && JS.truthyOpt (est_skiErg merged)
     && JS.truthyOpt (est_rowing merged)
  then {| est_treadmill := est_treadmill merged;
          est_skiErg := est_skiErg merged;
          est_rowing := est_rowing merged;
          est_total :=
            Some (JS.add (JS.add (JS.toNumber (est_treadmill merged))
                                 (JS.toNumber (est_skiErg merged)))
                         (JS.toNumber (est_rowing merged))) |}
  else merged.

Definition handleEstimateConfirm (st : State) (newEstimates : EstimatedSplits)
    : State * list Effect :=
  let mergedEstimates := mergeEstimates (st_estimatedSplits st) newEstimates in
  ({| st_splits := st_splits st;
      st_currentDisciplineIndex := st_currentDisciplineIndex st;
      st_estimatedSplits := Some mergedEstimates |},
   [OnUpdateEstimates mergedEstimates]).

(** [handleStop]: clears the display interval and calls [onRaceComplete]. *)
Definition handleStop (st : State) : State * list Effect :=
  (st, [OnRaceComplete]).

(** ** What the component renders *)

Definition isComplete (st : State) : bool :=
  (length DISCIPLINES <=? st_currentDisciplineIndex st)%nat.

(** [!isComplete && canModify]: the Take Split button. *)
Definition splitOffered (p : Props) (st : State) : bool :=
  negb (isComplete st) && canModify p.

(** [canModify]: the Stop button. *)
Definition stopOffered (p : Props) (st : State) : bool := canModify p.

(** [estimatedSplits && canModify] renders the Edit estimates button,
    [!estimatedSplits && canModify] the Add Estimate button; either opens
    the estimate form. *)
Definition estimateEditOffered (p : Props) (st : State) : bool :=
  match st_estimatedSplits st with
  | Some _ => canModify p      (* Edit estimates *)
  | None => canModify p        (* Add Estimate *)
  end.

(** ** User actions: a handler runs only through a rendered button *)

(** A click on Take Split.  A handler that throws leaves the state as it
    was. *)
Definition takeSplit (p : Props) (st : State) (c : Clock) : State * list Effect :=
  if splitOffered p st then
    match handleSplit p st c with
    | Some r => r
    | None => (st, [])
    end
  else (st, []).

(** A click on Stop. *)
Definition stop (p : Props) (st : State) : State * list Effect :=
  if stopOffered p st then handleStop st else (st, []).

(** Opening the estimate form and pressing Confirm: the form is
    [EstimateInput] with [existingEstimates = estimatedSplits] and
    [completedSplits = splits]; a rejected form changes nothing. *)
Definition editEstimates (p : Props) (st : State) (f : EstimateInput.Form)
    : State * list Effect :=
  if estimateEditOffered p st then
    match EstimateInput.handleConfirm (st_estimatedSplits st) (st_splits st) f with
    | inl _ => (st, [])
    | inr newEstimates => handleEstimateConfirm st newEstimates
    end
  else (st, []).

End RaceTimer.

(* ===================================================================== *)
(** * storage.ts *)
(* ===================================================================== *)

Module Storage.

(** [Omit<Person, 'id'>]: the data of a person document. *)
Record PersonData : Type := mkPersonData {
  pd_name : string;
  pd_createdAt : string;
  pd_createdBy : option string
}.

(** [Omit<RaceResult, 'id'>]: the data of a result document. *)
Record ResultData : Type := mkResultData {
  rd_personId : string;
  rd_personName : string;
  rd_splits : list Split;
  rd_totalTime : Z;
  rd_completedAt : string;
  rd_createdBy : option string
}.

(** The two Firestore collections and the module's caches.  The caches
    are written by the snapshot listeners only. *)
Record Store : Type := mkStore {
  personsDocs : gmap string PersonData;
  resultsDocs : gmap string ResultData;
  personsCache : list Person;
  resultsCache : list RaceResult
}.

(** [if (createdBy) data.createdBy = createdBy] *)
Definition keepIfTruthy (createdBy : option string) : option string :=
  if truthyStr createdBy then createdBy else None.

Definition getPersons (st : Store) : list Person := personsCache st.

Definition getResults (st : Store) : list RaceResult := resultsCache st.

(** [savePerson]: [setDoc] under the person's own id. *)
Definition savePerson (st : Store) (p : Person) : Store :=
  let data := {| pd_name := person_name p;
                 pd_createdAt := person_createdAt p;
                 pd_createdBy := keepIfTruthy (person_createdBy p) |} in
  {| personsDocs := <[person_id p := data]> (personsDocs st);
     resultsDocs := resultsDocs st;
     personsCache := personsCache st;
     resultsCache := resultsCache st |}.

(** [createPerson].  [createdAtNow] is [new Date().toISOString()],
    [docId] the document id that [addDoc] generates, [uuid] the value of
    [crypto.randomUUID()]. *)
Definition createPerson (st : Store) (name : string) (createdBy : option string)
    (createdAtNow : string) (docId : string) (uuid : string) : Store * Person :=
  let temp := {| pd_name := name;
                 pd_createdAt := createdAtNow;
                 pd_createdBy := keepIfTruthy createdBy |} in
  ({| personsDocs := <[docId := temp]> (personsDocs st);
      resultsDocs := resultsDocs st;
      personsCache := personsCache st;
      resultsCache := resultsCache st |},
   {| person_id := uuid;
      person_name := pd_name temp;
      person_createdAt := pd_createdAt temp;
      person_createdBy := pd_createdBy temp |}).

Definition getPerson (st : Store) (id : string) : option Person :=
  find (fun p => String.eqb (person_id p) id) (personsCache st).

Definition deletePerson (st : Store) (id : string) : Store :=
  {| personsDocs := delete id (personsDocs st);
     resultsDocs := resultsDocs st;
     personsCache := personsCache st;
     resultsCache := resultsCache st |}.

(** [saveResult]: [setDoc] under the result's own id. *)
Definition saveResult (st : Store) (r : RaceResult) : Store :=
  let data := {| rd_personId := personId r;
                 rd_personName := personName r;
                 rd_splits := result_splits r;
                 rd_totalTime := totalTime r;
                 rd_completedAt := completedAt r;
                 rd_createdBy := keepIfTruthy (result_createdBy r) |} in
  {| personsDocs := personsDocs st;
     resultsDocs := <[result_id r := data]> (resultsDocs st);
     personsCache := personsCache st;
     resultsCache := resultsCache st |}.

Definition deleteResult (st : Store) (id : string) : Store :=
  {| personsDocs := personsDocs st;
     resultsDocs := delete id (resultsDocs st);
     personsCache := personsCache st;
     resultsCache := resultsCache st |}.

End Storage.

(* ===================================================================== *)
(** * components/ActiveRacesManager.tsx *)
(* ===================================================================== *)

Module ActiveRacesManager.

(** A document of the [activeRaces] collection.  A field is [None] when
    the document has no such key (a merge write can create a document
    with some keys only) or, for the two nullable fields, holds [null]. *)
Record ActiveRaceDoc : Type := mkDoc {
  doc_person : option Person;
  doc_startTime : option Z;
  doc_splits : option (list Split);
  doc_currentDisciplineIndex : option nat;
  doc_estimatedSplits : option EstimatedSplits;
  doc_createdBy : option string
}.

Definition emptyDoc : ActiveRaceDoc := mkDoc None None None None None None.

(** The shared collections. *)
Record World : Type := mkWorld {
  storage : Storage.Store;
  activeRaceDocs : gmap string ActiveRaceDoc
}.

Inductive StartOutcome : Type :=
  | DuplicateActiveRace (alert : string)
  | Started.

(** [r.person.id === person.id] *)
Definition racesOf (p : Person) (r : ActiveRace) : bool :=
  String.eqb (person_id (person r)) (person_id p).

(** [startRace].  [currentRaces] is the component's [activeRaces] state,
    [uuid] the value of [crypto.randomUUID()], [now] of [Date.now()]. *)
Definition startRace (a : Auth) (currentRaces : list ActiveRace) (w : World)
    (p : Person) (estimates : option EstimatedSplits)
    (uuid : string) (now : Z) : World * StartOutcome :=
  if existsb (racesOf p) currentRaces then
    (w, DuplicateActiveRace (person_name p +:+ " already has an active race!"))
  else
    let newRace := {| race_id := uuid;
                      person := p;
                      startTime := now;
                      splits := [];
                      currentDisciplineIndex := 0%nat;
                      estimatedSplits := estimates;
                      createdBy := callerIdentity a |} in
    ({| storage := storage w;
        activeRaceDocs :=
          <[race_id newRace :=
              {| doc_person := Some (person newRace);
                 doc_startTime := Some (startTime newRace);
                 doc_splits := Some (splits newRace);
                 doc_currentDisciplineIndex := Some (currentDisciplineIndex newRace);
                 doc_estimatedSplits := estimatedSplits newRace;
                 doc_createdBy := createdBy newRace |}]>
          (activeRaceDocs w) |},
     Started).

(** The guard of [removeRace]:
    [!isAdmin && race?.createdBy && race.createdBy !== currentUserId]. *)
Definition removeDenied (a : Auth) (race : option ActiveRace) : bool :=
  negb (isAdmin a)
  && match race with
     | Some r => truthyStr (createdBy r)
                 && negb (sameId (createdBy r) (currentUserId a))
     | None => false
     end.

(** [removeRace(raceId)]; [activeRaces] is the component state. *)
Definition removeRace (a : Auth) (activeRaces : list ActiveRace) (w : World)
    (raceId : string) : World :=
  let race := find (fun r => String.eqb (race_id r) raceId) activeRaces in
  if removeDenied a race then w
  else {| storage := storage w;
          activeRaceDocs := delete raceId (activeRaceDocs w) |}.

(** [handleRaceComplete(raceId)]: [removeRace], then the parent's
    [onRaceComplete], which only bumps a refresh counter. *)
Definition handleRaceComplete (a : Auth) (activeRaces : list ActiveRace)
    (w : World) (raceId : string) : World :=
  removeRace a activeRaces w raceId.

(** [isAdmin || (!!race.createdBy && race.createdBy === currentUserId)] *)
Definition canModify (a : Auth) (race : ActiveRace) : bool :=
  isAdmin a
  || (truthyStr (createdBy race) && sameId (createdBy race) (currentUserId a)).

(** The props and the state of the [RaceTimer] rendered for [race]. *)
Definition propsFor (a : Auth) (race : ActiveRace) : RaceTimer.Props :=
  {| RaceTimer.raceId := race_id race;
     RaceTimer.racer := person race;
     RaceTimer.initialStartTime := startTime race;
     RaceTimer.canModify := canModify a race;
     RaceTimer.raceCreatedBy := createdBy race;
     RaceTimer.auth := a |}.

Definition stateFor (race : ActiveRace) : RaceTimer.State :=
  {| RaceTimer.st_splits := splits race;
     RaceTimer.st_currentDisciplineIndex := currentDisciplineIndex race;
     RaceTimer.st_estimatedSplits := estimatedSplits race |}.

(** [setDoc(ref, fields, { merge: true })]: the given fields replace the
    stored ones, a nested map key by key, and the other fields stay; a
    missing document is created with the given fields only. *)
Definition mergeDoc (raceId : string) (f : ActiveRaceDoc -> ActiveRaceDoc)
    (docs : gmap string ActiveRaceDoc) : gmap string ActiveRaceDoc :=
  partial_alter (fun d => Some (f (default emptyDoc d))) raceId docs.

(** What a call leaving the [RaceTimer] of [race] does to the world. *)
Definition perform (a : Auth) (activeRaces : list ActiveRace)
    (race : ActiveRace) (w : World) (e : RaceTimer.Effect) : World :=
  match e with
  | RaceTimer.OnUpdate newSplits newIndex =>
      {| storage := storage w;
         activeRaceDocs :=
           mergeDoc (race_id race)
             (fun d => {| doc_person := doc_person d;
                          doc_startTime := doc_startTime d;
                          doc_splits := Some newSplits;
                          doc_currentDisciplineIndex := Some newIndex;
                          doc_estimatedSplits := doc_estimatedSplits d;
                          doc_createdBy := doc_createdBy d |})
             (activeRaceDocs w) |}
  | RaceTimer.OnUpdateEstimates est =>
      {| storage := storage w;
         activeRaceDocs :=
           mergeDoc (race_id race)
             (fun d => {| doc_person := doc_person d;
                          doc_startTime := doc_startTime d;
                          doc_splits := doc_splits d;
                          doc_currentDisciplineIndex := doc_currentDisciplineIndex d;
                          doc_estimatedSplits :=
                            Some (spread (spreadOpt (doc_estimatedSplits d)) est);
                          doc_createdBy := doc_createdBy d |})
             (activeRaceDocs w) |}
  | RaceTimer.SaveResult r =>
      {| storage := Storage.saveResult (storage w) r;
         activeRaceDocs := activeRaceDocs w |}
  | RaceTimer.OnRaceComplete =>
      handleRaceComplete a activeRaces w (race_id race)
  end.

Definition performAll (a : Auth) (activeRaces : list ActiveRace)
    (race : ActiveRace) (w : World) (es : list RaceTimer.Effect) : World :=
  fold_left (perform a activeRaces race) es w.

(** ** Operator actions on a displayed race *)

Definition takeSplit (a : Auth) (activeRaces : list ActiveRace) (w : World)
    (race : ActiveRace) (c : RaceTimer.Clock) : World :=
  performAll a activeRaces race w
    (snd (RaceTimer.takeSplit (propsFor a race) (stateFor race) c)).

Definition updateEstimates (a : Auth) (activeRaces : list ActiveRace) (w : World)
    (race : ActiveRace) (f : EstimateInput.Form) : World :=
  performAll a activeRaces race w
    (snd (RaceTimer.editEstimates (propsFor a race) (stateFor race) f)).

Definition stopRace (a : Auth) (activeRaces : list ActiveRace) (w : World)
    (race : ActiveRace) : World :=
  performAll a activeRaces race w
    (snd (RaceTimer.stop (propsFor a race) (stateFor race))).

End ActiveRacesManager.

(* ===================================================================== *)
(** * components/Leaderboard.tsx *)
(* ===================================================================== *)

Module Leaderboard.
Import JS.

Inductive SortField : Type :=
  | sortTotal
  | sortTreadmill
  | sortSkiErg
  | sortRowing.

Inductive SortDirection : Type := asc | desc.

Definition SortField_eqb (a b : SortField) : bool :=
  match a, b with
  | sortTotal, sortTotal | sortTreadmill, sortTreadmill
  | sortSkiErg, sortSkiErg | sortRowing, sortRowing => true
  | _, _ => false
  end.

(** What the comparator reads of an element of [allResults]:
    [r.splits.find(s => s.discipline === d)?.time] and [r.totalTime].
    The list holds the stored results and the provisional entries of the
    active races, so its elements are of more than one kind and their
    times are JavaScript numbers: a time entered by hand or taken from an
    estimate can be fractional or [Infinity]. *)
Class Timed (A : Type) : Type := {
  splitTimeOf : Discipline -> A -> option number;
  totalTimeOf : A -> number
}.

(** A result of the timer, with its integer times. *)
#[export] Instance RaceResult_Timed : Timed RaceResult := {|
  splitTimeOf d r :=
    match find (isDiscipline d) (result_splits r) with
    | Some s => Some (ofZ (time s))
    | None => None
    end;
  totalTimeOf r := ofZ (totalTime r)
|}.

(** The elements of a list that joins two kinds of entries. *)
#[export] Instance sum_Timed {A B : Type} `{Timed A} `{Timed B} : Timed (A + B) := {|
  splitTimeOf d r :=
    match r with
    | inl a => splitTimeOf d a
    | inr b => splitTimeOf d b
    end;
  totalTimeOf r :=
    match r with
    | inl a => totalTimeOf a
    | inr b => totalTimeOf b
    end
|}.

Section Sorting.
Context {A : Type} `{Timed A}.

(** [r.splits.find(s => s.discipline === d)?.time || Infinity] *)
Definition splitValue (d : Discipline) (r : A) : number :=
  match splitTimeOf d r with
  | Some t => if truthy t then t else PosInf
  | None => PosInf
  end.

(** [aValue] (or [bValue]) of the comparator, by sort field. *)
Definition sortValue (sortField : SortField) (r : A) : number :=
  match sortField with
  | sortTotal => totalTimeOf r
  | sortTreadmill => splitValue treadmill r
  | sortSkiErg => splitValue skiErg r
  | sortRowing => splitValue rowing r
  end.

(** The comparator passed to [sort]. *)
Definition compareResults (sortField : SortField) (sortDirection : SortDirection)
    (a b : A) : number :=
  let aValue := sortValue sortField a in
  let bValue := sortValue sortField b in
  match sortDirection with
  | asc => sub aValue bValue
  | desc => sub bValue aValue
  end.

(** [sortedResults]: [[...allResults].sort(comparator)]. *)
Definition sortedResults (allResults : list A) (sortField : SortField)
    (sortDirection : SortDirection) : list A :=
  sort (compareResults sortField sortDirection) allResults.
End Sorting.

(** [allResults]: [[...results, ...estimatedResults]]. *)
Definition allResults {R E : Type} (results : list R) (estimatedResults : list E)
    : list (R + E) :=
  map inl results ++ map inr estimatedResults.

(** [handleSort(field)] on the state [(sortField, sortDirection)]. *)
Definition handleSort (field : SortField) (st : SortField * SortDirection)
    : SortField * SortDirection :=
  let '(sortField, sortDirection) := st in
  if SortField_eqb sortField field then
    (sortField, match sortDirection with asc => desc | desc => asc end)
  else (field, asc).

End Leaderboard.

(* ===================================================================== *)
(** * utils/excelBackup.ts: import *)
(* ===================================================================== *)

Module ExcelBackup.

(** A row of the Results sheet as [sheet_to_json] returns it; a cell that
    is empty is an absent key. *)
Record ResultRow : Type := mkResultRow {
  row_resultId : option string;          (* 'Result ID' *)
  row_personName : option string;        (* 'Person Name' *)
  row_personId : option string;          (* 'Person ID' *)
  row_treadmillMs : option Z;            (* 'Treadmill Time (ms)' *)
  row_skiErgMs : option Z;               (* 'SkiErg Time (ms)' *)
  row_rowingMs : option Z;               (* 'Rowing Time (ms)' *)
  row_totalMs : option Z;                (* 'Total Time (ms)' *)
  row_completedAt : option string        (* 'Completed At' *)
}.

(** A row of the Persons sheet. *)
Record PersonRow : Type := mkPersonRow {
  prow_id : option string;               (* 'ID' *)
  prow_name : option string;             (* 'Name' *)
  prow_createdAt : option string         (* 'Created At' *)
}.

(** What the run time supplies while one result row is processed: the
    [new Date().toISOString()] of each reconstructed split, and, for
    [storage.createPerson], its timestamp, the document id chosen by
    [addDoc] and the value of [crypto.randomUUID()]; last the default
    for [completedAt]. *)
Record RowEnv : Type := mkRowEnv {
  treadmillStamp : string;
  skiErgStamp : string;
  rowingStamp : string;
  createdAtNow : string;
  docId : string;
  uuid : string;
  completedAtNow : string
}.

(** [a || b] where [a] is an optional string and [b] a string. *)
Definition orDefault (a : option string) (b : string) : string :=
  match orElse a (Some b) with
  | Some s => s
  | None => b
  end.

(** [ms && ms > 0] *)
Definition positiveMs (ms : option Z) : bool :=
  match ms with
  | Some z => negb (z =? 0) && (0 <? z)
  | None => false
  end.

Definition splitOf (d : Discipline) (ms : option Z) (stamp : string) : list Split :=
  if positiveMs ms then
    [{| discipline := d; time := default 0 ms; timestamp := stamp |}]
  else [].

Definition hasId (ids : list string) (id : string) : bool :=
  existsb (String.eqb id) ids.

(** The body of [personsData.forEach]. *)
Definition importPerson (existingPersonIds : list string) (st : Storage.Store)
    (rowAndNow : PersonRow * string) : Storage.Store :=
  let '(personRow, now) := rowAndNow in
  match prow_id personRow, prow_name personRow with
  | Some id, Some name =>
      if JS.nonEmpty id && JS.nonEmpty name && negb (hasId existingPersonIds id)
      then Storage.savePerson st
             {| person_id := id;
                person_name := name;
                person_createdAt := orDefault (prow_createdAt personRow) now;
                person_createdBy := None |}
      else st
  | _, _ => st
  end.

(** The import state: the store and the two counters. *)
Record Progress : Type := mkProgress {
  store : Storage.Store;
  importedCount : nat;
  skippedCount : nat
}.

(** "Find or create person" for a row without a Person ID. *)
Definition findOrCreatePerson (st : Storage.Store) (personName : string)
    (env : RowEnv) : Storage.Store * string :=
  match find (fun p => String.eqb (person_name p) personName)
             (Storage.getPersons st) with
  | Some p => (st, person_id p)
  | None =>
      let '(st', newPerson) :=
        Storage.createPerson st personName None
          (createdAtNow env) (docId env) (uuid env) in
      (st', person_id newPerson)
  end.

(** The body of [resultsData.forEach]. *)
Definition importResult (existingResultIds : list string) (pr : Progress)
    (rowAndEnv : ResultRow * RowEnv) : Progress :=
  let '(row, env) := rowAndEnv in
  match orElse (row_resultId row) None, orElse (row_personName row) None with
  | Some resultId, Some rowName =>
      if hasId existingResultIds resultId then
        {| store := store pr;
           importedCount := importedCount pr;
           skippedCount := S (skippedCount pr) |}
      else
        let splits :=
          splitOf treadmill (row_treadmillMs row) (treadmillStamp env)
          ++ splitOf skiErg (row_skiErgMs row) (skiErgStamp env)
          ++ splitOf rowing (row_rowingMs row) (rowingStamp env) in
        let '(st1, personId) :=
          match orElse (row_personId row) None with
          | Some id => (store pr, id)
          | None => findOrCreatePerson (store pr) rowName env
          end in
        let result :=
          {| result_id := resultId;
             personId := personId;
             personName := rowName;
             result_splits := splits;
             totalTime := default 0 (row_totalMs row);
             completedAt := orDefault (row_completedAt row) (completedAtNow env);
             result_createdBy := None |} in
        {| store := Storage.saveResult st1 result;
           importedCount := S (importedCount pr);
           skippedCount := skippedCount pr |}
  | _, _ => pr
  end.

(** The workbook read from the file. *)
Record Workbook : Type := mkWorkbook {
  resultsSheet : option (list (ResultRow * RowEnv));
  personsSheet : option (list (PersonRow * string))
}.

Record ImportReport : Type := mkReport {
  success : bool;
  message : string
}.

(** [importFromExcel], from the parsed workbook on. *)
Definition importFromExcel (st : Storage.Store) (wb : Workbook)
    : Storage.Store * ImportReport :=
  match resultsSheet wb with
  | None => (st, {| success := false; message := "Results sheet not found in file" |})
  | Some resultsData =>
      let personsData := default [] (personsSheet wb) in
      let existingPersonIds := map person_id (Storage.getPersons st) in
      let st1 := fold_left (importPerson existingPersonIds) personsData st in
      let existingResultIds := map result_id (Storage.getResults st1) in
      let pr := fold_left (importResult existingResultIds) resultsData
                  {| store := st1; importedCount := 0; skippedCount := 0 |} in
      (store pr,
       {| success := true;
          message :=
            "Import successful! Imported "
            +:+ JS.toString (Z.of_nat (importedCount pr)) +:+ " results"
            +:+ (if (0 <? skippedCount pr)%nat
                 then ", skipped " +:+ JS.toString (Z.of_nat (skippedCount pr))
                      +:+ " duplicates"
                 else "")
            +:+ "." |})
  end.

End ExcelBackup.

(* ===================================================================== *)
(** * Vocabulary of the properties *)
(* ===================================================================== *)

Module Spec.
Import JS EstimateInput Leaderboard.

(** ** Race timer *)

(** The sum of the split times of a list, as a plain recursion. *)
Fixpoint totalOf (l : list Split) : Z :=
  match l with
  | [] => 0
  | s :: l' => time s + totalOf l'
  end.

(** ** Permissions *)

(** The caller is an admin, or the race carries a non-empty [createdBy]
    that is the caller's identity. *)
Definition mayModify (a : Auth) (race : ActiveRace) : Prop :=
  isAdmin a = true
  \/ exists id, createdBy race = Some id /\ id <> ""
                /\ currentUserId a = Some id.

(** ** Numbers and estimates *)

(** A number that passes the guards of [parseTimeToMs]. *)
Definition nonNegative (x : number) : Prop :=
  isNaN x = false /\ ltZero x = false.

(** [total] is present exactly when the three disciplines are, and then
    it is their sum. *)
Definition TotalInvariant (e : EstimatedSplits) : Prop :=
  (is_Some (est_total e)
     <-> is_Some (est_treadmill e) /\ is_Some (est_skiErg e)
         /\ is_Some (est_rowing e))
  /\ (forall tot, est_total e = Some tot ->
        exists t s r, est_treadmill e = Some t /\ est_skiErg e = Some s
                      /\ est_rowing e = Some r /\ tot = add (add t s) r).

Definition positiveOpt (o : option number) : Prop :=
  forall v, o = Some v -> gtZero v = true.

(** The invariant together with what makes it inductive: the estimates
    that are present are positive. *)
Definition WellFormed (e : EstimatedSplits) : Prop :=
  TotalInvariant e
  /\ positiveOpt (est_treadmill e) /\ positiveOpt (est_skiErg e)
  /\ positiveOpt (est_rowing e).

Definition WellFormedOpt (o : option EstimatedSplits) : Prop :=
  forall e, o = Some e -> WellFormed e.

(** The estimates that estimate edits produce.  A race is started without
    estimates, or with the object that the estimate form of the race
    starter confirms (no existing estimates, no completed split).
    Afterwards every edit runs the form on the estimates it was opened
    with and on the recorded splits, and merges its result into the
    estimates that the timer holds when the form is confirmed (the two
    differ when another edit arrives in between); both are objects that
    earlier edits produced.  The merged object has every key of the
    estimates it was merged into, so writing it to the race document
    from which they were read replaces the stored map. *)
Inductive FromEdits : option EstimatedSplits -> Prop :=
  | fromEdits_none : FromEdits None
  | fromEdits_start (f : Form) (e : EstimatedSplits) :
      handleConfirm None [] f = inr e ->
      FromEdits (Some e)
  | fromEdits_edit (shown stored : option EstimatedSplits)
      (completed : list Split) (f : Form) (new : EstimatedSplits) :
      FromEdits shown ->
      FromEdits stored ->
      handleConfirm shown completed f = inr new ->
      FromEdits (Some (RaceTimer.mergeEstimates stored new)).

(** ** Field texts of the estimate form *)

(** The trimmed, colon-separated parts of a field text. *)
Definition parts (s : string) : list string := map trim (split ":" (trim s)).

(** The numbers that [parseTimeToMs] reads from the parts: [parseInt] for
    hours and minutes, [parseFloat] for seconds. *)
Definition components (s : string) : list number :=
  match parts s with
  | [p0; p1] => [parseInt p0; parseFloat p1]
  | [p0; p1; p2] => [parseInt p0; parseInt p1; parseFloat p2]
  | _ => []
  end.

(** [NaN] (no leading number in the part) or negative. *)
Definition unusable (c : number) : Prop :=
  isNaN c = true \/ ltZero c = true.

(** [handleConfirm] flags a non-blank field when [if (ms)] fails. *)
Definition rejected (s : string) : bool := negb (truthyOpt (parseTimeToMs s)).

(** A field that [handleConfirm] reads: its discipline is not completed
    and its text is not blank. *)
Definition touched (completed : list Split) (f : Form) (d : Discipline) : Prop :=
  isCompleted completed d = false /\ trim (inputOf d f) <> "".

(** ** Leaderboard order *)

(** For a class of elements that a comparator puts late: once a late
    element occurs, only late elements follow. *)
Definition lateStays {A : Type} (late : A -> bool) (x y : A) : Prop :=
  late x = true -> late y = true.

Definition fieldOf (d : Discipline) : SortField :=
  match d with
  | treadmill => sortTreadmill
  | skiErg => sortSkiErg
  | rowing => sortRowing
  end.

(** The entry has a split of the discipline. *)
Definition hasSplit {A : Type} `{Timed A} (d : Discipline) (r : A) : Prop :=
  is_Some (splitTimeOf d r).

Definition isPosInf (x : number) : bool :=
  match x with PosInf => true | _ => false end.

(** The entry has a split of the discipline whose time is a duration:
    not 0, not [NaN] and not [Infinity]. *)
Definition hasTime {A : Type} `{Timed A} (d : Discipline) (r : A) : Prop :=
  exists t, splitTimeOf d r = Some t /\ truthy t = true /\ t <> PosInf.

(** The comparator's value is the "no time" sentinel. *)
Definition noTime {A : Type} `{Timed A} (d : Discipline) (r : A) : bool :=
  match splitTimeOf d r with
  | Some t => negb (truthy t) || isPosInf t
  | None => true
  end.

(** ** Strings of digits *)

Fixpoint allChars (P : ascii -> bool) (s : string) : bool :=
  match s with
  | EmptyString => true
  | String c s' => P c && allChars P s'
  end.

Definition notColon (c : ascii) : bool := negb (Ascii.eqb c ":").

Definition notSpace (c : ascii) : bool := negb (isWhiteSpace c).

(** [s] is a non-empty string of digits that reads as [v]. *)
Definition numeral (s : string) (v : N) : Prop :=
  allChars isDigit s = true
  /\ exists k, (0 < k)%nat
       /\ forall cnt, scanDigits s 0%N cnt = (v, (cnt + k)%nat, EmptyString).

(** [Number.MAX_SAFE_INTEGER]: up to it every integer is a JavaScript
    number and [toString] prints its plain decimal digits. *)
Definition MAX_SAFE_INTEGER : Z := 9007199254740991.

End Spec.

(* ===================================================================== *)
(** * Example data *)
(* ===================================================================== *)

Module Examples.
Import ActiveRacesManager Storage ExcelBackup EstimateInput RaceTimer.

(** The scenario: a race of person P, started at 0, with the treadmill and
    skiErg splits recorded after 900000 ms and a further 1100000 ms. *)
Definition scenarioPerson : Person :=
  {| person_id := "p1"; person_name := "P";
     person_createdAt := "2024-01-01T00:00:00.000Z"; person_createdBy := None |}.

Definition scenarioProps : Props :=
  {| raceId := "race-1"; racer := scenarioPerson; initialStartTime := 0;
     canModify := true; raceCreatedBy := Some "op@example.org";
     auth := {| user := None; isAdmin := true |} |}.

Definition scenarioState : State :=
  {| st_splits := [ mkSplit treadmill 900000 "t1"; mkSplit skiErg 1100000 "t2" ];
     st_currentDisciplineIndex := 2;
     st_estimatedSplits := None |}.

(** The clock shows 2500000 when the third split is computed and 2500001
    when [handleComplete] reads it again. *)
Definition scenarioClock : Clock :=
  {| splitNow := 2500000; splitTimestamp := "t3";
     completeNow := 2500001; completeTimestamp := "t4" |}.

(** The state after the third split of the scenario. *)
Definition completedState : State :=
  {| st_splits := [ mkSplit treadmill 900000 "t1"; mkSplit skiErg 1100000 "t2";
                    mkSplit rowing 500000 "t3" ];
     st_currentDisciplineIndex := 3;
     st_estimatedSplits := None |}.

Definition alice : Auth :=
  {| user := Some {| email := Some "alice@example.org"; uid := "u-alice" |};
     isAdmin := false |}.

Definition bobsRace : ActiveRace :=
  {| race_id := "race-7";
     person := scenarioPerson;
     startTime := 1000;
     splits := [];
     currentDisciplineIndex := 0;
     estimatedSplits := None;
     createdBy := Some "bob@example.org" |}.

Definition someWorld : World :=
  {| storage := {| Storage.personsDocs := ∅; Storage.resultsDocs := ∅;
                   Storage.personsCache := []; Storage.resultsCache := [] |};
     activeRaceDocs :=
       {[ "race-7" := {| doc_person := Some scenarioPerson;
                         doc_startTime := Some 1000;
                         doc_splits := Some [];
                         doc_currentDisciplineIndex := Some 0%nat;
                         doc_estimatedSplits := None;
                         doc_createdBy := Some "bob@example.org" |} ]} |}.

Definition fullForm : Form := mkForm "15:30" "18:45" "7:30".

Definition partialForm : Form := mkForm "" "18:45" "7:30".

(** What the form confirms for [fullForm] at the start of a race. *)
Definition fullEstimates : EstimatedSplits :=
  match handleConfirm None [] fullForm with
  | inr e => e
  | inl _ => noEstimates
  end.

(** The treadmill field cleared in a later edit. *)
Definition editedEstimates : EstimatedSplits :=
  match handleConfirm (Some fullEstimates) [] partialForm with
  | inr e => RaceTimer.mergeEstimates (Some fullEstimates) e
  | inl _ => noEstimates
  end.

Definition finisher : RaceResult :=
  {| result_id := "r1"; personId := "p1"; personName := "A";
     result_splits := [ mkSplit treadmill 900000 "t1";
                        mkSplit skiErg 1100000 "t2";
                        mkSplit rowing 500000 "t3" ];
     totalTime := 2500000; completedAt := "t3"; result_createdBy := None |}.

(** A provisional entry with no treadmill split. *)
Definition noTreadmill : RaceResult :=
  {| result_id := "estimated-r2"; personId := "p2"; personName := "B";
     result_splits := [ mkSplit skiErg 1000000 "t4" ];
     totalTime := 1000000; completedAt := "t0"; result_createdBy := None |}.

Definition emptyStore : Store :=
  {| personsDocs := ∅; resultsDocs := ∅; personsCache := []; resultsCache := [] |}.

Definition importEnv : RowEnv :=
  {| treadmillStamp := "t1"; skiErgStamp := "t2"; rowingStamp := "t3";
     createdAtNow := "t4";
     docId := "Xk29dLmQpR7sTuVw01Ab";
     uuid := "3f2b8c1e-5d4a-4e6f-9a7b-0c1d2e3f4a5b";
     completedAtNow := "t5" |}.

(** A result row without Person ID. *)
Definition importRow : ResultRow :=
  {| row_resultId := Some "res-1";
     row_personName := Some "Kari";
     row_personId := None;
     row_treadmillMs := Some 900000;
     row_skiErgMs := Some 1100000;
     row_rowingMs := Some 500000;
     row_totalMs := Some 2500000;
     row_completedAt := Some "2024-05-01T10:00:00.000Z" |}.

End Examples.

Import Spec Examples.

(* ===================================================================== *)
(** * components/RaceTimer.tsx: comparison with the estimates *)
(* ===================================================================== *)

Module RaceTimerView.
Import JS RaceTimer.

(** [Math.abs] *)
Definition abs (x : number) : number :=
  match x with
  | NaN => NaN
  | NegInf | PosInf => PosInf
  | Fin _ => if ltZero x then neg x else x
  end.

(** [{ ahead, diff }] *)
Record Comparison : Type := mkComparison {
  ahead : bool;
  diff : number
}.

(** [{ ahead: diff < 0, diff: Math.abs(diff) }] *)
Definition comparisonOf (d : number) : Comparison :=
  {| ahead := ltZero d; diff := abs d |}.

(** [a || b] on [number | undefined]. *)
Definition orOpt (a b : option number) : option number :=
  if truthyOpt a then a else b.

(** [a || 0] on [number | undefined]. *)
Definition orZero (a : option number) : number :=
  match orOpt a (Some zero) with
  | Some v => v
  | None => zero
  end.

(** [splits.find(s => s.discipline === d)?.time] *)
Definition recordedTime (d : Discipline) (l : list Split) : option number :=
  match find (isDiscipline d) l with
  | Some s => Some (ofZ (time s))
  | None => None
  end.

(** [getEstimateComparison(discipline)]: a recorded split against its
    estimate. *)
Definition getEstimateComparison (st : State) (d : Discipline)
    : option Comparison :=
  match st_estimatedSplits st with
  | None => None
  | Some est =>
      match estimateOf d est with
      | None => None
      | Some estimatedTime =>
          if negb (truthy estimatedTime) then None
          else
            match find (isDiscipline d) (st_splits st) with
            | None => None
            | Some actualSplit =>
                Some (comparisonOf (sub (ofZ (time actualSplit)) estimatedTime))
            end
      end
  end.

(** [getTotalEstimateComparison()]; [currentTime] is the component's
    elapsed time, [Date.now() - startTimeRef.current] at the last tick. *)
Definition getTotalEstimateComparison (st : State) (currentTime : Z)
    : option Comparison :=
  match st_estimatedSplits st with
  | None => None
  | Some est =>
      let treadmillTime :=
        orZero (orOpt (recordedTime treadmill (st_splits st)) (est_treadmill est)) in
      let skiErgTime :=
        orZero (orOpt (recordedTime skiErg (st_splits st)) (est_skiErg est)) in
      let rowingTime :=
        orZero (orOpt (recordedTime rowing (st_splits st)) (est_rowing est)) in
      let adjustedEstimatedTotal := add (add treadmillTime skiErgTime) rowingTime in
      if isZero adjustedEstimatedTotal then None
      else Some (comparisonOf (sub (ofZ currentTime) adjustedEstimatedTotal))
  end.

(** [getNextSplitComparison()]: the running discipline against its
    estimate, with the discipline's display name. *)
Definition getNextSplitComparison (st : State) (currentTime : Z)
    : option (Comparison * string) :=
  match st_estimatedSplits st with
  | None => None
  | Some est =>
      if (length DISCIPLINES <=? st_currentDisciplineIndex st)%nat then None
      else
        match nth_error DISCIPLINES (st_currentDisciplineIndex st) with
        | None => None
        | Some currentDiscipline =>
            match estimateOf (key currentDiscipline) est with
            | None => None
            | Some estimatedTime =>
                if negb (truthy estimatedTime) then None
                else
                  let completedSplitsTime := sumTimes (st_splits st) in
                  let currentDisciplineElapsed := currentTime - completedSplitsTime in
                  Some (comparisonOf (sub (ofZ currentDisciplineElapsed) estimatedTime),
                        name currentDiscipline)
            end
        end
  end.

End RaceTimerView.

(* ===================================================================== *)
(** * storage.ts: reads of the results cache *)
(* ===================================================================== *)

Module StorageReads.
Import JS.

(** The result that the snapshot listener builds from a document:
    [{ id: d.id, ...d.data() }]. *)
Definition resultOfDoc (id : string) (d : Storage.ResultData) : RaceResult :=
  {| result_id := id;
     personId := Storage.rd_personId d;
     personName := Storage.rd_personName d;
     result_splits := Storage.rd_splits d;
     totalTime := Storage.rd_totalTime d;
     completedAt := Storage.rd_completedAt d;
     result_createdBy := Storage.rd_createdBy d |}.

(** [getResultsByPerson(personId)] *)
Definition getResultsByPerson (st : Storage.Store) (id : string) : list RaceResult :=
  List.filter (fun r => String.eqb (personId r) id) (Storage.resultsCache st).

(** The comparator [(a, b) => a.totalTime - b.totalTime]. *)
Definition byTotalTime (a b : RaceResult) : number :=
  sub (ofZ (totalTime a)) (ofZ (totalTime b)).

(** [getAllResults()]: a sorted copy of the cache. *)
Definition getAllResults (st : Storage.Store) : list RaceResult :=
  sort byTotalTime (Storage.resultsCache st).

End StorageReads.

(* ===================================================================== *)
(** * components/AddPerson.tsx *)
(* ===================================================================== *)

Module AddPerson.

(** [handleCreatePerson]; [newPersonName] is the text of the input, the
    last three arguments are what [storage.createPerson] takes from the
    run time. *)
Definition handleCreatePerson (a : Auth) (st : Storage.Store)
    (newPersonName : string) (createdAtNow docId uuid : string) : Storage.Store :=
  if JS.nonEmpty (JS.trim newPersonName) then
    fst (Storage.createPerson st (JS.trim newPersonName) (callerIdentity a)
           createdAtNow docId uuid)
  else st.

End AddPerson.

(* ===================================================================== *)
(** * components/Leaderboard.tsx: provisional entries *)
(* ===================================================================== *)

Module LeaderboardView.
Import JS.

(** An element of [combinedSplits]: a recorded split, or an estimate
    carrying [isEstimated: true]. *)
Record ShownSplit : Type := mkShownSplit {
  shown_discipline : Discipline;
  shown_time : number;
  shown_timestamp : string;
  shown_isEstimated : bool
}.

(** An element of [estimatedResults]. *)
Record EstimatedResult : Type := mkEstimatedResult {
  er_id : string;
  er_personId : string;
  er_personName : string;
  er_splits : list ShownSplit;
  er_totalTime : number;
  er_completedAt : string;
  er_isEstimated : bool;
  er_activeRace : ActiveRace
}.

(** A provisional entry as an element of the leaderboard's list. *)
#[export] Instance EstimatedResult_Timed : Leaderboard.Timed EstimatedResult := {|
  Leaderboard.splitTimeOf d r :=
    match find (fun s => Discipline_eqb (shown_discipline s) d) (er_splits r) with
    | Some s => Some (shown_time s)
    | None => None
    end;
  Leaderboard.totalTimeOf r := er_totalTime r
|}.

(** The [new Date().toISOString()] of each estimated split of one race. *)
Record Stamps : Type := mkStamps {
  treadmillNow : string;
  skiErgNow : string;
  rowingNow : string
}.

Definition stampOf (d : Discipline) (s : Stamps) : string :=
  match d with
  | treadmill => treadmillNow s
  | skiErg => skiErgNow s
  | rowing => rowingNow s
  end.

(** [race.estimatedSplits?.d] *)
Definition estimateIn (d : Discipline) (race : ActiveRace) : option number :=
  match estimatedSplits race with
  | Some est => estimateOf d est
  | None => None
  end.

(** [dTime]: the recorded time, else [race.estimatedSplits?.d || 0]. *)
Definition timeFor (d : Discipline) (race : ActiveRace) : number :=
  match find (isDiscipline d) (splits race) with
  | Some s => ofZ (time s)
  | None => RaceTimerView.orZero (estimateIn d race)
  end.

(** What is pushed on [combinedSplits] for one discipline. *)
Definition shownFor (d : Discipline) (race : ActiveRace) (now : Stamps)
    : list ShownSplit :=
  match find (isDiscipline d) (splits race) with
  | Some s =>
      [{| shown_discipline := discipline s; shown_time := ofZ (time s);
          shown_timestamp := timestamp s; shown_isEstimated := false |}]
  | None =>
      match estimateIn d race with
      | Some e =>
          if truthy e then
            [{| shown_discipline := d; shown_time := e;
                shown_timestamp := stampOf d now; shown_isEstimated := true |}]
          else []
      | None => []
      end
  end.

(** [s || fallback] on strings. *)
Definition orString (s fallback : string) : string :=
  if nonEmpty s then s else fallback.

Section Provisional.
(** [ms => new Date(ms).toISOString()] *)
Variable toISOString : Z -> string.

(** The body of the [map] of [estimatedResults]. *)
Definition estimatedResult (raceAndNow : ActiveRace * Stamps) : EstimatedResult :=
  let '(race, now) := raceAndNow in
  let combinedSplits :=
    shownFor treadmill race now ++ shownFor skiErg race now
    ++ shownFor rowing race now in
  let adjustedEstimatedTotal :=
    add (add (timeFor treadmill race) (timeFor skiErg race)) (timeFor rowing race) in
  {| er_id := "estimated-" +:+ race_id race;
     er_personId := orString (person_id (person race)) "";
     er_personName := orString (person_name (person race)) "Unknown";
     er_splits := combinedSplits;
     er_totalTime := adjustedEstimatedTotal;
     er_completedAt := toISOString (startTime race);
     er_isEstimated := true;
     er_activeRace := race |}.

(** [estimatedResults]: the races that carry estimates, each turned into
    a provisional entry. *)
Definition estimatedResults (activeRaces : list (ActiveRace * Stamps))
    : list EstimatedResult :=
  map estimatedResult
      (List.filter (fun rn => match estimatedSplits (fst rn) with
                              | Some _ => true
                              | None => false
                              end) activeRaces).
End Provisional.

End LeaderboardView.

(* ===================================================================== *)
(** * components/RaceStarter.tsx: selection *)
(* ===================================================================== *)

Module RaceStarter.

(** [togglePersonSelection(personId)] on the set of selected ids; a
    JavaScript [Set] keeps insertion order, so it is a list without
    repetition. *)
Definition togglePersonSelection (personId : string) (prev : list string)
    : list string :=
  if existsb (String.eqb personId) prev
  then List.filter (fun x => negb (String.eqb x personId)) prev
  else prev ++ [personId].

(** [Array.from(selectedPersons).map(id => persons.find(p => p.id === id))
    .filter(p => p !== undefined)] *)
Fixpoint selectedPersonList (persons : list Person) (selected : list string)
    : list Person :=
  match selected with
  | [] => []
  | id :: rest =>
      match find (fun p => String.eqb (person_id p) id) persons with
      | Some p => p :: selectedPersonList persons rest
      | None => selectedPersonList persons rest
      end
  end.

(** The [forEach(person => onStartRace(person))] of [handleMassStart]:
    the [n]-th call of [startRace] gets [uuidAt n] from
    [crypto.randomUUID()] and [nowAt n] from [Date.now()]; the cached
    races are the same for every call, no snapshot arriving in between. *)
Fixpoint startAll (a : Auth) (currentRaces : list ActiveRace)
    (uuidAt : nat -> string) (nowAt : nat -> Z) (n : nat)
    (people : list Person) (w : ActiveRacesManager.World)
    : ActiveRacesManager.World :=
  match people with
  | [] => w
  | p :: rest =>
      startAll a currentRaces uuidAt nowAt (S n) rest
        (fst (ActiveRacesManager.startRace a currentRaces w p None
                (uuidAt n) (nowAt n)))
  end.

(** [handleMassStart]: the world, and the selection afterwards. *)
Definition handleMassStart (a : Auth) (currentRaces : list ActiveRace)
    (uuidAt : nat -> string) (nowAt : nat -> Z)
    (persons : list Person) (selectedPersons : list string)
    (w : ActiveRacesManager.World)
    : ActiveRacesManager.World * list string :=
  match selectedPersons with
  | [] => (w, selectedPersons)   (* alert: select at least one person *)
  | _ =>
      (startAll a currentRaces uuidAt nowAt 0
         (selectedPersonList persons selectedPersons) w, [])
  end.

End RaceStarter.

(* ===================================================================== *)
(** * utils/excelBackup.ts: export *)
(* ===================================================================== *)

Module ExcelExport.
Import ExcelBackup.

Section Rows.
(** [s => new Date(s).toISOString()]; [None] when the string is not a
    date and [toISOString] throws. *)
Variable toISOString : string -> option string.

(** [split ? split.time : 0] for the split of a discipline. *)
Definition timeMs (d : Discipline) (r : RaceResult) : Z :=
  match find (isDiscipline d) (result_splits r) with
  | Some s => time s
  | None => 0
  end.

(** The element of [resultsData] built for a result, in the columns that
    [importFromExcel] reads; Rank and the formatted times and paces are
    further columns of the same row.  [None] when building the row
    throws. *)
Definition resultRow (r : RaceResult) : option ResultRow :=
  match toISOString (completedAt r) with
  | None => None
  | Some iso =>
      Some {| row_resultId := Some (result_id r);
              row_personName := Some (personName r);
              row_personId := Some (personId r);
              row_treadmillMs := Some (timeMs treadmill r);
              row_skiErgMs := Some (timeMs skiErg r);
              row_rowingMs := Some (timeMs rowing r);
              row_totalMs := Some (totalTime r);
              row_completedAt := Some iso |}
  end.
End Rows.

End ExcelExport.

(* ===================================================================== *)
(** * utils/timeFormat.ts *)
(* ===================================================================== *)

Module TimeFormat.
Import JS.

(** [formatTimeHMS], on integer milliseconds. *)
Definition formatTimeHMS (milliseconds : Z) : string :=
  let totalSeconds := milliseconds / 1000 in
  let hours := totalSeconds / 3600 in
  let minutes := Z.rem totalSeconds 3600 / 60 in
  let seconds := Z.rem totalSeconds 60 in
  if 0 <? hours then
    toString hours +:+ ":" +:+ padStart 2 "0" (toString minutes)
                   +:+ ":" +:+ padStart 2 "0" (toString seconds)
  else
    toString minutes +:+ ":" +:+ padStart 2 "0" (toString seconds).

End TimeFormat.

(* ===================================================================== *)
(** * components/ManualResultEntry.tsx *)
(* ===================================================================== *)

Module ManualResultEntry.
Import JS.

(** The file has a [parseTimeToMs] of its own, with the text of the one
    in EstimateInput.tsx. *)
Definition parseTimeToMs : string -> option number := EstimateInput.parseTimeToMs.

(** A time entered by hand need not be a whole number of milliseconds, so
    the splits and the result built here carry JavaScript numbers. *)
Record EnteredSplit : Type := mkEnteredSplit {
  es_discipline : Discipline;
  es_time : number;
  es_timestamp : string
}.

Record EnteredResult : Type := mkEnteredResult {
  en_id : string;
  en_personId : string;
  en_personName : string;
  en_splits : list EnteredSplit;
  en_totalTime : number;
  en_completedAt : string;
  en_createdBy : option string
}.

(** A result entered by hand as an element of the leaderboard's list. *)
#[export] Instance EnteredResult_Timed : Leaderboard.Timed EnteredResult := {|
  Leaderboard.splitTimeOf d r :=
    match find (fun s => Discipline_eqb (es_discipline s) d) (en_splits r) with
    | Some s => Some (es_time s)
    | None => None
    end;
  Leaderboard.totalTimeOf r := en_totalTime r
|}.

(** The state of the form that [validateAndSave] reads. *)
Record Form : Type := mkForm {
  selectedPersonId : string;
  treadmillTime : string;
  skiErgTime : string;
  rowingTime : string
}.

(** What the run time supplies: the [new Date().toISOString()] of each
    split, the completion time computed from the date field ([None] when
    the date is invalid and [toISOString] throws), and the value of
    [crypto.randomUUID()]. *)
Record Env : Type := mkEnv {
  treadmillStamp : string;
  skiErgStamp : string;
  rowingStamp : string;
  completedAt : option string;
  uuid : string
}.

Inductive Outcome : Type :=
  | Errors (keys : list string)       (* [setErrors(newErrors); return] *)
  | Thrown                            (* RangeError: Invalid time value *)
  | Saved (result : EnteredResult).   (* [storage.saveResult(result)] *)

(** [validateAndSave]; [persons] is the component's list of persons. *)
Definition validateAndSave (a : Auth) (persons : list Person) (f : Form)
    (env : Env) : Outcome :=
  let treadmillMs := parseTimeToMs (treadmillTime f) in
  let skiErgMs := parseTimeToMs (skiErgTime f) in
  let rowingMs := parseTimeToMs (rowingTime f) in
  let newErrors :=
    (if nonEmpty (selectedPersonId f) then [] else ["person"%string])
    ++ (if truthyOpt treadmillMs then [] else ["treadmill"%string])
    ++ (if truthyOpt skiErgMs then [] else ["skiErg"%string])
    ++ (if truthyOpt rowingMs then [] else ["rowing"%string]) in
  match newErrors with
  | _ :: _ => Errors newErrors
  | [] =>
      match find (fun p => String.eqb (person_id p) (selectedPersonId f))
                 persons with
      | None => Errors ["person"%string]
      | Some selectedPerson =>
          let splits :=
            [ {| es_discipline := treadmill; es_time := toNumber treadmillMs;
                 es_timestamp := treadmillStamp env |};
              {| es_discipline := skiErg; es_time := toNumber skiErgMs;
                 es_timestamp := skiErgStamp env |};
              {| es_discipline := rowing; es_time := toNumber rowingMs;
                 es_timestamp := rowingStamp env |} ] in
          let totalTime :=
            fold_left (fun sum split => add sum (es_time split)) splits zero in
          match completedAt env with
          | None => Thrown
          | Some completed =>
              Saved {| en_id := uuid env;
                       en_personId := person_id selectedPerson;
                       en_personName := person_name selectedPerson;
                       en_splits := splits;
                       en_totalTime := totalTime;
                       en_completedAt := completed;
                       en_createdBy := callerIdentity a |}
          end
      end
  end.

End ManualResultEntry.

(* ===================================================================== *)
(** * Further vocabulary and example data *)
(* ===================================================================== *)

Module Vocabulary.
Import JS.

(** The recorded splits are those of the first disciplines, in order and
    one each, as many as the discipline index says. *)
Definition onTrack (st : RaceTimer.State) : Prop :=
  (RaceTimer.st_currentDisciplineIndex st <= 3)%nat
  /\ map discipline (RaceTimer.st_splits st)
     = map RaceTimer.key
         (firstn (RaceTimer.st_currentDisciplineIndex st) RaceTimer.DISCIPLINES).

(** A timer as it is mounted for a race that has just been started. *)
Definition freshState (estimates : option EstimatedSplits) : RaceTimer.State :=
  {| RaceTimer.st_splits := [];
     RaceTimer.st_currentDisciplineIndex := 0;
     RaceTimer.st_estimatedSplits := estimates |}.

(** The value by which the leaderboard orders a result for a sort field;
    [None] stands for [Infinity], the value of a result without a
    (non-zero) split for the field's discipline. *)
Definition splitRank (d : Discipline) (r : RaceResult) : option Z :=
  match find (isDiscipline d) (result_splits r) with
  | Some s => if time s =? 0 then None else Some (time s)
  | None => None
  end.

Definition rank (f : Leaderboard.SortField) (r : RaceResult) : option Z :=
  match f with
  | Leaderboard.sortTotal => Some (totalTime r)
  | Leaderboard.sortTreadmill => splitRank treadmill r
  | Leaderboard.sortSkiErg => splitRank skiErg r
  | Leaderboard.sortRowing => splitRank rowing r
  end.

(** The order of the ranks, [Infinity] last. *)
Definition rankLe (a b : option Z) : Prop :=
  match a, b with
  | _, None => True
  | None, Some _ => False
  | Some x, Some y => x <= y
  end.

(** The Result ID of a row that the import reads: a row is read when its
    Result ID and its Person Name are present and not empty. *)
Definition readId (row : ExcelBackup.ResultRow) : option string :=
  match orElse (ExcelBackup.row_resultId row) None,
        orElse (ExcelBackup.row_personName row) None with
  | Some id, Some _ => Some id
  | _, _ => None
  end.

(** A read row whose Result ID is among the given ids, or is not. *)
Definition isDuplicate (ids : list string)
    (re : ExcelBackup.ResultRow * ExcelBackup.RowEnv) : bool :=
  match readId (fst re) with
  | Some id => ExcelBackup.hasId ids id
  | None => false
  end.

Definition isNew (ids : list string)
    (re : ExcelBackup.ResultRow * ExcelBackup.RowEnv) : bool :=
  match readId (fst re) with
  | Some id => negb (ExcelBackup.hasId ids id)
  | None => false
  end.

(** A row of the Persons sheet with ID and Name that is not among the
    given ids. *)
Definition isNewPerson (ids : list string)
    (rn : ExcelBackup.PersonRow * string) : bool :=
  match ExcelBackup.prow_id (fst rn), ExcelBackup.prow_name (fst rn) with
  | Some id, Some name =>
      JS.nonEmpty id && JS.nonEmpty name && negb (ExcelBackup.hasId ids id)
  | _, _ => false
  end.

(** ** Components of a time text *)




End Vocabulary.

Module MoreExamples.

(** A second clock: the skiErg split of the scenario taken at 2000000. *)
Definition secondClock : RaceTimer.Clock :=
  {| RaceTimer.splitNow := 2000000; RaceTimer.splitTimestamp := "t2";
     RaceTimer.completeNow := 2000000; RaceTimer.completeTimestamp := "t2" |}.

Definition firstClock : RaceTimer.Clock :=
  {| RaceTimer.splitNow := 900000; RaceTimer.splitTimestamp := "t1";
     RaceTimer.completeNow := 900000; RaceTimer.completeTimestamp := "t1" |}.

(** The scenario after its first split. *)
Definition afterFirstSplit : RaceTimer.State :=
  {| RaceTimer.st_splits := [ mkSplit treadmill 900000 "t1" ];
     RaceTimer.st_currentDisciplineIndex := 1;
     RaceTimer.st_estimatedSplits := None |}.

(** The scenario with estimates 15:00, 18:00 and 8:00. *)
Definition estimatesOfScenario : EstimatedSplits :=
  {| est_treadmill := Some (JS.ofZ 900000 );
     est_skiErg := Some (JS.ofZ 1080000);
     est_rowing := Some (JS.ofZ 480000);
     est_total := Some (JS.ofZ 2460000) |}.

Definition estimatedState : RaceTimer.State :=
  {| RaceTimer.st_splits := [ mkSplit treadmill 900000 "t1" ];
     RaceTimer.st_currentDisciplineIndex := 1;
     RaceTimer.st_estimatedSplits := Some estimatesOfScenario |}.

Definition estimatedStateAfter : RaceTimer.State :=
  {| RaceTimer.st_splits := [ mkSplit treadmill 900000 "t1";
                              mkSplit skiErg 1100000 "t2" ];
     RaceTimer.st_currentDisciplineIndex := 2;
     RaceTimer.st_estimatedSplits := Some estimatesOfScenario |}.

(** A visitor who is not logged in. *)
Definition guest : Auth := {| user := None; isAdmin := false |}.

(** A race that alice started, two splits recorded, with the document
    that holds it. *)
Definition alicesRace : ActiveRace :=
  {| race_id := "race-9";
     person := scenarioPerson;
     startTime := 0;
     splits := [ mkSplit treadmill 900000 "t1"; mkSplit skiErg 1100000 "t2" ];
     currentDisciplineIndex := 2;
     estimatedSplits := Some estimatesOfScenario;
     createdBy := Some "alice@example.org" |}.

Definition alicesDoc : ActiveRacesManager.ActiveRaceDoc :=
  {| ActiveRacesManager.doc_person := Some scenarioPerson;
     ActiveRacesManager.doc_startTime := Some 0;
     ActiveRacesManager.doc_splits :=
       Some [ mkSplit treadmill 900000 "t1"; mkSplit skiErg 1100000 "t2" ];
     ActiveRacesManager.doc_currentDisciplineIndex := Some 2%nat;
     ActiveRacesManager.doc_estimatedSplits := Some estimatesOfScenario;
     ActiveRacesManager.doc_createdBy := Some "alice@example.org" |}.

Definition alicesWorld : ActiveRacesManager.World :=
  {| ActiveRacesManager.storage := emptyStore;
     ActiveRacesManager.activeRaceDocs := {[ "race-9" := alicesDoc ]} |}.

(** The same race after its first split only. *)
Definition alicesEarlyRace : ActiveRace :=
  {| race_id := "race-9";
     person := scenarioPerson;
     startTime := 0;
     splits := [ mkSplit treadmill 900000 "t1" ];
     currentDisciplineIndex := 1;
     estimatedSplits := Some estimatesOfScenario;
     createdBy := Some "alice@example.org" |}.

(** A workbook with one result row and no Persons sheet. *)
Definition importBook : ExcelBackup.Workbook :=
  {| ExcelBackup.resultsSheet := Some [(importRow, importEnv)];
     ExcelBackup.personsSheet := None |}.

(** A store whose cache already lists the result of [importRow]. *)
Definition storeWithResult : Storage.Store :=
  {| Storage.personsDocs := ∅; Storage.resultsDocs := ∅;
     Storage.personsCache := [];
     Storage.resultsCache :=
       [ {| result_id := "res-1"; personId := "p1"; personName := "Kari";
            result_splits := []; totalTime := 2500000;
            completedAt := "2024-05-01T10:00:00.000Z";
            result_createdBy := None |} ] |}.

(** A second person, and the ids of two calls of [crypto.randomUUID()]. *)
Definition secondPerson : Person :=
  {| person_id := "p2"; person_name := "Q";
     person_createdAt := "2024-01-02T00:00:00.000Z"; person_createdBy := None |}.

Definition twoUuids (n : nat) : string :=
  match n with
  | O => "race-a"
  | S O => "race-b"
  | _ => "race-c"
  end.

(** The row that the export builds for [finisher] when its completion
    date prints as it is stored. *)
Definition finisherRow : ExcelBackup.ResultRow :=
  {| ExcelBackup.row_resultId := Some "r1";
     ExcelBackup.row_personName := Some "A";
     ExcelBackup.row_personId := Some "p1";
     ExcelBackup.row_treadmillMs := Some 900000;
     ExcelBackup.row_skiErgMs := Some 1100000;
     ExcelBackup.row_rowingMs := Some 500000;
     ExcelBackup.row_totalMs := Some 2500000;
     ExcelBackup.row_completedAt := Some "t3" |}.

(** A manual entry for the scenario's person. *)
Definition enteredForm : ManualResultEntry.Form :=
  ManualResultEntry.mkForm "p1" "15:00" "18:20" "8:20".

Definition enteredEnv : ManualResultEntry.Env :=
  {| ManualResultEntry.treadmillStamp := "n1";
     ManualResultEntry.skiErgStamp := "n2";
     ManualResultEntry.rowingStamp := "n3";
     ManualResultEntry.completedAt := Some "2024-05-01T21:59:59.999Z";
     ManualResultEntry.uuid := "m-1" |}.

(** A race started with the treadmill estimate typed as 0:Infinity, and
    its provisional leaderboard entry. *)
Definition openEndedRace : ActiveRace :=
  {| race_id := "race-10";
     person := secondPerson;
     startTime := 0;
     splits := [];
     currentDisciplineIndex := 0;
     estimatedSplits :=
       match EstimateInput.handleConfirm None []
               (EstimateInput.mkForm "0:Infinity" "" "") with
       | inr e => Some e
       | inl _ => None
       end;
     createdBy := None |}.

Definition openEndedEntry : LeaderboardView.EstimatedResult :=
  LeaderboardView.estimatedResult (fun _ => "1970-01-01T00:00:00.000Z")
    (openEndedRace, LeaderboardView.mkStamps "n1" "n2" "n3").

End MoreExamples.

Import Vocabulary MoreExamples.

(* ===================================================================== *)
(** * Properties of the race state machine *)
(* ===================================================================== *)

Module RaceTimerFacts.
Import RaceTimer.

Lemma fold_sum_shift (l : list Split) (acc : Z) :
  fold_left (fun sum s => sum + time s) l acc = acc + totalOf l.
Proof.
  revert acc; induction l as [|s l IH]; intros acc; simpl.
  - lia.
  - rewrite IH. lia.
Qed.

Lemma sumTimes_totalOf (l : list Split) : sumTimes l = totalOf l.
Proof. unfold sumTimes. rewrite fold_sum_shift. lia. Qed.

Lemma totalOf_app (l1 l2 : list Split) :
  totalOf (l1 ++ l2) = totalOf l1 + totalOf l2.
Proof. induction l1 as [|s l1 IH]; simpl; lia. Qed.

Lemma DISCIPLINES_lookup (i : nat) :
  (i < 3)%nat -> exists info, nth_error DISCIPLINES i = Some info.
Proof.
  intros Hi.
  destruct i as [|[|[|i]]]; simpl; eauto; lia.
Qed.

Lemma DISCIPLINES_out_of_range (i : nat) :
  (3 <= i)%nat -> nth_error DISCIPLINES i = None.
Proof.
  intros Hi. apply nth_error_None. simpl. lia.
Qed.

(** Whatever the earlier splits are, after a split the recorded times add
    up to the clock reading of that split minus the start time. *)
Lemma handleSplit_telescopes (p : Props) (st st' : State) (c : Clock)
    (es : list Effect) :
  handleSplit p st c = Some (st', es) ->
  totalOf (st_splits st') = splitNow c - initialStartTime p.
Proof.
  unfold handleSplit.
  destruct (nth_error DISCIPLINES (st_currentDisciplineIndex st)); [|discriminate].
  intros [= <- _]. simpl.
  rewrite totalOf_app, sumTimes_totalOf. simpl. lia.
Qed.

(** On completion the emitted result's [totalTime] is the second clock
    reading minus the start time. *)
Lemma handleSplit_result_total (p : Props) (st st' : State) (c : Clock)
    (es : list Effect) (r : RaceResult) :
  handleSplit p st c = Some (st', es) ->
  In (SaveResult r) es ->
  result_splits r = st_splits st'
  /\ totalTime r = completeNow c - initialStartTime p
  /\ totalTime r - totalOf (result_splits r) = completeNow c - splitNow c.
Proof.
  intros H Hin.
  pose proof (handleSplit_telescopes _ _ _ _ _ H) as Htel.
  unfold handleSplit in H.
  destruct (nth_error DISCIPLINES (st_currentDisciplineIndex st)); [|discriminate].
  injection H as Hst Hes. subst es.
  destruct Hin as [Hin|Hin]; [discriminate|].
  match type of Hin with
  | context [if ?b then _ else _] => destruct b
  end; [|destruct Hin].
  unfold handleComplete in Hin.
  destruct Hin as [Hin|[Hin|[]]]; [|discriminate].
  injection Hin as <-. simpl.
  rewrite <- Hst in *. simpl in *. repeat split; try lia.
Qed.

(** C1 (evaluation at the failing input).  With the clock advancing by one
    millisecond between the read of [handleSplit] and the read of
    [handleComplete], the race completes with a result whose three splits
    sum to 2500000 while its [totalTime] is 2500001. *)
Theorem C1_totalTime_is_second_clock_read :
  exists r,
    handleSplit scenarioProps scenarioState scenarioClock
      = Some (completedState,
              [OnUpdate (st_splits completedState) 3; SaveResult r; OnRaceComplete])
    /\ result_splits r = st_splits completedState
    /\ totalOf (result_splits r) = 2500000
    /\ totalTime r = 2500001.
Proof.
  eexists. split; [reflexivity|].
  repeat split; reflexivity.
Qed.

(** C3.  In a non-terminal state (index below 3), whatever the clock
    shows, [handleSplit] appends one split whose time is the elapsed time
    since the start minus the sum of the recorded split times, and moves
    the discipline index up by one; the same splits and index are passed
    to [onUpdate].  A click on Take Split by someone who may modify the
    race runs exactly this. *)
Theorem C3_split_is_segment_duration (p : Props) (st : State) (c : Clock) :
  (st_currentDisciplineIndex st < 3)%nat ->
  exists split st' rest,
    handleSplit p st c = Some (st', OnUpdate (st_splits st')
                                     (st_currentDisciplineIndex st') :: rest)
    /\ st_splits st' = st_splits st ++ [split]
    /\ time split = (splitNow c - initialStartTime p) - totalOf (st_splits st)
    /\ st_currentDisciplineIndex st' = S (st_currentDisciplineIndex st)
    /\ st_estimatedSplits st' = st_estimatedSplits st
    /\ (canModify p = true ->
        takeSplit p st c = (st', OnUpdate (st_splits st')
                                  (st_currentDisciplineIndex st') :: rest)).
Proof.
  intros Hi.
  destruct (DISCIPLINES_lookup _ Hi) as [info Hinfo].
  assert (Hoffered : canModify p = true -> splitOffered p st = true).
  { intros Hc. unfold splitOffered, isComplete. rewrite Hc.
    change (length DISCIPLINES) with 3%nat.
    replace (3 <=? _)%nat with false
      by (symmetry; apply Nat.leb_gt; exact Hi).
    reflexivity. }
  unfold takeSplit, handleSplit. rewrite Hinfo. cbv zeta.
  match goal with
  | |- context [Some (?s, _ :: ?r)] =>
      exists (mkSplit (key info)
                (splitNow c - initialStartTime p - sumTimes (st_splits st))
                (splitTimestamp c)), s, r
  end.
  split; [reflexivity|]. simpl.
  rewrite sumTimes_totalOf.
  repeat split; try reflexivity; try lia.
  intros Hc. rewrite (Hoffered Hc). reflexivity.
Qed.

Lemma C3_split_is_segment_duration_witness :
  exists split st' rest,
    handleSplit scenarioProps scenarioState scenarioClock
      = Some (st', OnUpdate (st_splits st') (st_currentDisciplineIndex st') :: rest)
    /\ st_splits st' = st_splits scenarioState ++ [split]
    /\ time split = (splitNow scenarioClock - initialStartTime scenarioProps)
                    - totalOf (st_splits scenarioState)
    /\ st_currentDisciplineIndex st' = S (st_currentDisciplineIndex scenarioState)
    /\ st_estimatedSplits st' = st_estimatedSplits scenarioState
    /\ (canModify scenarioProps = true ->
        takeSplit scenarioProps scenarioState scenarioClock
        = (st', OnUpdate (st_splits st') (st_currentDisciplineIndex st') :: rest)).
Proof.
  apply (C3_split_is_segment_duration scenarioProps scenarioState scenarioClock).
  simpl. lia.
Defined.

(** C9.  In the terminal state (index 3) the Take Split button is not
    rendered, [handleSplit] itself throws before touching anything, and a
    take-split attempt leaves the state as it is and calls nothing; for a
    displayed race in that state it leaves the shared collections as they
    are. *)
Theorem C9_no_split_when_completed (p : Props) (st : State) (c : Clock) :
  st_currentDisciplineIndex st = 3%nat ->
  splitOffered p st = false
  /\ handleSplit p st c = None
  /\ takeSplit p st c = (st, [])
  /\ (forall a activeRaces w race,
        ActiveRacesManager.stateFor race = st ->
        ActiveRacesManager.takeSplit a activeRaces w race c = w).
Proof.
  intros Hi.
  assert (Hoff : forall q, splitOffered q st = false).
  { intros q. unfold splitOffered, isComplete. rewrite Hi. reflexivity. }
  assert (Hclick : forall q, takeSplit q st c = (st, [])).
  { intros q. unfold takeSplit. rewrite Hoff. reflexivity. }
  repeat split.
  - apply Hoff.
  - unfold handleSplit. rewrite DISCIPLINES_out_of_range; [reflexivity | lia].
  - apply Hclick.
  - intros a activeRaces w race Hst.
    unfold ActiveRacesManager.takeSplit. rewrite Hst, Hclick. reflexivity.
Qed.

Lemma C9_no_split_when_completed_witness :
  splitOffered scenarioProps completedState = false
  /\ handleSplit scenarioProps completedState scenarioClock = None
  /\ takeSplit scenarioProps completedState scenarioClock = (completedState, [])
  /\ (forall a activeRaces w race,
        ActiveRacesManager.stateFor race = completedState ->
        ActiveRacesManager.takeSplit a activeRaces w race scenarioClock = w).
Proof.
  apply (C9_no_split_when_completed scenarioProps completedState scenarioClock).
  reflexivity.
Defined.

End RaceTimerFacts.

(* ===================================================================== *)
(** * Properties of the active race manager *)
(* ===================================================================== *)

Module ManagerFacts.
Import ActiveRacesManager.

Lemma nonEmpty_true (s : string) : JS.nonEmpty s = true <-> s <> "".
Proof. destruct s; simpl; split; congruence. Qed.

Lemma sameId_true (x y : option string) : sameId x y = true <-> x = y.
Proof.
  destruct x as [x|], y as [y|]; simpl; try (split; congruence).
  rewrite String.eqb_eq. split; congruence.
Qed.

Lemma canModify_mayModify (a : Auth) (race : ActiveRace) :
  canModify a race = true <-> mayModify a race.
Proof.
  unfold canModify, mayModify.
  rewrite orb_true_iff, andb_true_iff, sameId_true.
  split; intros [H|H]; auto; right.
  - destruct H as [Ht Hs]. destruct (createdBy race) as [id|]; [|discriminate].
    exists id. simpl in Ht. apply nonEmpty_true in Ht. auto.
  - destruct H as (id & Hc & Hne & Hu). rewrite Hc, Hu. simpl.
    split; [apply nonEmpty_true; exact Hne | reflexivity].
Qed.

(** Whoever may modify a race is not turned away by [removeRace]. *)
Lemma canModify_not_denied (a : Auth) (race : ActiveRace) :
  canModify a race = true -> removeDenied a (Some race) = false.
Proof.
  unfold canModify, removeDenied.
  destruct (isAdmin a); simpl; [reflexivity|].
  intros H. apply andb_true_iff in H as [-> ->]. reflexivity.
Qed.

(** On its own the guard of [removeRace] lets more through than
    [canModify]: it also passes a race that carries no [createdBy].  The
    callers of [removeRace] are the handlers behind the Stop and Take
    Split buttons, which [canModify] gates. *)
Lemma removeRace_guard_alone (a : Auth) (race : ActiveRace) :
  isAdmin a = false -> createdBy race = None ->
  removeDenied a (Some race) = false /\ canModify a race = false.
Proof.
  intros Ha Hc. unfold removeDenied, canModify. rewrite Ha, Hc. split; reflexivity.
Qed.

(** Document ids are unique in a snapshot, so [find] by id returns the
    race that is displayed. *)
Lemma find_displayed (races : list ActiveRace) (race : ActiveRace) :
  In race races -> NoDup (map race_id races) ->
  find (fun r => String.eqb (race_id r) (race_id race)) races = Some race.
Proof.
  induction races as [|r races IH]; intros Hin Hnd; [destruct Hin|].
  simpl in *. apply NoDup_cons in Hnd as [Hnotin Hnd].
  destruct Hin as [->|Hin].
  - rewrite String.eqb_refl. reflexivity.
  - destruct (String.eqb (race_id r) (race_id race)) eqn:E.
    + apply String.eqb_eq in E. exfalso. apply Hnotin. rewrite E.
      apply list_elem_of_In, in_map. exact Hin.
    + auto.
Qed.

Lemma stopRace_permitted (a : Auth) (races : list ActiveRace) (w : World)
    (race : ActiveRace) :
  In race races -> NoDup (map race_id races) ->
  canModify a race = true ->
  stopRace a races w race
  = {| storage := storage w;
       activeRaceDocs := delete (race_id race) (activeRaceDocs w) |}.
Proof.
  intros Hin Hnd Hcan.
  unfold stopRace, RaceTimer.stop, RaceTimer.stopOffered. simpl.
  rewrite Hcan. simpl.
  unfold handleRaceComplete, removeRace.
  rewrite (find_displayed _ _ Hin Hnd), (canModify_not_denied _ _ Hcan).
  reflexivity.
Qed.

Lemma denied_changes_nothing (a : Auth) (races : list ActiveRace) (w : World)
    (race : ActiveRace) (c : RaceTimer.Clock) (f : EstimateInput.Form) :
  canModify a race = false ->
  stopRace a races w race = w
  /\ takeSplit a races w race c = w
  /\ updateEstimates a races w race f = w.
Proof.
  intros Hcan. repeat split.
  - unfold stopRace, RaceTimer.stop, RaceTimer.stopOffered. simpl.
    rewrite Hcan. reflexivity.
  - unfold takeSplit, RaceTimer.takeSplit, RaceTimer.splitOffered. simpl.
    rewrite Hcan, andb_false_r. reflexivity.
  - unfold updateEstimates, RaceTimer.editEstimates,
      RaceTimer.estimateEditOffered. simpl.
    rewrite Hcan. destruct (estimatedSplits race); reflexivity.
Qed.

(** C4.  For a displayed race, Stop is offered under the condition under
    which Take Split (before completion) and the estimate form are: the
    caller is an admin or the race's [createdBy] is the caller's identity.
    When the condition holds, stopping deletes the race document and
    leaves the result storage as it is; when it does not, stopping, taking
    a split and editing estimates all leave the world unchanged. *)
Theorem C4_stop_permission (a : Auth) (races : list ActiveRace) (w : World)
    (race : ActiveRace) (c : RaceTimer.Clock) (f : EstimateInput.Form) :
  In race races -> NoDup (map race_id races) ->
  (RaceTimer.stopOffered (propsFor a race) (stateFor race) = true
     <-> mayModify a race)
  /\ (RaceTimer.estimateEditOffered (propsFor a race) (stateFor race) = true
     <-> mayModify a race)
  /\ ((currentDisciplineIndex race < 3)%nat ->
      (RaceTimer.splitOffered (propsFor a race) (stateFor race) = true
         <-> mayModify a race))
  /\ (mayModify a race ->
      stopRace a races w race
      = {| storage := storage w;
           activeRaceDocs := delete (race_id race) (activeRaceDocs w) |})
  /\ (~ mayModify a race ->
      stopRace a races w race = w
      /\ takeSplit a races w race c = w
      /\ updateEstimates a races w race f = w).
Proof.
  intros Hin Hnd.
  split; [|split; [|split; [|split]]].
  - apply canModify_mayModify.
  - unfold RaceTimer.estimateEditOffered. simpl.
    destruct (estimatedSplits race); apply canModify_mayModify.
  - intros Hi. unfold RaceTimer.splitOffered, RaceTimer.isComplete.
    change (length RaceTimer.DISCIPLINES) with 3%nat.
    replace (3 <=? _)%nat with false
      by (symmetry; apply Nat.leb_gt; exact Hi).
    simpl. apply canModify_mayModify.
  - intros H. apply canModify_mayModify in H.
    apply stopRace_permitted; assumption.
  - intros H. apply denied_changes_nothing.
    destruct (canModify a race) eqn:E; [|reflexivity].
    exfalso. apply H, canModify_mayModify, E.
Qed.

Lemma C4_stop_permission_witness :
  In bobsRace [bobsRace] /\ NoDup (map race_id [bobsRace])
  /\ ~ mayModify alice bobsRace
  /\ stopRace alice [bobsRace] someWorld bobsRace = someWorld.
Proof.
  assert (Hin : In bobsRace [bobsRace]) by (left; reflexivity).
  assert (Hnd : NoDup (map race_id [bobsRace]))
    by apply NoDup_singleton.
  assert (Hno : ~ mayModify alice bobsRace).
  { intros [H|(id & Hc & _ & Hu)]; [discriminate|].
    injection Hc as <-. vm_compute in Hu. discriminate. }
  split; [exact Hin|]. split; [exact Hnd|]. split; [exact Hno|].
  exact (proj1 (proj2 (proj2 (proj2 (proj2
    (C4_stop_permission alice [bobsRace] someWorld bobsRace
       scenarioClock (EstimateInput.mkForm "" "" "") Hin Hnd))))
    Hno)).
Defined.

(** C6.  If some race of the cached view is the person's, [startRace]
    reports it and leaves the world as it is.  Otherwise it writes, under
    the fresh id, a race document with index 0, no splits, the given
    estimates, the given person and start time, and the caller's identity
    as [createdBy]; nothing else is written. *)
Theorem C6_startRace (a : Auth) (currentRaces : list ActiveRace) (w : World)
    (p : Person) (estimates : option EstimatedSplits) (uuid : string) (now : Z) :
  ((exists r, In r currentRaces /\ person_id (person r) = person_id p) ->
   exists alert,
     startRace a currentRaces w p estimates uuid now
     = (w, DuplicateActiveRace alert))
  /\ (~ (exists r, In r currentRaces /\ person_id (person r) = person_id p) ->
      exists doc,
        startRace a currentRaces w p estimates uuid now
        = ({| storage := storage w;
              activeRaceDocs := <[uuid := doc]> (activeRaceDocs w) |}, Started)
        /\ doc_currentDisciplineIndex doc = Some 0%nat
        /\ doc_splits doc = Some []
        /\ doc_estimatedSplits doc = estimates
        /\ doc_createdBy doc = callerIdentity a
        /\ doc_person doc = Some p
        /\ doc_startTime doc = Some now).
Proof.
  unfold startRace.
  destruct (existsb (racesOf p) currentRaces) eqn:E.
  - split.
    + intros _. eexists. reflexivity.
    + intros Hno. exfalso. apply Hno.
      apply existsb_exists in E as (r & Hin & Hr).
      exists r. split; [exact Hin|]. apply String.eqb_eq. exact Hr.
  - split.
    + intros (r & Hin & Hr). exfalso.
      assert (existsb (racesOf p) currentRaces = true) as E'.
      { apply existsb_exists. exists r. split; [exact Hin|].
        apply String.eqb_eq. exact Hr. }
      congruence.
    + intros _. eexists. split; [reflexivity|]. simpl. repeat split.
Qed.

Lemma C6_startRace_witness :
  (exists r, In r [bobsRace]
             /\ person_id (person r) = person_id scenarioPerson)
  /\ exists alert,
       startRace alice [bobsRace] someWorld scenarioPerson
         None "race-8" 2000
       = (someWorld, DuplicateActiveRace alert).
Proof.
  assert (H : exists r, In r [bobsRace]
             /\ person_id (person r) = person_id scenarioPerson).
  { exists bobsRace. split; [left; reflexivity | reflexivity]. }
  split; [exact H|].
  exact (proj1 (C6_startRace alice [bobsRace] someWorld
                  scenarioPerson None "race-8" 2000) H).
Defined.

End ManagerFacts.

(* ===================================================================== *)
(** * Facts about numbers *)
(* ===================================================================== *)

Module NumberFacts.
Import JS.

Lemma Qc_this_Q2Qc (q : Q) : this (Q2Qc q) = Qred q.
Proof. reflexivity. Qed.

Lemma Qc_compare_inject (a : Z) : (Q2Qc (inject_Z a) ?= 0)%Qc = (a ?= 0).
Proof.
  unfold Qccompare.
  change (this 0%Qc) with (Qred 0). rewrite Qc_this_Q2Qc.
  rewrite <- Qred_compare. unfold Qcompare. simpl.
  rewrite Z.mul_1_r. reflexivity.
Qed.

Lemma Qc_inject_add (a b : Z) :
  (Q2Qc (inject_Z a) + Q2Qc (inject_Z b))%Qc = Q2Qc (inject_Z (a + b)).
Proof.
  apply Qc_is_canon. unfold Qcplus. rewrite !Qc_this_Q2Qc, !Qred_correct.
  rewrite inject_Z_plus. reflexivity.
Qed.

Lemma Qc_inject_mul (a b : Z) :
  (Q2Qc (inject_Z a) * Q2Qc (inject_Z b))%Qc = Q2Qc (inject_Z (a * b)).
Proof.
  apply Qc_is_canon. unfold Qcmult. rewrite !Qc_this_Q2Qc, !Qred_correct.
  rewrite inject_Z_mult. reflexivity.
Qed.

Lemma ofZ_add (a b : Z) : add (ofZ a) (ofZ b) = ofZ (a + b).
Proof. unfold ofZ. simpl. rewrite Qc_inject_add. reflexivity. Qed.

Lemma ofZ_mul (a b : Z) : mul (ofZ a) (ofZ b) = ofZ (a * b).
Proof. unfold ofZ. simpl. rewrite Qc_inject_mul. reflexivity. Qed.

Lemma ofZ_inj (a b : Z) : ofZ a = ofZ b -> a = b.
Proof.
  unfold ofZ. intros [= H].
  assert (Hq : Q2Qc (inject_Z a) = Q2Qc (inject_Z b)).
  { apply Qc_is_canon. rewrite !Qc_this_Q2Qc. rewrite H. reflexivity. }
  apply Q2Qc_eq_iff in Hq. unfold Qeq in Hq. simpl in Hq. lia.
Qed.

Lemma ltZero_ofZ (a : Z) : ltZero (ofZ a) = (a <? 0).
Proof.
  unfold ltZero, ofZ. rewrite Qc_compare_inject. unfold Z.ltb.
  destruct (a ?= 0); reflexivity.
Qed.

Lemma gtZero_ofZ (a : Z) : gtZero (ofZ a) = (0 <? a).
Proof.
  unfold gtZero, ofZ. rewrite Qc_compare_inject.
  rewrite Z.ltb_antisym, Z.leb_compare. unfold Z.ltb.
  destruct (a ?= 0) eqn:E; reflexivity.
Qed.

Lemma isZero_ofZ (a : Z) : isZero (ofZ a) = (a =? 0).
Proof.
  unfold isZero, ofZ. rewrite Qc_compare_inject. unfold Z.eqb.
  destruct a; reflexivity.
Qed.

Lemma truthy_ofZ (z : Z) : truthy (ofZ z) = negb (z =? 0).
Proof. unfold truthy, ofZ. fold (ofZ z). rewrite isZero_ofZ. reflexivity. Qed.

Lemma Qc_inject_opp (b : Z) :
  (- Q2Qc (inject_Z b))%Qc = Q2Qc (inject_Z (- b)).
Proof.
  apply Qc_is_canon. unfold Qcopp. rewrite !Qc_this_Q2Qc, !Qred_correct.
  rewrite inject_Z_opp. reflexivity.
Qed.

Lemma sub_ofZ (a b : Z) : sub (ofZ a) (ofZ b) = ofZ (a - b).
Proof.
  unfold sub. unfold ofZ at 2. cbn [neg]. rewrite Qc_inject_opp.
  fold (ofZ (- b)). rewrite ofZ_add. reflexivity.
Qed.

Lemma sign_sub_ofZ (a b : Z) : sign (sub (ofZ a) (ofZ b)) = (a ?= b).
Proof.
  rewrite sub_ofZ. unfold sign. rewrite ltZero_ofZ, gtZero_ofZ.
  destruct (Z.compare_spec a b);
    destruct (a - b <? 0) eqn:E1; destruct (0 <? a - b) eqn:E2; try reflexivity; lia.
Qed.

Lemma neg_ofZ (z : Z) : neg (ofZ z) = ofZ (- z).
Proof. unfold ofZ. cbn [neg]. rewrite Qc_inject_opp. reflexivity. Qed.

Lemma abs_ofZ (z : Z) : RaceTimerView.abs (ofZ z) = ofZ (Z.abs z).
Proof.
  unfold RaceTimerView.abs. unfold ofZ at 1. fold (ofZ z).
  rewrite ltZero_ofZ, neg_ofZ.
  destruct (Z.ltb_spec z 0); f_equal; lia.
Qed.

Lemma Qc_sign_cases (q : Qc) :
  ((q ?= 0)%Qc = Lt /\ (q < 0)%Qc)
  \/ ((q ?= 0)%Qc = Eq /\ q = 0%Qc)
  \/ ((q ?= 0)%Qc = Gt /\ (0 < q)%Qc).
Proof.
  destruct (q ?= 0)%Qc eqn:E.
  - right; left. split; [reflexivity|]. apply Qceq_alt. exact E.
  - left. split; [reflexivity|]. apply Qclt_alt. exact E.
  - right; right. split; [reflexivity|]. apply Qcgt_alt in E. exact E.
Qed.

Lemma Qc_add_nonneg (a b : Qc) : (0 <= a -> 0 <= b -> 0 <= a + b)%Qc.
Proof.
  unfold Qcle, Qcplus. rewrite !Qc_this_Q2Qc, !Qred_correct.
  intros. lra.
Qed.

Lemma Qc_add_pos (a b : Qc) : (0 < a -> 0 < b -> 0 < a + b)%Qc.
Proof.
  unfold Qclt, Qcplus. rewrite !Qc_this_Q2Qc, !Qred_correct.
  intros. lra.
Qed.

Lemma Qc_mul_nonneg (a b : Qc) : (0 <= a -> 0 <= b -> 0 <= a * b)%Qc.
Proof.
  unfold Qcle, Qcmult. rewrite !Qc_this_Q2Qc, !Qred_correct.
  intros. nra.
Qed.

Lemma nonNegative_Fin (q : Qc) : nonNegative (Fin q) <-> (0 <= q)%Qc.
Proof.
  unfold nonNegative. simpl.
  destruct (Qc_sign_cases q) as [[E H]|[[E H]|[E H]]]; rewrite E.
  - split; [intros [_ ?]; discriminate|].
    intros Hle. exfalso. apply (Qclt_not_le _ _ H Hle).
  - split; [|auto]. intros _. rewrite H. apply Qcle_refl.
  - split; [|auto]. intros _. apply Qclt_le_weak. exact H.
Qed.

Lemma nonNegative_ofZ (a : Z) : 0 <= a -> nonNegative (ofZ a).
Proof.
  intros Ha. split; [reflexivity|]. rewrite ltZero_ofZ. lia.
Qed.

Lemma nonNegative_add (x y : number) :
  nonNegative x -> nonNegative y -> nonNegative (add x y).
Proof.
  destruct x as [| | |a], y as [| | |b]; intros Hx Hy;
    try (destruct Hx; discriminate); try (destruct Hy; discriminate);
    try (split; reflexivity).
  simpl. apply nonNegative_Fin. apply Qc_add_nonneg; apply nonNegative_Fin; assumption.
Qed.

Lemma nonNegative_scale (x : number) (k : Z) :
  nonNegative x -> 0 < k -> nonNegative (mul x (ofZ k)).
Proof.
  intros Hx Hk.
  destruct x as [| | |a]; try (destruct Hx; discriminate).
  - unfold mul, ofZ. fold (ofZ k). rewrite isZero_ofZ, ltZero_ofZ. simpl.
    replace (k =? 0) with false by lia. replace (k <? 0) with false by lia.
    split; reflexivity.
  - unfold mul, ofZ. apply nonNegative_Fin. apply Qc_mul_nonneg.
    + apply nonNegative_Fin. exact Hx.
    + apply nonNegative_Fin. apply nonNegative_ofZ. lia.
Qed.

Lemma truthy_nonNegative_gtZero (x : number) :
  nonNegative x -> truthy x = true -> gtZero x = true.
Proof.
  destruct x as [| | |q]; intros [Hn Hl] Ht; try discriminate; try reflexivity.
  simpl in *. destruct (q ?= 0)%Qc; try discriminate; reflexivity.
Qed.

Lemma gtZero_truthy (x : number) : gtZero x = true -> truthy x = true.
Proof.
  destruct x as [| | |q]; simpl; try discriminate; try reflexivity.
  destruct (q ?= 0)%Qc; try discriminate; reflexivity.
Qed.

Lemma gtZero_add (x y : number) :
  gtZero x = true -> gtZero y = true -> gtZero (add x y) = true.
Proof.
  destruct x as [| | |a], y as [| | |b]; simpl; try discriminate; try reflexivity.
  intros Ha Hb.
  destruct (Qc_sign_cases a) as [[E H]|[[E H]|[E H]]]; rewrite E in Ha; try discriminate.
  destruct (Qc_sign_cases b) as [[E' H']|[[E' H']|[E' H']]]; rewrite E' in Hb; try discriminate.
  pose proof (Qc_add_pos a b H H') as Hs.
  apply Qcgt_alt in Hs. rewrite Hs. reflexivity.
Qed.

Lemma isZero_eq (x : number) : isZero x = true <-> x = zero.
Proof.
  destruct x as [| | |q]; simpl; try (split; discriminate).
  destruct (Qc_sign_cases q) as [[E H]|[[E H]|[E H]]]; rewrite E.
  - split; [discriminate|]. intros [= Hq]. exfalso.
    rewrite Hq in E. discriminate.
  - split; [|reflexivity]. intros _. rewrite H. reflexivity.
  - split; [discriminate|]. intros [= Hq]. exfalso.
    rewrite Hq in E. discriminate.
Qed.

End NumberFacts.

(* ===================================================================== *)
(** * Properties of the estimate form and of the estimate merge *)
(* ===================================================================== *)

Module EstimateFacts.
Import JS EstimateInput NumberFacts.

(** ** What [parseTimeToMs] returns *)

Lemma parseTimeToMs_nonNegative (s : string) (ms : number) :
  parseTimeToMs s = Some ms -> nonNegative ms.
Proof.
  unfold parseTimeToMs.
  destruct (negb (nonEmpty (trim s))); [discriminate|].
  destruct (map trim (split ":" (trim s))) as [|p0 [|p1 [|p2 [|p3 l]]]];
    try discriminate.
  - destruct (_ || _) eqn:G; [discriminate|]. intros [= <-].
    repeat (apply orb_false_iff in G as [G ?]).
    apply nonNegative_scale; [|lia].
    apply nonNegative_add; [|split; assumption].
    apply nonNegative_scale; [split; assumption | lia].
  - destruct (_ || _) eqn:G; [discriminate|]. intros [= <-].
    repeat (apply orb_false_iff in G as [G ?]).
    apply nonNegative_scale; [|lia].
    apply nonNegative_add; [|split; assumption].
    apply nonNegative_add; apply nonNegative_scale;
      solve [split; assumption | lia].
Qed.

(** A value that the form stores is positive. *)
Lemma accepted_value_positive (s : string) (ms : number) :
  parseTimeToMs s = Some ms -> truthy ms = true -> gtZero ms = true.
Proof.
  intros Hp Ht. apply truthy_nonNegative_gtZero; [|exact Ht].
  exact (parseTimeToMs_nonNegative _ _ Hp).
Qed.

(** ** The invariant of [EstimatedSplits] *)

Lemma positiveOpt_truthy (o : option number) :
  positiveOpt o -> truthyOpt o = true <-> is_Some o.
Proof.
  intros Hp. destruct o as [v|]; simpl.
  - split; [eauto|]. intros _. apply gtZero_truthy, Hp. reflexivity.
  - split; [discriminate|]. intros [? ?]. discriminate.
Qed.

Lemma positiveOpt_None : positiveOpt None.
Proof. intros v H. discriminate. Qed.

Lemma positive_total (e : EstimatedSplits) :
  WellFormed e -> positiveOpt (est_total e).
Proof.
  intros [[_ Hsum] (Ht & Hs & Hr)] v Hv.
  destruct (Hsum v Hv) as (t & s & r & Et & Es & Er & ->).
  apply gtZero_add; [apply gtZero_add|]; eauto.
Qed.

Lemma wellFormed_noEstimates : WellFormed noEstimates.
Proof.
  split; [split|]; simpl.
  - split; [intros [? ?]; discriminate | intros ([? ?] & _); discriminate].
  - discriminate.
  - repeat split; apply positiveOpt_None.
Qed.

Lemma wellFormed_spreadOpt (o : option EstimatedSplits) :
  WellFormedOpt o -> WellFormed (spreadOpt o).
Proof.
  intros H. destruct o as [e|]; simpl; [auto | apply wellFormed_noEstimates].
Qed.

(** The rule by which both [handleConfirm] and [handleEstimateConfirm]
    settle [total], given three positive optional estimates and the
    [total] that the object holds before. *)
Lemma total_rule (t s r before : option number) :
  positiveOpt t -> positiveOpt s -> positiveOpt r ->
  (~ (is_Some t /\ is_Some s /\ is_Some r) -> before = None) ->
  TotalInvariant
    {| est_treadmill := t; est_skiErg := s; est_rowing := r;
       est_total :=
         if truthyOpt t && truthyOpt s && truthyOpt r
         then Some (add (add (toNumber t) (toNumber s)) (toNumber r))
         else before |}.
Proof.
  intros Ht Hs Hr Hb.
  destruct (truthyOpt t && truthyOpt s && truthyOpt r) eqn:E.
  - apply andb_true_iff in E as [E Er]. apply andb_true_iff in E as [Et Es].
    apply positiveOpt_truthy in Et, Es, Er; try assumption.
    destruct Et as [tv ->], Es as [sv ->], Er as [rv ->].
    split; simpl.
    + split; eauto.
    + intros tot [= <-]. eauto 10.
  - assert (Hno : ~ (is_Some t /\ is_Some s /\ is_Some r)).
    { intros (H1 & H2 & H3).
      apply positiveOpt_truthy in H1, H2, H3; try assumption.
      rewrite H1, H2, H3 in E. discriminate. }
    rewrite (Hb Hno). split; simpl.
    + split; [intros [? ?]; discriminate | intros H; destruct (Hno H)].
    + discriminate.
Qed.

(** ** [handleConfirm] *)



(** The object that [handleConfirm] passes to [onConfirm]. *)
Lemma handleConfirm_accepts (existing : option EstimatedSplits)
    (completed : list Split) (f : Form) (e : EstimatedSplits) :
  handleConfirm existing completed f = inr e ->
  newErrors existing completed f = []
  /\ (forall d, estimateOf d e
                = applyAction (actionFor existing completed f d)
                              (estimateOf d (spreadOpt existing)))
  /\ est_total e
     = if truthyOpt (est_treadmill e) && truthyOpt (est_skiErg e)
          && truthyOpt (est_rowing e)
       then Some (add (add (toNumber (est_treadmill e)) (toNumber (est_skiErg e)))
                      (toNumber (est_rowing e)))
       else if truthyOpt (est_total (spreadOpt existing)) then None
       else est_total (spreadOpt existing).
Proof.
  unfold handleConfirm. cbv zeta.
  destruct (newErrors existing completed f); [|discriminate].
  intros [= <-]. split; [reflexivity|]. split; [|reflexivity].
  intros []; reflexivity.
Qed.

Lemma applyAction_positive (completed : bool) (input : string)
    (current : option number) :
  positiveOpt current ->
  positiveOpt (applyAction (fieldAction completed input current) current).
Proof.
  intros Hc. unfold fieldAction.
  destruct (negb completed && nonEmpty (trim input)).
  - destruct (parseTimeToMs input) as [ms|] eqn:Hp; [|exact Hc].
    destruct (truthy ms) eqn:Ht; [|exact Hc].
    intros v [= <-]. exact (accepted_value_positive _ _ Hp Ht).
  - destruct (_ && _); [apply positiveOpt_None | exact Hc].
Qed.

Lemma handleConfirm_wellFormed (existing : option EstimatedSplits)
    (completed : list Split) (f : Form) (e : EstimatedSplits) :
  WellFormedOpt existing ->
  handleConfirm existing completed f = inr e ->
  WellFormed e.
Proof.
  intros Hwf H.
  apply wellFormed_spreadOpt in Hwf.
  pose proof (positive_total _ Hwf) as Htot.
  destruct Hwf as (_ & Pt & Ps & Pr).
  apply handleConfirm_accepts in H as (_ & Hfield & Htotal).
  assert (Pt' : positiveOpt (est_treadmill e)).
  { change (est_treadmill e) with (estimateOf treadmill e).
    rewrite (Hfield treadmill). apply applyAction_positive. exact Pt. }
  assert (Ps' : positiveOpt (est_skiErg e)).
  { change (est_skiErg e) with (estimateOf skiErg e).
    rewrite (Hfield skiErg). apply applyAction_positive. exact Ps. }
  assert (Pr' : positiveOpt (est_rowing e)).
  { change (est_rowing e) with (estimateOf rowing e).
    rewrite (Hfield rowing). apply applyAction_positive. exact Pr. }
  split; [|auto].
  destruct e as [t s r tot]. simpl in *. subst tot.
  apply total_rule; try assumption.
  intros _.
  destruct (est_total (spreadOpt existing)) as [v|] eqn:E; [|reflexivity].
  simpl. rewrite (gtZero_truthy _ (Htot v eq_refl)). reflexivity.
Qed.

(** ** [handleEstimateConfirm] *)

Lemma spreadField_positive (a b : option number) :
  positiveOpt a -> positiveOpt b -> positiveOpt (spreadField a b).
Proof. intros Ha Hb. destruct b; simpl; assumption. Qed.

Lemma spreadField_is_Some (a b : option number) :
  is_Some a \/ is_Some b -> is_Some (spreadField a b).
Proof. destruct b; simpl; intros [H|H]; eauto. destruct H. discriminate. Qed.

Lemma mergeEstimates_wellFormed (stored : option EstimatedSplits)
    (new : EstimatedSplits) :
  WellFormedOpt stored -> WellFormed new ->
  WellFormed (RaceTimer.mergeEstimates stored new).
Proof.
  intros Hold Hnew.
  apply wellFormed_spreadOpt in Hold.
  destruct Hold as ([Hoi _] & Pt & Ps & Pr).
  destruct Hnew as ([Hni _] & Pt' & Ps' & Pr').
  set (old := spreadOpt stored) in *.
  assert (Qt := spreadField_positive _ _ Pt Pt').
  assert (Qs := spreadField_positive _ _ Ps Ps').
  assert (Qr := spreadField_positive _ _ Pr Pr').
  assert (E : RaceTimer.mergeEstimates stored new
              = {| est_treadmill := est_treadmill (spread old new);
                   est_skiErg := est_skiErg (spread old new);
                   est_rowing := est_rowing (spread old new);
                   est_total :=
                     if truthyOpt (est_treadmill (spread old new))
                        && truthyOpt (est_skiErg (spread old new))
                        && truthyOpt (est_rowing (spread old new))
                     then Some (add (add (toNumber (est_treadmill (spread old new)))
                                         (toNumber (est_skiErg (spread old new))))
                                    (toNumber (est_rowing (spread old new))))
                     else est_total (spread old new) |}).
  { unfold RaceTimer.mergeEstimates. fold old.
    destruct (_ && _); reflexivity. }
  rewrite E. split; [|simpl; auto].
  apply total_rule; simpl; try assumption.
  intros Hno.
  destruct (est_total new) as [v|] eqn:En.
  - exfalso. apply Hno.
    destruct (proj1 Hni (ex_intro _ v eq_refl)) as (H1 & H2 & H3).
    repeat split; apply spreadField_is_Some; right; assumption.
  - simpl. destruct (est_total old) as [v|] eqn:Eo; [|reflexivity].
    exfalso. apply Hno.
    destruct (proj1 Hoi (ex_intro _ v eq_refl)) as (H1 & H2 & H3).
    repeat split; apply spreadField_is_Some; left; assumption.
Qed.

(** ** The estimates that estimate edits produce *)

Lemma fromEdits_wellFormed (o : option EstimatedSplits) :
  FromEdits o -> WellFormedOpt o.
Proof.
  induction 1 as [|f e H|shown stored completed f new Hshown IHshown
                     Hstored IHstored H].
  - intros e [=].
  - intros e' [= <-].
    apply (handleConfirm_wellFormed None [] f); [intros ? [=] | exact H].
  - intros e' [= <-].
    apply mergeEstimates_wellFormed; [exact IHstored|].
    exact (handleConfirm_wellFormed _ _ _ _ IHshown H).
Qed.

(** C2.  Every estimates object that an estimate edit produces (the
    confirmed form at the start of a race, or the merge of a confirmed
    form into the estimates held before) has [total] present exactly when
    [treadmill], [skiErg] and [rowing] are all present, and then [total]
    is their sum. *)
Theorem C2_total_iff_all_three (e : EstimatedSplits) :
  FromEdits (Some e) ->
  (is_Some (est_total e)
     <-> is_Some (est_treadmill e) /\ is_Some (est_skiErg e)
         /\ is_Some (est_rowing e))
  /\ (forall tot, est_total e = Some tot ->
        exists t s r, est_treadmill e = Some t /\ est_skiErg e = Some s
                      /\ est_rowing e = Some r /\ tot = add (add t s) r).
Proof.
  intros H. exact (proj1 (fromEdits_wellFormed _ H e eq_refl)).
Qed.

Lemma fullForm_confirmed : handleConfirm None [] fullForm = inr fullEstimates.
Proof.
  unfold fullEstimates.
  destruct (handleConfirm None [] fullForm) eqn:E; [|reflexivity].
  vm_compute in E. discriminate.
Qed.

Lemma editedEstimates_fromEdits : FromEdits (Some editedEstimates).
Proof.
  unfold editedEstimates.
  destruct (handleConfirm (Some fullEstimates) [] partialForm) eqn:E.
  - vm_compute in E. discriminate.
  - apply (fromEdits_edit (Some fullEstimates) (Some fullEstimates)
             [] partialForm).
    + exact (fromEdits_start fullForm _ fullForm_confirmed).
    + exact (fromEdits_start fullForm _ fullForm_confirmed).
    + exact E.
Defined.

Lemma C2_total_iff_all_three_witness :
  (is_Some (est_total editedEstimates)
     <-> is_Some (est_treadmill editedEstimates)
         /\ is_Some (est_skiErg editedEstimates)
         /\ is_Some (est_rowing editedEstimates))
  /\ (forall tot, est_total editedEstimates = Some tot ->
        exists t s r, est_treadmill editedEstimates = Some t
                      /\ est_skiErg editedEstimates = Some s
                      /\ est_rowing editedEstimates = Some r
                      /\ tot = add (add t s) r).
Proof.
  apply (C2_total_iff_all_three editedEstimates).
  exact editedEstimates_fromEdits.
Defined.

(** ** Which field texts the form rejects *)

Lemma guard_unusable (l : list number) (g : bool) :
  g = existsb (fun c => isNaN c || ltZero c) l ->
  (g = true <-> Exists unusable l).
Proof.
  intros ->. rewrite List.existsb_exists, List.Exists_exists.
  split; intros (c & Hin & Hc); exists c; (split; [exact Hin|]).
  - apply orb_true_iff. exact Hc.
  - apply orb_true_iff. exact Hc.
Qed.

Lemma falsy_nonNegative (v : number) :
  nonNegative v -> (negb (truthy v) = true <-> v = zero).
Proof.
  intros [Hn Hl]. rewrite <- isZero_eq.
  destruct v as [| | |q]; simpl in *; try discriminate.
  - split; discriminate.
  - rewrite negb_involutive. reflexivity.
Qed.

Lemma rejected_iff (s : string) :
  trim s <> "" ->
  (rejected s = true
   <-> (length (parts s) <> 2%nat /\ length (parts s) <> 3%nat)
       \/ Exists unusable (components s)
       \/ parseTimeToMs s = Some zero).
Proof.
  intros Hne.
  assert (Hp : forall v, parseTimeToMs s = Some v ->
                 (rejected s = true <-> parseTimeToMs s = Some zero)).
  { intros v Hv. unfold rejected. rewrite Hv. simpl.
    rewrite (falsy_nonNegative v (parseTimeToMs_nonNegative _ _ Hv)).
    split; congruence. }
  assert (Hn : parseTimeToMs s = None -> rejected s = true).
  { intros H. unfold rejected. rewrite H. reflexivity. }
  revert Hp Hn. unfold components, parts, parseTimeToMs.
  replace (nonEmpty (trim s)) with true
    by (symmetry; apply ManagerFacts.nonEmpty_true; exact Hne).
  simpl negb. cbv iota.
  destruct (map trim (split ":" (trim s))) as [|p0 [|p1 [|p2 [|p3 l]]]];
    intros Hp Hn; simpl length.
  - split; [intros _; left; split; discriminate | intros _; auto].
  - split; [intros _; left; split; discriminate | intros _; auto].
  - destruct (_ || _) eqn:G.
    + split; [intros _; right; left | intros _; auto].
      apply (guard_unusable _ true); [|reflexivity]. simpl. rewrite <- G.
      destruct (isNaN (parseInt p0)), (isNaN (parseFloat p1)),
        (ltZero (parseInt p0)), (ltZero (parseFloat p1)); reflexivity.
    + rewrite (Hp _ eq_refl). split; [auto|].
      intros [[H _]|[H|H]]; [destruct H; reflexivity | | exact H].
      apply (guard_unusable _ false) in H; [discriminate|].
      simpl. rewrite <- G.
      destruct (isNaN (parseInt p0)), (isNaN (parseFloat p1)),
        (ltZero (parseInt p0)), (ltZero (parseFloat p1)); reflexivity.
  - destruct (_ || _) eqn:G.
    + split; [intros _; right; left | intros _; auto].
      apply (guard_unusable _ true); [|reflexivity]. simpl. rewrite <- G.
      destruct (isNaN (parseInt p0)), (isNaN (parseInt p1)),
        (isNaN (parseFloat p2)), (ltZero (parseInt p0)),
        (ltZero (parseInt p1)), (ltZero (parseFloat p2)); reflexivity.
    + rewrite (Hp _ eq_refl). split; [auto|].
      intros [[_ H]|[H|H]]; [destruct H; reflexivity | | exact H].
      apply (guard_unusable _ false) in H; [discriminate|].
      simpl. rewrite <- G.
      destruct (isNaN (parseInt p0)), (isNaN (parseInt p1)),
        (isNaN (parseFloat p2)), (ltZero (parseInt p0)),
        (ltZero (parseInt p1)), (ltZero (parseFloat p2)); reflexivity.
  - split; [intros _; left; split; discriminate | intros _; auto].
Qed.






End EstimateFacts.

(* ===================================================================== *)
(** * Properties of the leaderboard order *)
(* ===================================================================== *)

Module LeaderboardFacts.
Import JS Leaderboard LeaderboardView.

(** ** Stable insertion with a comparator that separates two classes *)

Section TwoClasses.
Context {A : Type} (cmp : A -> A -> number) (late : A -> bool).

(** A late element compares greater than an early one, and an early
    one does not compare greater than a late one. *)
Hypothesis late_after_early :
  forall x y, late x = true -> late y = false -> sign (cmp x y) = Gt.
Hypothesis early_not_after_late :
  forall x y, late x = false -> late y = true -> sign (cmp x y) <> Gt.

Lemma Forall_insertSorted (P : A -> Prop) (x : A) (l : list A) :
  P x -> Forall P l -> Forall P (insertSorted cmp x l).
Proof.
  intros Hx Hl. induction Hl as [|y l Hy Hl IH]; simpl.
  - constructor; [exact Hx | constructor].
  - destruct (sign (cmp x y)); repeat constructor; assumption.
Qed.

Lemma insertSorted_lateStays (x : A) (l : list A) :
  StronglySorted (lateStays late) l ->
  StronglySorted (lateStays late) (insertSorted cmp x l).
Proof.
  induction 1 as [|y l Hs IH Hy]; simpl.
  - constructor; constructor.
  - assert (Hfront : sign (cmp x y) <> Gt ->
              StronglySorted (lateStays late) (x :: y :: l)).
    { intros Hc. constructor; [constructor; assumption|].
      assert (Hxy : lateStays late x y).
      { intros Hx. destruct (late y) eqn:Ey; [reflexivity|].
        destruct Hc. apply late_after_early; assumption. }
      constructor; [exact Hxy|].
      eapply List.Forall_impl; [|exact Hy].
      intros z Hz Hx. apply Hz, Hxy, Hx. }
    destruct (sign (cmp x y)) eqn:Hc; try (apply Hfront; discriminate).
    constructor; [exact IH|].
    apply Forall_insertSorted; [|exact Hy].
    intros Hly. destruct (late x) eqn:Ex; [reflexivity|].
    destruct (early_not_after_late x y Ex Hly). exact Hc.
Qed.

Lemma sort_lateStays (l : list A) : StronglySorted (lateStays late) (sort cmp l).
Proof.
  induction l as [|x l IH]; simpl.
  - constructor.
  - apply insertSorted_lateStays. exact IH.
Qed.

Lemma stronglySorted_positions (R : A -> A -> Prop) (l : list A) :
  StronglySorted R l ->
  forall i j x y, nth_error l i = Some x -> nth_error l j = Some y ->
    (i < j)%nat -> R x y.
Proof.
  induction 1 as [|a l Hs IH Ha]; intros i j x y Hi Hj Hlt.
  - destruct i; discriminate.
  - destruct j as [|j]; [lia|]. simpl in Hj.
    destruct i as [|i]; simpl in Hi.
    + injection Hi as <-.
      rewrite List.Forall_forall in Ha. apply Ha.
      eapply nth_error_In. exact Hj.
    + apply (IH i j); [assumption..|lia].
Qed.

(** In the sorted list every early element stands before every late
    one. *)
Lemma early_before_late (l : list A) (i j : nat) (x y : A) :
  late x = false -> late y = true ->
  nth_error (sort cmp l) i = Some x ->
  nth_error (sort cmp l) j = Some y ->
  (i < j)%nat.
Proof.
  intros Hx Hy Hi Hj.
  destruct (Nat.lt_trichotomy i j) as [H|[H|H]]; [exact H| |].
  - subst j. rewrite Hi in Hj. injection Hj as ->. congruence.
  - pose proof (stronglySorted_positions _ _ (sort_lateStays l)
                  j i y x Hj Hi H) as Hst.
    specialize (Hst Hy). congruence.
Qed.
End TwoClasses.

Lemma insertSorted_Permutation {A : Type} (cmp : A -> A -> number)
    (x : A) (l : list A) :
  Permutation (x :: l) (insertSorted cmp x l).
Proof.
  induction l as [|y l IH]; simpl; [reflexivity|].
  destruct (sign (cmp x y)); try reflexivity.
  rewrite Permutation_swap. constructor. exact IH.
Qed.

Lemma sort_Permutation {A : Type} (cmp : A -> A -> number) (l : list A) :
  Permutation l (sort cmp l).
Proof.
  induction l as [|x l IH]; simpl; [reflexivity|].
  rewrite <- insertSorted_Permutation. constructor. exact IH.
Qed.

(** ** Sorting by one discipline *)

Section OneDiscipline.
Context {A : Type} `{Timed A}.

Lemma noTime_false (d : Discipline) (r : A) :
  noTime d r = false <-> hasTime d r.
Proof.
  unfold noTime, hasTime.
  destruct (splitTimeOf d r) as [t|].
  - rewrite orb_false_iff, negb_false_iff. split.
    + intros [Ht Hi]. exists t. split; [reflexivity|]. split; [exact Ht|].
      intros ->. discriminate.
    + intros (t' & [= <-] & Ht & Hne). split; [exact Ht|].
      destruct t; try reflexivity. contradiction.
  - split; [discriminate|]. intros (t & E & _). discriminate.
Qed.

Lemma noTime_true (d : Discipline) (r : A) :
  noTime d r = true <-> ~ hasTime d r.
Proof.
  rewrite <- noTime_false. destruct (noTime d r); split; congruence.
Qed.

Lemma sortValue_fieldOf (d : Discipline) (r : A) :
  sortValue (fieldOf d) r = splitValue d r.
Proof. destruct d; reflexivity. Qed.

(** The comparator's value is [Infinity] exactly for the entries without
    a time; for the others it is their time, a number other than [NaN]
    and [Infinity]. *)
Lemma splitValue_noTime (d : Discipline) (r : A) :
  (noTime d r = true -> splitValue d r = PosInf)
  /\ (noTime d r = false ->
      splitValue d r <> PosInf /\ splitValue d r <> NaN).
Proof.
  unfold noTime, splitValue.
  destruct (splitTimeOf d r) as [t|]; [|split; [reflexivity | discriminate]].
  destruct (truthy t) eqn:Et; cbn [negb orb].
  - split.
    + intros Hi. destruct t; try discriminate. reflexivity.
    + intros Hi. split; intros ->; discriminate.
  - split; [reflexivity | discriminate].
Qed.

(** With the sentinel on one side only, the comparator says so. *)
Lemma compare_sentinel (d : Discipline) (x y : A) :
  noTime d x = true -> noTime d y = false ->
  sign (compareResults (fieldOf d) asc x y) = Gt
  /\ sign (compareResults (fieldOf d) asc y x) = Lt
  /\ sign (compareResults (fieldOf d) desc x y) = Lt
  /\ sign (compareResults (fieldOf d) desc y x) = Gt.
Proof.
  intros Hx Hy. unfold compareResults.
  rewrite !sortValue_fieldOf.
  rewrite (proj1 (splitValue_noTime d x) Hx).
  destruct (proj2 (splitValue_noTime d y) Hy) as [Hinf Hnan].
  destruct (splitValue d y) as [| | |q]; try contradiction;
    repeat split; reflexivity.
Qed.

End OneDiscipline.

(** C5 (amended).  Sorting by one discipline, for the stored results and
    the provisional entries alike and whatever numbers their times are:
    an entry whose split for that discipline is absent, or has a time
    that is 0, [NaN] or [Infinity], comes after every entry whose time
    for it is a duration (none of these) when the direction is ascending,
    and before every such entry when the direction is descending. *)
Theorem C5_missing_split_position (A : Type) (T : Timed A)
    (allResults : list A) (d : Discipline) (i j : nat) (x y : A) :
  hasTime d x -> ~ hasTime d y ->
  (nth_error (sortedResults allResults (fieldOf d) asc) i = Some x ->
   nth_error (sortedResults allResults (fieldOf d) asc) j = Some y ->
   (i < j)%nat)
  /\ (nth_error (sortedResults allResults (fieldOf d) desc) i = Some x ->
      nth_error (sortedResults allResults (fieldOf d) desc) j = Some y ->
      (j < i)%nat).
Proof.
  intros Hx Hy. apply noTime_false in Hx. apply noTime_true in Hy.
  unfold sortedResults. split.
  - apply (early_before_late (compareResults (fieldOf d) asc) (noTime d));
      try assumption.
    + intros a b Ha Hb. apply (compare_sentinel d a b Ha Hb).
    + intros a b Ha Hb E.
      destruct (compare_sentinel d b a Hb Ha) as (_ & Hlt & _). congruence.
  - intros Hi Hj.
    apply (early_before_late (compareResults (fieldOf d) desc)
             (fun r => negb (noTime d r)) ) with (l := allResults) (x := y) (y := x);
      try assumption.
    + intros a b Ha Hb.
      apply negb_true_iff in Ha. apply negb_false_iff in Hb.
      apply (compare_sentinel d b a Hb Ha).
    + intros a b Ha Hb E.
      apply negb_false_iff in Ha. apply negb_true_iff in Hb.
      destruct (compare_sentinel d a b Ha Hb) as (_ & _ & Hlt & _). congruence.
    + rewrite Hy. reflexivity.
    + rewrite Hx. reflexivity.
Qed.

Lemma C5_missing_split_position_witness :
  hasTime treadmill (inl finisher : RaceResult + LeaderboardView.EstimatedResult)
  /\ ~ hasTime treadmill
         (inr openEndedEntry : RaceResult + LeaderboardView.EstimatedResult)
  /\ nth_error (sortedResults (allResults [noTreadmill; finisher] [openEndedEntry])
                  (fieldOf treadmill) asc) 0
       = Some (inl finisher)
  /\ nth_error (sortedResults (allResults [noTreadmill; finisher] [openEndedEntry])
                  (fieldOf treadmill) asc) 2
       = Some (inr openEndedEntry)
  /\ nth_error (sortedResults (allResults [noTreadmill; finisher] [openEndedEntry])
                  (fieldOf treadmill) desc) 2
       = Some (inl finisher)
  /\ nth_error (sortedResults (allResults [noTreadmill; finisher] [openEndedEntry])
                  (fieldOf treadmill) desc) 1
       = Some (inr openEndedEntry)
  /\ (0 < 2)%nat /\ (1 < 2)%nat.
Proof.
  assert (Hx : hasTime treadmill
                 (inl finisher : RaceResult + LeaderboardView.EstimatedResult)).
  { exists (ofZ 900000). split; [reflexivity|].
    split; [vm_compute; reflexivity | discriminate]. }
  assert (Hy : ~ hasTime treadmill
                   (inr openEndedEntry
                    : RaceResult + LeaderboardView.EstimatedResult)).
  { intros (t & E & _ & Hne). vm_compute in E. injection E as <-.
    apply Hne. reflexivity. }
  assert (Ha0 : nth_error
                  (sortedResults (allResults [noTreadmill; finisher] [openEndedEntry])
                     (fieldOf treadmill) asc) 0 = Some (inl finisher))
    by (vm_compute; reflexivity).
  assert (Ha2 : nth_error
                  (sortedResults (allResults [noTreadmill; finisher] [openEndedEntry])
                     (fieldOf treadmill) asc) 2 = Some (inr openEndedEntry))
    by (vm_compute; reflexivity).
  assert (Hd2 : nth_error
                  (sortedResults (allResults [noTreadmill; finisher] [openEndedEntry])
                     (fieldOf treadmill) desc) 2 = Some (inl finisher))
    by (vm_compute; reflexivity).
  assert (Hd1 : nth_error
                  (sortedResults (allResults [noTreadmill; finisher] [openEndedEntry])
                     (fieldOf treadmill) desc) 1 = Some (inr openEndedEntry))
    by (vm_compute; reflexivity).
  split; [exact Hx|]. split; [exact Hy|].
  split; [exact Ha0|]. split; [exact Ha2|].
  split; [exact Hd2|]. split; [exact Hd1|].
  split.
  - exact (proj1 (C5_missing_split_position _ _
                    (allResults [noTreadmill; finisher] [openEndedEntry])
                    treadmill 0 2 (inl finisher) (inr openEndedEntry) Hx Hy)
             Ha0 Ha2).
  - exact (proj2 (C5_missing_split_position _ _
                    (allResults [noTreadmill; finisher] [openEndedEntry])
                    treadmill 2 1 (inl finisher) (inr openEndedEntry) Hx Hy)
             Hd2 Hd1).
Defined.

(** C5 (counterexample).  It is not so that, in both directions, a result
    without the split comes after every result that has it: sorted by
    treadmill in descending direction, the result without a treadmill
    split is first. *)
Lemma C5_descending_puts_missing_first :
  ~ (forall (allResults : list RaceResult) (d : Discipline)
            (dir : SortDirection) (i j : nat) (x y : RaceResult),
       hasSplit d x -> ~ hasSplit d y ->
       nth_error (sortedResults allResults (fieldOf d) dir) i = Some x ->
       nth_error (sortedResults allResults (fieldOf d) dir) j = Some y ->
       (i < j)%nat).
Proof.
  intros H.
  assert (Hsorted : sortedResults [finisher; noTreadmill] (fieldOf treadmill) desc
                    = [noTreadmill; finisher]) by (vm_compute; reflexivity).
  specialize (H [finisher; noTreadmill] treadmill desc 1%nat 0%nat
                finisher noTreadmill).
  rewrite Hsorted in H.
  assert (1 < 0)%nat; [|lia].
  apply H; try reflexivity.
  - eexists. reflexivity.
  - intros [s Hs]. discriminate.
Qed.

(** Selecting the current sort key again flips the direction; selecting
    another key sorts by it in ascending direction. *)
Lemma handleSort_toggles (field : SortField) :
  handleSort field (field, asc) = (field, desc)
  /\ handleSort field (field, desc) = (field, asc).
Proof. destruct field; split; reflexivity. Qed.

End LeaderboardFacts.

(* ===================================================================== *)
(** * Facts about strings of digits *)
(* ===================================================================== *)

Module StringFacts.
Import JS.

Lemma allChars_app (P : ascii -> bool) (a b : string) :
  allChars P (a +:+ b) = allChars P a && allChars P b.
Proof.
  induction a as [|c a IH]; simpl; [reflexivity|].
  rewrite IH, andb_assoc. reflexivity.
Qed.

Lemma allChars_impl (P Q : ascii -> bool) (s : string) :
  (forall c, P c = true -> Q c = true) ->
  allChars P s = true -> allChars Q s = true.
Proof.
  intros HPQ. induction s as [|c s IH]; simpl; [reflexivity|].
  intros H. apply andb_true_iff in H as [Hc Hs].
  rewrite (HPQ c Hc), (IH Hs). reflexivity.
Qed.

(** A digit is neither a colon, nor white space, nor a sign, nor the
    first letter of [Infinity]. *)
Lemma digit_class (c : ascii) :
  isDigit c = true ->
  notColon c = true /\ notSpace c = true
  /\ (forall s, scanSign (String c s) = (false, String c s))
  /\ (forall s, String.prefix "Infinity" (String c s) = false).
Proof.
  destruct c as [[] [] [] [] [] [] [] []]; intros H;
    try discriminate H; repeat split.
Qed.

Lemma digits_notColon (s : string) :
  allChars isDigit s = true -> allChars notColon s = true.
Proof. apply allChars_impl. intros c H. apply (digit_class c H). Qed.

Lemma digits_notSpace (s : string) :
  allChars isDigit s = true -> allChars notSpace s = true.
Proof. apply allChars_impl. intros c H. apply (digit_class c H). Qed.

(** ** [trim] and [split] on clean strings *)

Lemma trimStart_clean (s : string) :
  allChars notSpace s = true -> trimStart s = s.
Proof.
  destruct s as [|c s]; simpl; [reflexivity|].
  intros H. apply andb_true_iff in H as [Hc _].
  unfold notSpace in Hc. apply negb_true_iff in Hc. rewrite Hc. reflexivity.
Qed.

Lemma trimEnd_clean (s : string) :
  allChars notSpace s = true -> trimEnd s = s.
Proof.
  induction s as [|c s IH]; simpl; [reflexivity|].
  intros H. apply andb_true_iff in H as [Hc Hs].
  rewrite (IH Hs).
  unfold notSpace in Hc. apply negb_true_iff in Hc. rewrite Hc.
  destruct s; reflexivity.
Qed.

Lemma trim_clean (s : string) : allChars notSpace s = true -> trim s = s.
Proof.
  intros H. unfold trim. rewrite (trimStart_clean s H). apply trimEnd_clean, H.
Qed.

Lemma split_single (s : string) :
  allChars notColon s = true -> split ":" s = [s].
Proof.
  induction s as [|c s IH]; simpl; [reflexivity|].
  intros H. apply andb_true_iff in H as [Hc Hs].
  unfold notColon in Hc. apply negb_true_iff in Hc.
  rewrite Hc, (IH Hs). reflexivity.
Qed.

Lemma split_first (a b : string) :
  allChars notColon a = true ->
  split ":" (a +:+ String ":" b) = a :: split ":" b.
Proof.
  induction a as [|c a IH]; simpl; [reflexivity|].
  intros H. apply andb_true_iff in H as [Hc Ha].
  unfold notColon in Hc. apply negb_true_iff in Hc.
  rewrite Hc, (IH Ha). reflexivity.
Qed.

(** ** The digits of a number and their value *)

Lemma digit_char (r : N) :
  (r < 10)%N ->
  isDigit (ascii_of_N (48 + r)) = true
  /\ digitValue (ascii_of_N (48 + r)) = r.
Proof.
  intros Hr. unfold isDigit, digitValue.
  rewrite N_ascii_embedding by lia.
  split; [|lia].
  apply andb_true_iff. split; apply N.leb_le; lia.
Qed.

Lemma digitsFuel_allDigits (fuel : nat) (n : N) (acc : string) :
  allChars isDigit acc = true ->
  allChars isDigit (digitsFuel fuel n acc) = true.
Proof.
  revert n acc. induction fuel as [|fuel IH]; intros n acc Hacc; simpl;
    [exact Hacc|].
  assert (Hd : allChars isDigit (String (ascii_of_N (48 + n mod 10)) acc) = true).
  { simpl. rewrite Hacc.
    rewrite (proj1 (digit_char (n mod 10) (N.mod_lt n 10 ltac:(lia)))).
    reflexivity. }
  destruct (n / 10 =? 0)%N; [exact Hd | apply IH, Hd].
Qed.

(** Reading back the digits written in front of [acc]: [k] digits are
    read, and the value read so far is shifted by [k] places and
    increased by [n]. *)
Lemma scanDigits_digitsFuel (fuel : nat) (n : N) (acc : string) :
  (n < 2 ^ N.of_nat fuel)%N -> (0 < fuel)%nat ->
  exists k, (0 < k)%nat /\
    forall a cnt,
      scanDigits (digitsFuel fuel n acc) a cnt
      = scanDigits acc (a * 10 ^ N.of_nat k + n)%N (cnt + k)%nat.
Proof.
  revert n acc. induction fuel as [|fuel IH]; intros n acc Hn Hf; [lia|].
  simpl digitsFuel.
  destruct (digit_char (n mod 10) (N.mod_lt n 10 ltac:(lia))) as [Hd Hv].
  pose proof (N.div_mod n 10 ltac:(lia)) as Hdm.
  destruct (n / 10 =? 0)%N eqn:E.
  - apply N.eqb_eq in E. exists 1%nat. split; [lia|].
    intros a cnt. simpl scanDigits. rewrite Hd, Hv.
    change (10 ^ N.of_nat 1)%N with 10%N.
    f_equal; lia.
  - apply N.eqb_neq in E.
    rewrite Nat2N.inj_succ, N.pow_succ_r' in Hn.
    destruct (IH (n / 10)%N (String (ascii_of_N (48 + n mod 10)) acc))
      as (k & Hk & Hscan).
    + apply N.Div0.div_lt_upper_bound. lia.
    + destruct fuel; [|lia].
      change (2 ^ N.of_nat 0)%N with 1%N in Hn.
      exfalso. apply E. apply N.div_small. lia.
    + exists (S k). split; [lia|].
      intros a cnt. rewrite Hscan. simpl scanDigits. rewrite Hd, Hv.
      rewrite Nat2N.inj_succ, N.pow_succ_r'.
      f_equal; lia.
Qed.

Lemma numeral_digits (n : N) : numeral (digits n) n.
Proof.
  unfold digits. split.
  - apply digitsFuel_allDigits. reflexivity.
  - destruct (scanDigits_digitsFuel (S (N.to_nat (N.size n))) n EmptyString)
      as (k & Hk & Hscan).
    + rewrite Nat2N.inj_succ, N2Nat.id, N.pow_succ_r'.
      pose proof (N.size_gt n). lia.
    + lia.
    + exists k. split; [exact Hk|]. intros cnt. rewrite Hscan. simpl.
      reflexivity.
Qed.

Lemma numeral_repeat_zero (j : nat) (s : string) (v : N) :
  numeral s v -> numeral (repeatChar j "0" s) v.
Proof.
  intros [Hd (k & Hk & Hscan)]. induction j as [|j [IHd (k' & Hk' & IH)]].
  - split; [exact Hd|]. exists k. auto.
  - split; [exact IHd|]. exists (S k'). split; [lia|].
    intros cnt.
    change (scanDigits (repeatChar j "0" s) 0%N (S cnt)
            = (v, (cnt + S k')%nat, EmptyString)).
    rewrite IH. f_equal. f_equal. lia.
Qed.

Lemma numeral_padStart (len : nat) (s : string) (v : N) :
  numeral s v -> numeral (padStart len "0" s) v.
Proof. apply numeral_repeat_zero. Qed.

Lemma numeral_head (s : string) (v : N) :
  numeral s v -> exists c s', s = String c s' /\ isDigit c = true.
Proof.
  intros [Hd (k & Hk & Hscan)]. destruct s as [|c s'].
  - specialize (Hscan 0%nat). simpl in Hscan. injection Hscan as _ Hk0. lia.
  - simpl in Hd. apply andb_true_iff in Hd as [Hc _]. eauto.
Qed.

Lemma parseInt_numeral (s : string) (v : N) :
  numeral s v -> parseInt s = ofZ (Z.of_N v).
Proof.
  intros Hn. unfold parseInt.
  rewrite (trimStart_clean s (digits_notSpace s (proj1 Hn))).
  destruct (numeral_head s v Hn) as (c & s' & -> & Hc).
  rewrite (proj1 (proj2 (proj2 (digit_class c Hc)))).
  destruct Hn as [_ (k & Hk & Hscan)]. rewrite Hscan.
  destruct k; [lia|]. reflexivity.
Qed.

Lemma parseFloat_numeral (s : string) (v : N) :
  numeral s v -> parseFloat s = ofZ (Z.of_N v).
Proof.
  intros Hn. unfold parseFloat.
  rewrite (trimStart_clean s (digits_notSpace s (proj1 Hn))).
  destruct (numeral_head s v Hn) as (c & s' & -> & Hc).
  rewrite (proj1 (proj2 (proj2 (digit_class c Hc)))).
  rewrite (proj2 (proj2 (proj2 (digit_class c Hc)))).
  destruct Hn as [_ (k & Hk & Hscan)]. rewrite Hscan.
  destruct k; [lia|]. simpl.
  unfold ofZ, scale10. simpl. rewrite Z.mul_1_r. reflexivity.
Qed.

Lemma toString_nonneg (z : Z) : 0 <= z -> toString z = digits (Z.to_N z).
Proof. destruct z; intros H; try reflexivity. lia. Qed.

Lemma numeral_toString (z : Z) : 0 <= z -> numeral (toString z) (Z.to_N z).
Proof. intros H. rewrite (toString_nonneg z H). apply numeral_digits. Qed.

End StringFacts.

(* ===================================================================== *)
(** * Formatting a duration and parsing it back *)
(* ===================================================================== *)

Module RoundTrip.
Import JS EstimateInput NumberFacts StringFacts.

Lemma colon_append (s : string) : ":" +:+ s = String ":" s.
Proof. reflexivity. Qed.

Lemma numeral_clean (s : string) (v : N) :
  numeral s v -> allChars notColon s = true /\ allChars notSpace s = true.
Proof.
  intros [Hd _]. split; [apply digits_notColon | apply digits_notSpace];
    exact Hd.
Qed.

Lemma nonEmpty_append_numeral (s t : string) (v : N) :
  numeral s v -> nonEmpty (s +:+ t) = true.
Proof.
  intros Hn. destruct (numeral_head s v Hn) as (c & s' & -> & _). reflexivity.
Qed.

Lemma guard_passes (a b : Z) :
  0 <= a -> 0 <= b ->
  isNaN (ofZ a) || isNaN (ofZ b) || ltZero (ofZ a) || ltZero (ofZ b) = false.
Proof.
  intros Ha Hb. rewrite !ltZero_ofZ. simpl.
  replace (a <? 0) with false by lia. replace (b <? 0) with false by lia.
  reflexivity.
Qed.

Lemma guard_passes3 (a b c : Z) :
  0 <= a -> 0 <= b -> 0 <= c ->
  isNaN (ofZ a) || isNaN (ofZ b) || isNaN (ofZ c)
  || ltZero (ofZ a) || ltZero (ofZ b) || ltZero (ofZ c) = false.
Proof.
  intros Ha Hb Hc. rewrite !ltZero_ofZ. simpl.
  replace (a <? 0) with false by lia. replace (b <? 0) with false by lia.
  replace (c <? 0) with false by lia. reflexivity.
Qed.

(** Parsing a text of the shape M:SS. *)
Lemma parse_two_parts (M SS : string) (m s : N) :
  numeral M m -> numeral SS s ->
  parseTimeToMs (M +:+ ":" +:+ SS)
  = Some (ofZ ((Z.of_N m * 60 + Z.of_N s) * 1000)).
Proof.
  intros HM HS. rewrite colon_append.
  destruct (numeral_clean _ _ HM) as [HMc HMs].
  destruct (numeral_clean _ _ HS) as [HSc HSs].
  unfold parseTimeToMs.
  rewrite trim_clean
    by (rewrite allChars_app; simpl; rewrite HMs, HSs; reflexivity).
  rewrite (nonEmpty_append_numeral _ _ _ HM). simpl negb. cbv iota.
  rewrite (split_first _ _ HMc), (split_single _ HSc).
  simpl map. rewrite (trim_clean _ HMs), (trim_clean _ HSs).
  rewrite (parseInt_numeral _ _ HM), (parseFloat_numeral _ _ HS).
  rewrite guard_passes by lia.
  rewrite ofZ_mul, ofZ_add, ofZ_mul. reflexivity.
Qed.

(** Parsing a text of the shape H:MM:SS. *)
Lemma parse_three_parts (H MM SS : string) (h m s : N) :
  numeral H h -> numeral MM m -> numeral SS s ->
  parseTimeToMs (H +:+ ":" +:+ MM +:+ ":" +:+ SS)
  = Some (ofZ ((Z.of_N h * 3600 + Z.of_N m * 60 + Z.of_N s) * 1000)).
Proof.
  intros HH HM HS. rewrite !colon_append.
  destruct (numeral_clean _ _ HH) as [HHc HHs].
  destruct (numeral_clean _ _ HM) as [HMc HMs].
  destruct (numeral_clean _ _ HS) as [HSc HSs].
  unfold parseTimeToMs.
  rewrite trim_clean
    by (rewrite allChars_app; simpl; rewrite allChars_app; simpl;
        rewrite HHs, HMs, HSs; reflexivity).
  rewrite (nonEmpty_append_numeral _ _ _ HH). simpl negb. cbv iota.
  rewrite (split_first _ _ HHc), (split_first _ _ HMc), (split_single _ HSc).
  simpl map.
  rewrite (trim_clean _ HHs), (trim_clean _ HMs), (trim_clean _ HSs).
  rewrite (parseInt_numeral _ _ HH), (parseInt_numeral _ _ HM),
    (parseFloat_numeral _ _ HS).
  rewrite guard_passes3 by lia.
  rewrite !ofZ_mul, !ofZ_add, ofZ_mul. reflexivity.
Qed.

(** What [parseTimeToMs] makes of a formatted duration: the duration
    rounded down to whole seconds. *)
Lemma parse_format (d : Z) :
  0 <= d ->
  parseTimeToMs (msToTimeString d) = Some (ofZ (d / 1000 * 1000)).
Proof.
  intros Hd. unfold msToTimeString. cbv zeta.
  set (ts := d / 1000).
  assert (Hts : 0 <= ts) by (apply Z.div_pos; lia).
  rewrite !Z.rem_mod_nonneg by lia.
  assert (Hh : 0 <= ts / 3600) by (apply Z.div_pos; lia).
  assert (Hm : 0 <= ts mod 3600 / 60)
    by (apply Z.div_pos; [apply Z.mod_pos_bound|]; lia).
  assert (Hs : 0 <= ts mod 60) by (apply Z.mod_pos_bound; lia).
  pose proof (numeral_toString _ Hh) as NH.
  pose proof (numeral_padStart 2 _ _ (numeral_toString _ Hm)) as NM.
  pose proof (numeral_padStart 2 _ _ (numeral_toString _ Hs)) as NS.
  pose proof (Z.div_mod ts 3600 ltac:(lia)) as E1.
  pose proof (Z.div_mod (ts mod 3600) 60 ltac:(lia)) as E2.
  assert (E3 : (ts mod 3600) mod 60 = ts mod 60).
  { apply Z.mod_mod_divide. exists 60. reflexivity. }
  destruct (0 <? ts / 3600) eqn:Ehours.
  - rewrite (parse_three_parts _ _ _ _ _ _ NH NM NS).
    rewrite !Z2N.id by assumption. do 2 f_equal. lia.
  - apply Z.ltb_ge in Ehours.
    assert (Hzero : ts / 3600 = 0) by lia.
    rewrite (parse_two_parts _ _ _ _ (numeral_toString _ Hm) NS).
    rewrite !Z2N.id by assumption. do 2 f_equal. lia.
Qed.

(** C8.  For every non-negative duration [d] in integer milliseconds (up
    to the largest safe integer), parsing the formatted text of [d] gives
    a duration [r] that is [d] rounded down to whole seconds, so within
    one second of [d]. *)
Theorem C8_parse_format_within_a_second (d : Z) :
  0 <= d <= MAX_SAFE_INTEGER ->
  exists r, parseTimeToMs (msToTimeString d) = Some (ofZ r)
            /\ r = d / 1000 * 1000
            /\ Z.abs (d - r) < 1000.
Proof.
  intros [Hd _]. exists (d / 1000 * 1000).
  split; [apply parse_format; exact Hd|]. split; [reflexivity|].
  pose proof (Z.div_mod d 1000 ltac:(lia)).
  pose proof (Z.mod_pos_bound d 1000 ltac:(lia)). lia.
Qed.

Lemma C8_parse_format_within_a_second_witness :
  exists r, parseTimeToMs (msToTimeString 3723999) = Some (ofZ r)
            /\ r = 3723999 / 1000 * 1000
            /\ Z.abs (3723999 - r) < 1000.
Proof.
  apply (C8_parse_format_within_a_second 3723999).
  unfold MAX_SAFE_INTEGER. lia.
Defined.

End RoundTrip.

(* ===================================================================== *)
(** * Properties of person creation and of the import *)
(* ===================================================================== *)

Module ImportFacts.
Import Storage ExcelBackup.

Lemma orElse_None_r (a : option string) :
  orElse a None = None <-> truthyStr a = false.
Proof.
  destruct a as [s|]; simpl; [|tauto].
  destruct (JS.nonEmpty s); split; congruence.
Qed.

Lemma orElse_Some (s : string) : s <> "" -> orElse (Some s) None = Some s.
Proof.
  intros H. simpl. apply ManagerFacts.nonEmpty_true in H. rewrite H.
  reflexivity.
Qed.

(** [createPerson] stores the person under the id that [addDoc] chose
    and returns a person whose id is the value of [crypto.randomUUID()]. *)
Lemma createPerson_ids (st : Store) (name : string) (createdBy : option string)
    (createdAtNow docId uuid : string) :
  person_id (snd (createPerson st name createdBy createdAtNow docId uuid)) = uuid
  /\ personsDocs (fst (createPerson st name createdBy createdAtNow docId uuid))
     = <[docId := {| pd_name := name; pd_createdAt := createdAtNow;
                     pd_createdBy := keepIfTruthy createdBy |}]> (personsDocs st)
  /\ resultsDocs (fst (createPerson st name createdBy createdAtNow docId uuid))
     = resultsDocs st.
Proof. repeat split. Qed.

(** C10.  When the random id differs from the document id chosen by the
    store and from the ids already in the [persons] collection,
    [createPerson] returns a person whose id is the random id while the
    document is stored under the store's id, so no person document has
    the returned id.  Consequently a result row without Person ID whose
    person name is not in the cache is imported with a [personId] under
    which the [persons] collection, to which the new person was just
    added, holds no document. *)
Theorem C10_created_person_id_is_not_stored (st : Store) (env : RowEnv) :
  uuid env <> docId env ->
  personsDocs st !! uuid env = None ->
  (forall name createdBy,
     let created := createPerson st name createdBy (createdAtNow env)
                      (docId env) (uuid env) in
     person_id (snd created) = uuid env
     /\ personsDocs (fst created) !! docId env
        = Some {| pd_name := name; pd_createdAt := createdAtNow env;
                  pd_createdBy := keepIfTruthy createdBy |}
     /\ personsDocs (fst created) !! person_id (snd created) = None)
  /\ (forall existingResultIds imported skipped row resultId rowName,
        row_resultId row = Some resultId -> resultId <> "" ->
        row_personName row = Some rowName -> rowName <> "" ->
        hasId existingResultIds resultId = false ->
        truthyStr (row_personId row) = false ->
        find (fun p => String.eqb (person_name p) rowName) (getPersons st)
          = None ->
        let after :=
          store (importResult existingResultIds
                   {| store := st; importedCount := imported;
                      skippedCount := skipped |} (row, env)) in
        exists data,
          resultsDocs after !! resultId = Some data
          /\ rd_personId data = uuid env
          /\ rd_personName data = rowName
          /\ personsDocs after !! docId env
             = Some {| pd_name := rowName; pd_createdAt := createdAtNow env;
                       pd_createdBy := None |}
          /\ personsDocs after !! rd_personId data = None).
Proof.
  intros Hne Hfresh. split.
  - intros name createdBy. cbv zeta. unfold createPerson. simpl.
    split; [reflexivity|]. split.
    + apply lookup_insert_eq.
    + rewrite lookup_insert_ne by congruence. exact Hfresh.
  - intros ids imported skipped row resultId rowName
      Hid Hidne Hname Hnamene Hnew Hnopid Hnotfound. cbv zeta.
    unfold importResult.
    rewrite Hid, Hname, (orElse_Some _ Hidne), (orElse_Some _ Hnamene), Hnew.
    rewrite (proj2 (orElse_None_r _) Hnopid).
    unfold findOrCreatePerson. cbn [store]. rewrite Hnotfound.
    unfold createPerson, saveResult. simpl.
    eexists. split; [apply lookup_insert_eq|]. simpl.
    split; [reflexivity|]. split; [reflexivity|]. split.
    + apply lookup_insert_eq.
    + rewrite lookup_insert_ne by congruence. exact Hfresh.
Qed.

Lemma C10_created_person_id_is_not_stored_witness :
  uuid importEnv <> docId importEnv
  /\ personsDocs emptyStore !! uuid importEnv = None
  /\ (exists data,
        resultsDocs (store (importResult []
                      {| store := emptyStore; importedCount := 0;
                         skippedCount := 0 |} (importRow, importEnv)))
          !! "res-1" = Some data
        /\ rd_personId data = uuid importEnv
        /\ rd_personName data = "Kari"
        /\ personsDocs (store (importResult []
                          {| store := emptyStore; importedCount := 0;
                             skippedCount := 0 |} (importRow, importEnv)))
             !! docId importEnv
           = Some {| pd_name := "Kari"; pd_createdAt := createdAtNow importEnv;
                     pd_createdBy := None |}
        /\ personsDocs (store (importResult []
                          {| store := emptyStore; importedCount := 0;
                             skippedCount := 0 |} (importRow, importEnv)))
             !! rd_personId data = None).
Proof.
  assert (Hne : uuid importEnv <> docId importEnv) by (simpl; discriminate).
  assert (Hfresh : personsDocs emptyStore !! uuid importEnv = None)
    by apply lookup_empty.
  split; [exact Hne|]. split; [exact Hfresh|].
  apply (proj2 (C10_created_person_id_is_not_stored emptyStore importEnv
                  Hne Hfresh) [] 0%nat 0%nat importRow "res-1" "Kari");
    try reflexivity; discriminate.
Defined.

End ImportFacts.

(* ===================================================================== *)
(** * Further properties of the race timer *)
(* ===================================================================== *)

Module RaceTimerMore.
Import JS RaceTimer RaceTimerView RaceTimerFacts NumberFacts.

Lemma handleSplit_inv (p : Props) (st st' : State) (c : Clock)
    (es : list Effect) :
  handleSplit p st c = Some (st', es) ->
  exists info,
    nth_error DISCIPLINES (st_currentDisciplineIndex st) = Some info
    /\ (st_currentDisciplineIndex st < 3)%nat
    /\ st' = {| st_splits :=
                  st_splits st
                  ++ [{| discipline := key info;
                         time := splitNow c - initialStartTime p
                                 - sumTimes (st_splits st);
                         timestamp := splitTimestamp c |}];
                st_currentDisciplineIndex := S (st_currentDisciplineIndex st);
                st_estimatedSplits := st_estimatedSplits st |}
    /\ es = OnUpdate (st_splits st') (st_currentDisciplineIndex st')
            :: (if (3 <=? S (st_currentDisciplineIndex st))%nat
                then handleComplete p (st_splits st') (completeNow c)
                       (completeTimestamp c)
                else []).
Proof.
  unfold handleSplit.
  destruct (nth_error DISCIPLINES (st_currentDisciplineIndex st)) as [info|] eqn:E;
    [|discriminate].
  intros [= <- <-]. exists info. split; [reflexivity|]. split.
  - change 3%nat with (length DISCIPLINES).
    apply nth_error_Some. rewrite E. discriminate.
  - rewrite Nat.add_1_r. split; reflexivity.
Qed.

Lemma onTrack_fresh (estimates : option EstimatedSplits) :
  onTrack (freshState estimates).
Proof. split; simpl; [lia | reflexivity]. Qed.

(** On a timer on track there are as many recorded splits as the index
    says. *)
Lemma onTrack_length (st : State) :
  onTrack st -> length (st_splits st) = st_currentDisciplineIndex st.
Proof.
  intros [Hle Hmap].
  rewrite <- (length_map discipline), Hmap, length_map, length_firstn.
  change (length DISCIPLINES) with 3%nat. apply Nat.min_l. exact Hle.
Qed.

Lemma handleSplit_keeps_track (p : Props) (st st' : State)
    (c : Clock) (es : list Effect) :
  onTrack st ->
  handleSplit p st c = Some (st', es) ->
  onTrack st'.
Proof.
  intros [Hle Hmap] H.
  apply handleSplit_inv in H as (info & Hinfo & Hlt & -> & _).
  unfold onTrack. cbn [st_splits st_currentDisciplineIndex].
  split; [lia|].
  rewrite map_app, Hmap. simpl.
  destruct (st_currentDisciplineIndex st) as [|[|[|i]]]; try lia;
    simpl in Hinfo; injection Hinfo as <-; reflexivity.
Qed.

(** The calls that leave [handleSplit] at the third split of a timer on
    track: the update, the saved result and the completion. *)
Lemma third_split_effects (p : Props) (st st' : State)
    (c : Clock) (es : list Effect) :
  onTrack st ->
  handleSplit p st c = Some (st', es) ->
  st_currentDisciplineIndex st = 2%nat ->
  exists r,
    es = [OnUpdate (st_splits st') (st_currentDisciplineIndex st');
          SaveResult r; OnRaceComplete]
    /\ result_splits r = st_splits st'
    /\ map discipline (result_splits r) = [treadmill; skiErg; rowing]
    /\ result_id r = raceId p
    /\ personId r = person_id (racer p)
    /\ personName r = person_name (racer p)
    /\ totalTime r = completeNow c - initialStartTime p
    /\ result_createdBy r
       = orElse (raceCreatedBy p) (callerIdentity (auth p)).
Proof.
  intros Hon H H2.
  destruct (handleSplit_keeps_track p st st' c es Hon H) as [_ Hmap'].
  apply handleSplit_inv in H as (info & Hinfo & Hlt & Hst & ->).
  assert (Hidx : st_currentDisciplineIndex st'
                 = S (st_currentDisciplineIndex st)) by (rewrite Hst; reflexivity).
  rewrite H2. simpl. unfold handleComplete.
  eexists. split; [reflexivity|]. simpl.
  rewrite Hmap', Hidx, H2. repeat split.
Qed.

(** X1.  A timer whose recorded splits are those of the first disciplines,
    in order, keeps this through every split it takes, and the number of
    recorded splits stays equal to the discipline index. *)
Theorem X1_splits_follow_the_disciplines (p : Props) (st st' : State)
    (c : Clock) (es : list Effect) :
  onTrack st ->
  handleSplit p st c = Some (st', es) ->
  onTrack st'
  /\ length (st_splits st') = st_currentDisciplineIndex st'
  /\ length (st_splits st) = st_currentDisciplineIndex st.
Proof.
  intros Hon H.
  pose proof (handleSplit_keeps_track p st st' c es Hon H) as Hon'.
  split; [exact Hon'|].
  split; apply onTrack_length; assumption.
Qed.

Lemma X1_splits_follow_the_disciplines_witness :
  onTrack completedState
  /\ length (st_splits completedState) = st_currentDisciplineIndex completedState
  /\ length (st_splits scenarioState) = st_currentDisciplineIndex scenarioState.
Proof.
  assert (Hon : onTrack scenarioState) by (split; simpl; [lia | reflexivity]).
  exact (X1_splits_follow_the_disciplines scenarioProps scenarioState
           completedState scenarioClock _ Hon eq_refl).
Defined.

(** X2.  For a timer on track, a split before the third one only reports
    the new splits and index; the third one also saves a result and then
    reports completion.  The result carries the race's id, the racer's id
    and name, one split for each discipline in order, the elapsed time at
    the second clock read, and as creator the race's creator or, when the
    race has none, the caller. *)
Theorem X2_third_split_saves_the_result (p : Props) (st st' : State)
    (c : Clock) (es : list Effect) :
  onTrack st ->
  handleSplit p st c = Some (st', es) ->
  ((st_currentDisciplineIndex st < 2)%nat ->
     es = [OnUpdate (st_splits st') (st_currentDisciplineIndex st')])
  /\ (st_currentDisciplineIndex st = 2%nat ->
      exists r,
        es = [OnUpdate (st_splits st') (st_currentDisciplineIndex st');
              SaveResult r; OnRaceComplete]
        /\ result_splits r = st_splits st'
        /\ map discipline (result_splits r) = [treadmill; skiErg; rowing]
        /\ result_id r = raceId p
        /\ personId r = person_id (racer p)
        /\ personName r = person_name (racer p)
        /\ totalTime r = completeNow c - initialStartTime p
        /\ result_createdBy r
           = orElse (raceCreatedBy p) (callerIdentity (auth p))).
Proof.
  intros Hon H. split.
  - intros H2.
    apply handleSplit_inv in H as (info & _ & _ & _ & ->).
    replace (3 <=? S (st_currentDisciplineIndex st))%nat with false
      by (symmetry; apply Nat.leb_gt; lia).
    reflexivity.
  - apply (third_split_effects p st st' c es Hon H).
Qed.

Lemma X2_third_split_saves_the_result_witness :
  exists r,
    [OnUpdate (st_splits completedState) 3;
     SaveResult
       {| result_id := "race-1"; personId := "p1"; personName := "P";
          result_splits := st_splits completedState; totalTime := 2500001;
          completedAt := "t4"; result_createdBy := Some "op@example.org" |};
     OnRaceComplete]
    = [OnUpdate (st_splits completedState)
         (st_currentDisciplineIndex completedState);
       SaveResult r; OnRaceComplete]
    /\ result_splits r = st_splits completedState
    /\ map discipline (result_splits r) = [treadmill; skiErg; rowing]
    /\ result_id r = raceId scenarioProps
    /\ personId r = person_id (racer scenarioProps)
    /\ personName r = person_name (racer scenarioProps)
    /\ totalTime r = completeNow scenarioClock - initialStartTime scenarioProps
    /\ result_createdBy r
       = orElse (raceCreatedBy scenarioProps) (callerIdentity (auth scenarioProps)).
Proof.
  assert (Hon : onTrack scenarioState) by (split; simpl; [lia | reflexivity]).
  exact (proj2 (X2_third_split_saves_the_result scenarioProps scenarioState
                  completedState scenarioClock _ Hon eq_refl) eq_refl).
Defined.

(** X3.  The first split of a race records the time from the start to its
    clock read, and every later split the time between the previous
    split's clock read and its own. *)
Theorem X3_split_time_is_time_since_previous_split (p : Props)
    (st st1 st2 : State) (c1 c2 : Clock) (es1 es2 : list Effect) :
  handleSplit p st c1 = Some (st1, es1) ->
  handleSplit p st1 c2 = Some (st2, es2) ->
  (exists s, st_splits st2 = st_splits st1 ++ [s]
             /\ time s = splitNow c2 - splitNow c1)
  /\ (st_splits st = [] ->
      exists s, st_splits st1 = [s]
                /\ time s = splitNow c1 - initialStartTime p).
Proof.
  intros H1 H2.
  pose proof (handleSplit_telescopes _ _ _ _ _ H1) as Htel.
  apply handleSplit_inv in H1 as (i1 & _ & _ & Hst1 & _).
  apply handleSplit_inv in H2 as (i2 & _ & _ & Hst2 & _).
  split.
  - eexists. rewrite Hst2. cbn [st_splits]. split; [reflexivity|].
    cbn [time]. rewrite sumTimes_totalOf, Htel. lia.
  - intros Hnil. eexists. rewrite Hst1, Hnil. cbn [st_splits].
    split; [reflexivity|]. cbn. lia.
Qed.

Lemma X3_split_time_is_time_since_previous_split_witness :
  (exists s, st_splits scenarioState = st_splits afterFirstSplit ++ [s]
             /\ time s = splitNow secondClock - splitNow firstClock)
  /\ (st_splits (freshState None) = [] ->
      exists s, st_splits afterFirstSplit = [s]
                /\ time s = splitNow firstClock - initialStartTime scenarioProps).
Proof.
  exact (X3_split_time_is_time_since_previous_split scenarioProps
           (freshState None) afterFirstSplit scenarioState firstClock secondClock
           [OnUpdate (st_splits afterFirstSplit) 1]
           [OnUpdate (st_splits scenarioState) 2] eq_refl eq_refl).
Defined.

(** On a timer on track no recorded split has the running discipline, so
    [find] returns the split that [handleSplit] appends. *)
Lemma find_new_split (st : State) (info : DisciplineInfo) (s : Split) :
  onTrack st ->
  nth_error DISCIPLINES (st_currentDisciplineIndex st) = Some info ->
  discipline s = key info ->
  find (isDiscipline (key info)) (st_splits st ++ [s]) = Some s.
Proof.
  intros [_ Hmap] Hinfo Hs.
  assert (Hlast : isDiscipline (key info) s = true)
    by (unfold isDiscipline; rewrite Hs; destruct (key info); reflexivity).
  destruct (st_currentDisciplineIndex st) as [|[|[|i]]];
    simpl in Hinfo, Hmap; try (destruct i; discriminate);
    injection Hinfo as <-; simpl in Hlast |- *.
  - destruct (st_splits st); [|discriminate]. simpl. rewrite Hlast. reflexivity.
  - destruct (st_splits st) as [|s0 [|]]; try discriminate.
    injection Hmap as H0. simpl. unfold isDiscipline at 1. rewrite H0. simpl.
    rewrite Hlast. reflexivity.
  - destruct (st_splits st) as [|s0 [|s1 [|]]]; try discriminate.
    injection Hmap as H0 H1. simpl. unfold isDiscipline at 1 2.
    rewrite H0, H1. simpl. rewrite Hlast. reflexivity.
Qed.

(** X4.  When a split is taken on a timer on track, the comparison shown
    for the recorded split afterwards is the one that the running
    discipline showed at the split's clock read. *)
Theorem X4_running_comparison_becomes_split_comparison (p : Props)
    (st st' : State) (c : Clock) (es : list Effect) :
  onTrack st ->
  handleSplit p st c = Some (st', es) ->
  exists info,
    nth_error DISCIPLINES (st_currentDisciplineIndex st) = Some info
    /\ getEstimateComparison st' (key info)
       = option_map fst
           (getNextSplitComparison st (splitNow c - initialStartTime p)).
Proof.
  intros Hon H.
  apply handleSplit_inv in H as (info & Hinfo & Hlt & -> & _).
  exists info. split; [exact Hinfo|].
  unfold getEstimateComparison, getNextSplitComparison.
  cbn [st_estimatedSplits st_splits].
  destruct (st_estimatedSplits st) as [est|]; [|reflexivity].
  change (length DISCIPLINES) with 3%nat.
  replace (3 <=? st_currentDisciplineIndex st)%nat with false
    by (symmetry; apply Nat.leb_gt; exact Hlt).
  rewrite Hinfo.
  destruct (estimateOf (key info) est) as [e|]; [|reflexivity].
  destruct (negb (truthy e)); [reflexivity|].
  rewrite (find_new_split st info
             {| discipline := key info;
                time := splitNow c - initialStartTime p - sumTimes (st_splits st);
                timestamp := splitTimestamp c |} Hon Hinfo eq_refl).
  reflexivity.
Qed.

Lemma X4_running_comparison_becomes_split_comparison_witness :
  exists info,
    nth_error DISCIPLINES (st_currentDisciplineIndex estimatedState) = Some info
    /\ getEstimateComparison estimatedStateAfter (key info)
       = option_map fst
           (getNextSplitComparison estimatedState
              (splitNow secondClock - initialStartTime scenarioProps)).
Proof.
  assert (Hon : onTrack estimatedState) by (split; simpl; [lia | reflexivity]).
  exact (X4_running_comparison_becomes_split_comparison scenarioProps
           estimatedState estimatedStateAfter secondClock
           [OnUpdate (st_splits estimatedStateAfter) 2] Hon eq_refl).
Defined.

(** X5.  The comparison shown for a recorded split with an estimate in
    whole milliseconds, both at most [Number.MAX_SAFE_INTEGER], tells on
    which side of the estimate the recorded time lies and by how much:
    [ahead] says that the time is below the estimate, and [diff] is the
    distance between the two, so that when [ahead], recorded time plus
    [diff] is the estimate, and otherwise estimate plus [diff] is the
    recorded time. *)
Theorem X5_comparison_measures_the_gap (st : State) (d : Discipline)
    (est : EstimatedSplits) (e : Z) (s : Split) (cmp : Comparison) :
  st_estimatedSplits st = Some est ->
  estimateOf d est = Some (ofZ e) ->
  find (isDiscipline d) (st_splits st) = Some s ->
  0 <= time s <= MAX_SAFE_INTEGER ->
  0 <= e <= MAX_SAFE_INTEGER ->
  getEstimateComparison st d = Some cmp ->
  exists gap,
    0 <= gap <= MAX_SAFE_INTEGER
    /\ diff cmp = ofZ gap
    /\ ahead cmp = (time s <? e)
    /\ (ahead cmp = true -> time s + gap = e)
    /\ (ahead cmp = false -> e + gap = time s).
Proof.
  intros Hest He Hs Ht Hb. unfold getEstimateComparison. rewrite Hest, He, Hs.
  destruct (negb (truthy (ofZ e))); [discriminate|].
  intros Hc.
  assert (cmp = comparisonOf (sub (ofZ (time s)) (ofZ e))) as ->
    by congruence.
  clear Hc. rewrite sub_ofZ. unfold comparisonOf. cbn [ahead diff].
  rewrite abs_ofZ, ltZero_ofZ.
  exists (Z.abs (time s - e)).
  split; [unfold MAX_SAFE_INTEGER in *; lia|].
  split; [reflexivity|].
  split; [destruct (Z.ltb_spec (time s - e) 0), (Z.ltb_spec (time s) e);
          try reflexivity; lia|].
  split; intros H; [apply Z.ltb_lt in H | apply Z.ltb_ge in H]; lia.
Qed.

Lemma X5_comparison_measures_the_gap_witness :
  exists cmp gap,
    getEstimateComparison estimatedStateAfter skiErg = Some cmp
    /\ 0 <= gap <= MAX_SAFE_INTEGER
    /\ diff cmp = ofZ gap
    /\ ahead cmp = (1100000 <? 1080000)
    /\ (ahead cmp = true -> 1100000 + gap = 1080000)
    /\ (ahead cmp = false -> 1080000 + gap = 1100000).
Proof.
  assert (Ht : 0 <= time (mkSplit skiErg 1100000 "t2") <= MAX_SAFE_INTEGER)
    by (unfold MAX_SAFE_INTEGER; simpl; lia).
  assert (Hb : 0 <= 1080000 <= MAX_SAFE_INTEGER)
    by (unfold MAX_SAFE_INTEGER; lia).
  destruct (getEstimateComparison estimatedStateAfter skiErg) as [cmp|] eqn:E.
  - destruct (X5_comparison_measures_the_gap estimatedStateAfter skiErg
                estimatesOfScenario 1080000 (mkSplit skiErg 1100000 "t2") cmp
                eq_refl eq_refl eq_refl Ht Hb E) as (gap & Hgap).
    exists cmp, gap. split; [reflexivity | exact Hgap].
  - exfalso. vm_compute in E. discriminate.
Defined.

End RaceTimerMore.

(* ===================================================================== *)
(** * Further properties of the active race manager *)
(* ===================================================================== *)

Module ManagerMore.
Import ActiveRacesManager ManagerFacts RaceTimerFacts RaceTimerMore.

Lemma onTrack_offered (a : Auth) (race : ActiveRace) :
  canModify a race = true -> (currentDisciplineIndex race < 3)%nat ->
  RaceTimer.splitOffered (propsFor a race) (stateFor race) = true.
Proof.
  intros Hc Hi. unfold RaceTimer.splitOffered, RaceTimer.isComplete.
  cbn [propsFor stateFor RaceTimer.canModify RaceTimer.st_currentDisciplineIndex].
  rewrite Hc. change (length RaceTimer.DISCIPLINES) with 3%nat.
  replace (3 <=? _)%nat with false by (symmetry; apply Nat.leb_gt; exact Hi).
  reflexivity.
Qed.

Lemma delete_mergeDoc (id : string) (f : ActiveRaceDoc -> ActiveRaceDoc)
    (docs : gmap string ActiveRaceDoc) :
  delete id (mergeDoc id f docs) = delete id docs.
Proof.
  apply map_eq. intros k. unfold mergeDoc.
  destruct (decide (id = k)) as [->|Hne].
  - rewrite !lookup_delete_eq. reflexivity.
  - rewrite !lookup_delete_ne by exact Hne.
    apply lookup_partial_alter_ne. exact Hne.
Qed.

(** X6.  When someone who may modify a displayed race on track takes its
    third split, the result is written to the results collection under
    the race's id, with one split for each discipline and the elapsed
    time as total, and the race document is deleted; the persons
    collection and the other race documents stay as they are. *)
Theorem X6_completion_moves_the_race_to_the_results (a : Auth)
    (activeRaces : list ActiveRace) (w : World) (race : ActiveRace)
    (c : RaceTimer.Clock) :
  In race activeRaces -> NoDup (map race_id activeRaces) ->
  canModify a race = true ->
  onTrack (stateFor race) ->
  currentDisciplineIndex race = 2%nat ->
  activeRaceDocs (takeSplit a activeRaces w race c)
  = delete (race_id race) (activeRaceDocs w)
  /\ Storage.personsDocs (storage (takeSplit a activeRaces w race c))
     = Storage.personsDocs (storage w)
  /\ exists data,
       Storage.resultsDocs (storage (takeSplit a activeRaces w race c))
       = <[race_id race := data]> (Storage.resultsDocs (storage w))
       /\ map discipline (Storage.rd_splits data) = [treadmill; skiErg; rowing]
       /\ Storage.rd_totalTime data = RaceTimer.completeNow c - startTime race
       /\ Storage.rd_personId data = person_id (person race)
       /\ Storage.rd_personName data = person_name (person race).
Proof.
  intros Hin Hnd Hcan Hon Hidx.
  unfold takeSplit, RaceTimer.takeSplit.
  rewrite (onTrack_offered a race Hcan) by lia.
  destruct (RaceTimer.handleSplit (propsFor a race) (stateFor race) c)
    as [[st' es]|] eqn:H.
  2:{ destruct (DISCIPLINES_lookup (currentDisciplineIndex race))
        as [info Hinfo]; [lia|].
      unfold RaceTimer.handleSplit, stateFor in H.
      cbn [RaceTimer.st_currentDisciplineIndex] in H.
      rewrite Hinfo in H. discriminate. }
  destruct (third_split_effects _ _ _ _ _ Hon H Hidx) as (r & -> & _ & Hmap & Hid & Hpid & Hname & Htot & _).
  cbn [snd performAll fold_left perform].
  unfold handleRaceComplete, removeRace. cbn [storage].
  rewrite (find_displayed _ _ Hin Hnd), (canModify_not_denied _ _ Hcan).
  cbn [activeRaceDocs storage Storage.saveResult Storage.personsDocs
         Storage.resultsDocs].
  split; [apply delete_mergeDoc|]. split; [reflexivity|].
  eexists. rewrite Hid. split; [reflexivity|].
  cbn [Storage.rd_splits Storage.rd_totalTime Storage.rd_personId
         Storage.rd_personName].
  rewrite Hmap, Htot, Hpid, Hname. repeat split.
Qed.

Lemma X6_completion_moves_the_race_to_the_results_witness :
  activeRaceDocs (takeSplit alice [alicesRace] alicesWorld alicesRace scenarioClock)
  = delete "race-9" (activeRaceDocs alicesWorld)
  /\ Storage.personsDocs
       (storage (takeSplit alice [alicesRace] alicesWorld alicesRace scenarioClock))
     = Storage.personsDocs (storage alicesWorld)
  /\ exists data,
       Storage.resultsDocs
         (storage (takeSplit alice [alicesRace] alicesWorld alicesRace scenarioClock))
       = <["race-9" := data]> (Storage.resultsDocs (storage alicesWorld))
       /\ map discipline (Storage.rd_splits data) = [treadmill; skiErg; rowing]
       /\ Storage.rd_totalTime data = 2500001 - 0
       /\ Storage.rd_personId data = "p1"
       /\ Storage.rd_personName data = "P".
Proof.
  assert (Hin : In alicesRace [alicesRace]) by (left; reflexivity).
  assert (Hnd : NoDup (map race_id [alicesRace])) by apply NoDup_singleton.
  assert (Hon : onTrack (stateFor alicesRace))
    by (split; simpl; [lia | reflexivity]).
  exact (X6_completion_moves_the_race_to_the_results alice [alicesRace]
           alicesWorld alicesRace scenarioClock Hin Hnd eq_refl Hon eq_refl).
Defined.

(** X7.  A split before the third one, taken by someone who may modify
    the race, writes to the race's document only: its splits become the
    displayed splits followed by the new one, whose time is the clock
    read less the start time and the displayed split times, its index the
    displayed index plus one, and its other fields stay.  The result
    storage and the other race documents are untouched. *)
Theorem X7_split_updates_only_the_race_document (a : Auth)
    (activeRaces : list ActiveRace) (w : World) (race : ActiveRace)
    (c : RaceTimer.Clock) :
  canModify a race = true ->
  (currentDisciplineIndex race < 2)%nat ->
  storage (takeSplit a activeRaces w race c) = storage w
  /\ (forall k, k <> race_id race ->
        activeRaceDocs (takeSplit a activeRaces w race c) !! k
        = activeRaceDocs w !! k)
  /\ exists s d,
       activeRaceDocs (takeSplit a activeRaces w race c) !! race_id race = Some d
       /\ doc_splits d = Some (splits race ++ [s])
       /\ time s = RaceTimer.splitNow c - startTime race - totalOf (splits race)
       /\ nth_error (map RaceTimer.key RaceTimer.DISCIPLINES)
            (currentDisciplineIndex race) = Some (discipline s)
       /\ doc_currentDisciplineIndex d = Some (S (currentDisciplineIndex race))
       /\ (forall d0, d0 = default emptyDoc (activeRaceDocs w !! race_id race) ->
             doc_person d = doc_person d0
             /\ doc_startTime d = doc_startTime d0
             /\ doc_estimatedSplits d = doc_estimatedSplits d0
             /\ doc_createdBy d = doc_createdBy d0).
Proof.
  intros Hcan Hidx.
  unfold takeSplit, RaceTimer.takeSplit.
  rewrite (onTrack_offered a race Hcan) by lia.
  destruct (RaceTimer.handleSplit (propsFor a race) (stateFor race) c)
    as [[st' es]|] eqn:H.
  2:{ destruct (DISCIPLINES_lookup (currentDisciplineIndex race))
        as [info Hinfo]; [lia|].
      unfold RaceTimer.handleSplit, stateFor in H.
      cbn [RaceTimer.st_currentDisciplineIndex] in H.
      rewrite Hinfo in H. discriminate. }
  apply handleSplit_inv in H as (info & Hinfo & _ & -> & ->).
  cbn [stateFor RaceTimer.st_currentDisciplineIndex RaceTimer.st_splits] in *.
  replace (3 <=? S (currentDisciplineIndex race))%nat with false
    by (symmetry; apply Nat.leb_gt; lia).
  cbn [snd performAll fold_left perform storage activeRaceDocs].
  split; [reflexivity|]. split.
  - intros k Hk. unfold mergeDoc. apply lookup_partial_alter_ne. congruence.
  - eexists. eexists. split.
    { unfold mergeDoc. rewrite lookup_partial_alter_eq. reflexivity. }
    cbn [doc_splits doc_currentDisciplineIndex doc_person doc_startTime
           doc_estimatedSplits doc_createdBy propsFor RaceTimer.initialStartTime
           time discipline].
    split; [reflexivity|]. split; [rewrite sumTimes_totalOf; reflexivity|].
    split; [rewrite nth_error_map, Hinfo; reflexivity|].
    split; [reflexivity|].
    intros d0 ->. repeat split.
Qed.

Lemma X7_split_updates_only_the_race_document_witness :
  storage (takeSplit alice [alicesEarlyRace] alicesWorld alicesEarlyRace secondClock)
  = storage alicesWorld
  /\ exists s d,
       activeRaceDocs
         (takeSplit alice [alicesEarlyRace] alicesWorld alicesEarlyRace secondClock)
       !! "race-9" = Some d
       /\ doc_splits d = Some (splits alicesEarlyRace ++ [s])
       /\ time s = 2000000 - 0 - totalOf (splits alicesEarlyRace)
       /\ doc_currentDisciplineIndex d = Some 2%nat
       /\ doc_createdBy d = Some "alice@example.org".
Proof.
  assert (Hidx : (currentDisciplineIndex alicesEarlyRace < 2)%nat)
    by (simpl; lia).
  destruct (X7_split_updates_only_the_race_document alice [alicesEarlyRace]
              alicesWorld alicesEarlyRace secondClock eq_refl Hidx)
    as (Hst & _ & s & d & Hd & Hs & Ht & _ & Hi & Hrest).
  split; [exact Hst|].
  exists s, d. split; [exact Hd|]. split; [exact Hs|]. split; [exact Ht|].
  split; [exact Hi|].
  exact (proj2 (proj2 (proj2 (Hrest _ eq_refl)))).
Defined.

Lemma no_race_of (p : Person) (currentRaces : list ActiveRace) :
  ~ (exists r, In r currentRaces /\ person_id (person r) = person_id p) ->
  existsb (racesOf p) currentRaces = false.
Proof.
  intros Hno. destruct (existsb (racesOf p) currentRaces) eqn:E; [|reflexivity].
  exfalso. apply Hno. apply List.existsb_exists in E as (r & Hin & Hr).
  exists r. split; [exact Hin | apply String.eqb_eq; exact Hr].
Qed.

(** X8.  The duplicate check of [startRace] reads the cached list of
    races, not the collection: called twice for one person before the
    list has caught up, it starts two races, each with its own document. *)
Theorem X8_duplicate_check_reads_the_cached_list (a : Auth)
    (currentRaces : list ActiveRace) (w : World) (p : Person)
    (e1 e2 : option EstimatedSplits) (uuid1 uuid2 : string) (now1 now2 : Z) :
  ~ (exists r, In r currentRaces /\ person_id (person r) = person_id p) ->
  uuid1 <> uuid2 ->
  exists w1 w2 d1 d2,
    startRace a currentRaces w p e1 uuid1 now1 = (w1, Started)
    /\ startRace a currentRaces w1 p e2 uuid2 now2 = (w2, Started)
    /\ activeRaceDocs w2 !! uuid1 = Some d1
    /\ activeRaceDocs w2 !! uuid2 = Some d2
    /\ doc_person d1 = Some p /\ doc_person d2 = Some p
    /\ doc_startTime d1 = Some now1 /\ doc_startTime d2 = Some now2.
Proof.
  intros Hno Hne. apply no_race_of in Hno.
  unfold startRace. rewrite Hno.
  eexists. eexists. eexists. eexists.
  split; [reflexivity|]. split; [reflexivity|].
  cbn [activeRaceDocs race_id].
  rewrite lookup_insert_ne by congruence.
  rewrite !lookup_insert_eq.
  repeat split.
Qed.

Lemma X8_duplicate_check_reads_the_cached_list_witness :
  exists w1 w2 d1 d2,
    startRace alice [] someWorld scenarioPerson None "race-8" 2000 = (w1, Started)
    /\ startRace alice [] w1 scenarioPerson None "race-9" 2001 = (w2, Started)
    /\ activeRaceDocs w2 !! "race-8" = Some d1
    /\ activeRaceDocs w2 !! "race-9" = Some d2
    /\ doc_person d1 = Some scenarioPerson /\ doc_person d2 = Some scenarioPerson
    /\ doc_startTime d1 = Some 2000 /\ doc_startTime d2 = Some 2001.
Proof.
  assert (Hno : ~ (exists r, In r []
                     /\ person_id (person r) = person_id scenarioPerson))
    by (intros (r & [] & _)).
  assert (Hne : "race-8" <> "race-9") by discriminate.
  exact (X8_duplicate_check_reads_the_cached_list alice [] someWorld
           scenarioPerson None None "race-8" "race-9" 2000 2001 Hno Hne).
Defined.

Lemma callerIdentity_Some (a : Auth) (id : string) :
  callerIdentity a = Some id -> currentUserId a = Some id /\ id <> "".
Proof.
  unfold callerIdentity, orElse.
  destruct (currentUserId a) as [s|]; [|discriminate].
  destruct (JS.nonEmpty s) eqn:E; [|discriminate].
  intros [= ->]. split; [reflexivity | apply nonEmpty_true; exact E].
Qed.

Lemma started_doc (a : Auth) (currentRaces : list ActiveRace) (w : World)
    (p : Person) (estimates : option EstimatedSplits) (uuid : string) (now : Z)
    (doc : ActiveRaceDoc) :
  ~ (exists r, In r currentRaces /\ person_id (person r) = person_id p) ->
  activeRaceDocs (fst (startRace a currentRaces w p estimates uuid now)) !! uuid
  = Some doc ->
  doc_createdBy doc = callerIdentity a.
Proof.
  intros Hno. apply no_race_of in Hno. unfold startRace. rewrite Hno.
  cbn [fst activeRaceDocs race_id]. rewrite lookup_insert_eq.
  intros [= <-]. reflexivity.
Qed.

(** X9.  A race started by a logged-in user is recorded with the user's
    identity, so a race read from the document that [startRace] wrote can
    be modified by whoever started it, and by no non-admin with another
    identity. *)
Theorem X9_whoever_starts_a_race_may_modify_it (a b : Auth)
    (currentRaces : list ActiveRace) (w : World) (p : Person)
    (estimates : option EstimatedSplits) (uuid : string) (now : Z)
    (doc : ActiveRaceDoc) (race : ActiveRace) (id : string) :
  ~ (exists r, In r currentRaces /\ person_id (person r) = person_id p) ->
  callerIdentity a = Some id ->
  activeRaceDocs (fst (startRace a currentRaces w p estimates uuid now)) !! uuid
  = Some doc ->
  createdBy race = doc_createdBy doc ->
  canModify a race = true
  /\ (isAdmin b = false -> currentUserId b <> Some id ->
      canModify b race = false).
Proof.
  intros Hno Hid Hdoc Hrace.
  rewrite (started_doc _ _ _ _ _ _ _ _ Hno Hdoc), Hid in Hrace.
  apply callerIdentity_Some in Hid as [Hcur Hne].
  split.
  - apply canModify_mayModify. right. exists id. auto.
  - intros Hb Hother.
    destruct (canModify b race) eqn:E; [|reflexivity].
    apply canModify_mayModify in E as [E|(id' & Hc & _ & Hu)]; [congruence|].
    rewrite Hrace in Hc. injection Hc as <-. contradiction.
Qed.

Lemma X9_whoever_starts_a_race_may_modify_it_witness :
  canModify alice alicesRace = true
  /\ (isAdmin guest = false -> currentUserId guest <> Some "alice@example.org" ->
      canModify guest alicesRace = false).
Proof.
  assert (Hno : ~ (exists r, In r []
                     /\ person_id (person r) = person_id scenarioPerson))
    by (intros (r & [] & _)).
  exact (X9_whoever_starts_a_race_may_modify_it alice guest [] someWorld
           scenarioPerson None "race-9" 0
           {| doc_person := Some scenarioPerson; doc_startTime := Some 0;
              doc_splits := Some []; doc_currentDisciplineIndex := Some 0%nat;
              doc_estimatedSplits := None;
              doc_createdBy := Some "alice@example.org" |}
           alicesRace "alice@example.org" Hno eq_refl eq_refl eq_refl).
Defined.

(** X10.  Someone who is not logged in has no identity.  Unless an admin,
    they can modify no race, and Stop, Take Split and the estimate form
    change nothing for them; a race they start is recorded without a
    creator, and such a race can be modified by admins only. *)
Theorem X10_guest_races_belong_to_the_admins (a b : Auth)
    (currentRaces : list ActiveRace) (w : World) (p : Person)
    (estimates : option EstimatedSplits) (uuid : string) (now : Z)
    (doc : ActiveRaceDoc) (race : ActiveRace) :
  user a = None ->
  (isAdmin a = false ->
     forall (r : ActiveRace) (races : list ActiveRace) (c : RaceTimer.Clock)
            (f : EstimateInput.Form),
       canModify a r = false
       /\ stopRace a races w r = w
       /\ takeSplit a races w r c = w
       /\ updateEstimates a races w r f = w)
  /\ (~ (exists r, In r currentRaces /\ person_id (person r) = person_id p) ->
      activeRaceDocs (fst (startRace a currentRaces w p estimates uuid now)) !! uuid
      = Some doc ->
      createdBy race = doc_createdBy doc ->
      createdBy race = None /\ canModify b race = isAdmin b).
Proof.
  intros Hguest.
  assert (Hcur : currentUserId a = None)
    by (unfold currentUserId; rewrite Hguest; reflexivity).
  split.
  - intros Hadm r races c f.
    assert (Hcan : canModify a r = false).
    { unfold canModify. rewrite Hadm, Hcur.
      destruct (createdBy r); simpl; [apply andb_false_r | reflexivity]. }
    split; [exact Hcan|]. apply denied_changes_nothing. exact Hcan.
  - intros Hno Hdoc Hrace.
    rewrite (started_doc _ _ _ _ _ _ _ _ Hno Hdoc) in Hrace.
    unfold callerIdentity in Hrace. rewrite Hcur in Hrace. simpl in Hrace.
    split; [exact Hrace|].
    unfold canModify. rewrite Hrace. simpl. apply orb_false_r.
Qed.

Lemma X10_guest_races_belong_to_the_admins_witness :
  canModify guest alicesRace = false
  /\ stopRace guest [alicesRace] alicesWorld alicesRace = alicesWorld
  /\ takeSplit guest [alicesRace] alicesWorld alicesRace scenarioClock = alicesWorld
  /\ updateEstimates guest [alicesRace] alicesWorld alicesRace fullForm = alicesWorld.
Proof.
  exact (proj1 (X10_guest_races_belong_to_the_admins guest alice [] alicesWorld
                  scenarioPerson None "race-8" 0 emptyDoc bobsRace eq_refl)
           eq_refl alicesRace [alicesRace] scenarioClock fullForm).
Defined.

Lemma spreadField_idem {A : Type} (x y : option A) :
  spreadField x (spreadField x y) = spreadField x y.
Proof. destruct y; [reflexivity|]. destruct x; reflexivity. Qed.

Lemma spread_mergeEstimates (o : option EstimatedSplits) (new : EstimatedSplits) :
  spread (spreadOpt o) (RaceTimer.mergeEstimates o new)
  = RaceTimer.mergeEstimates o new.
Proof.
  unfold RaceTimer.mergeEstimates.
  destruct (_ && _); unfold spread; simpl; rewrite !spreadField_idem;
    reflexivity.
Qed.

(** X11.  When the race document holds the estimates that the timer
    displays, a confirmed estimate form, submitted by someone who may
    modify the race, stores exactly the merge of the form's estimates
    into the displayed ones; the document's other fields, the other
    documents and the result storage stay as they are. *)
Theorem X11_estimate_edit_stores_the_merged_estimates (a : Auth)
    (activeRaces : list ActiveRace) (w : World) (race : ActiveRace)
    (f : EstimateInput.Form) (new : EstimatedSplits) (d0 : ActiveRaceDoc) :
  canModify a race = true ->
  EstimateInput.handleConfirm (estimatedSplits race) (splits race) f = inr new ->
  activeRaceDocs w !! race_id race = Some d0 ->
  doc_estimatedSplits d0 = estimatedSplits race ->
  storage (updateEstimates a activeRaces w race f) = storage w
  /\ (forall k, k <> race_id race ->
        activeRaceDocs (updateEstimates a activeRaces w race f) !! k
        = activeRaceDocs w !! k)
  /\ activeRaceDocs (updateEstimates a activeRaces w race f) !! race_id race
     = Some {| doc_person := doc_person d0;
               doc_startTime := doc_startTime d0;
               doc_splits := doc_splits d0;
               doc_currentDisciplineIndex := doc_currentDisciplineIndex d0;
               doc_estimatedSplits :=
                 Some (RaceTimer.mergeEstimates (estimatedSplits race) new);
               doc_createdBy := doc_createdBy d0 |}.
Proof.
  intros Hcan Hconfirm Hdoc Hsync.
  unfold updateEstimates, RaceTimer.editEstimates, RaceTimer.estimateEditOffered.
  cbn [propsFor stateFor RaceTimer.canModify RaceTimer.st_estimatedSplits
         RaceTimer.st_splits].
  rewrite Hcan.
  replace (match estimatedSplits race with Some _ => true | None => true end)
    with true by (destruct (estimatedSplits race); reflexivity).
  rewrite Hconfirm.
  unfold RaceTimer.handleEstimateConfirm.
  cbn [snd performAll fold_left perform storage activeRaceDocs
         RaceTimer.st_estimatedSplits].
  split; [reflexivity|]. split.
  - intros k Hk. unfold mergeDoc. apply lookup_partial_alter_ne. congruence.
  - unfold mergeDoc. rewrite lookup_partial_alter_eq, Hdoc. simpl.
    rewrite Hsync, spread_mergeEstimates. reflexivity.
Qed.

Lemma X11_estimate_edit_stores_the_merged_estimates_witness :
  exists new,
    EstimateInput.handleConfirm (estimatedSplits alicesRace) (splits alicesRace)
      partialForm = inr new
    /\ activeRaceDocs (updateEstimates alice [alicesRace] alicesWorld alicesRace
                         partialForm) !! "race-9"
       = Some {| doc_person := Some scenarioPerson;
                 doc_startTime := Some 0;
                 doc_splits := doc_splits alicesDoc;
                 doc_currentDisciplineIndex := Some 2%nat;
                 doc_estimatedSplits :=
                   Some (RaceTimer.mergeEstimates (Some estimatesOfScenario) new);
                 doc_createdBy := Some "alice@example.org" |}.
Proof.
  destruct (EstimateInput.handleConfirm (estimatedSplits alicesRace)
              (splits alicesRace) partialForm) as [errors|new] eqn:E.
  { vm_compute in E. discriminate. }
  exists new. split; [reflexivity|].
  exact (proj2 (proj2 (X11_estimate_edit_stores_the_merged_estimates alice
                         [alicesRace] alicesWorld alicesRace partialForm new
                         alicesDoc eq_refl E eq_refl eq_refl))).
Defined.

End ManagerMore.

(* ===================================================================== *)
(** * Further properties of the estimate form *)
(* ===================================================================== *)

Module EstimateMore.
Import JS EstimateInput EstimateFacts.

Lemma mergeEstimates_field (stored : option EstimatedSplits)
    (new : EstimatedSplits) (d : Discipline) :
  estimateOf d (RaceTimer.mergeEstimates stored new)
  = spreadField (estimateOf d (spreadOpt stored)) (estimateOf d new).
Proof.
  unfold RaceTimer.mergeEstimates.
  destruct (_ && _); destruct d; reflexivity.
Qed.

Lemma untouched_action (completed : list Split) (f : Form) (d : Discipline)
    (existing : option number) :
  ~ touched completed f d ->
  fieldAction (isCompleted completed d) (inputOf d f) existing
  = if negb (isCompleted completed d) && truthyOpt existing then Delete else Keep.
Proof.
  intros Hno. unfold fieldAction.
  destruct (isCompleted completed d) eqn:Ec; [reflexivity|]. simpl.
  destruct (nonEmpty (trim (inputOf d f))) eqn:En; [|reflexivity].
  exfalso. apply Hno. split; [exact Ec|].
  apply ManagerFacts.nonEmpty_true. exact En.
Qed.

(** X12.  The estimate form cannot remove an estimate from a race.  For a
    discipline whose field is blank or whose split is recorded, a
    confirmed form leaves the timer's estimate as it was: when the field
    was cleared the form's result lacks the estimate, and the merge into
    the estimates the form was opened with puts it back. *)
Theorem X12_cleared_estimate_comes_back (stored : option EstimatedSplits)
    (completed : list Split) (f : Form) (new : EstimatedSplits)
    (d : Discipline) :
  handleConfirm stored completed f = inr new ->
  ~ touched completed f d ->
  estimateOf d (RaceTimer.mergeEstimates stored new)
  = estimateOf d (spreadOpt stored)
  /\ (isCompleted completed d = false ->
      truthyOpt (estimateOf d (spreadOpt stored)) = true ->
      estimateOf d new = None).
Proof.
  intros H Hno.
  apply handleConfirm_accepts in H as (_ & Hfield & _).
  specialize (Hfield d). unfold actionFor in Hfield.
  rewrite (untouched_action _ _ _ _ Hno) in Hfield.
  rewrite mergeEstimates_field, Hfield.
  split.
  - destruct (negb (isCompleted completed d)
              && truthyOpt (estimateOf d (spreadOpt stored))); simpl;
      [reflexivity|].
    destruct (estimateOf d (spreadOpt stored)); reflexivity.
  - intros -> ->. reflexivity.
Qed.

Lemma X12_cleared_estimate_comes_back_witness :
  exists new,
    handleConfirm (Some fullEstimates) [] partialForm = inr new
    /\ estimateOf treadmill (RaceTimer.mergeEstimates (Some fullEstimates) new)
       = estimateOf treadmill fullEstimates
    /\ estimateOf treadmill new = None.
Proof.
  destruct (handleConfirm (Some fullEstimates) [] partialForm)
    as [errors|new] eqn:E.
  { vm_compute in E. discriminate. }
  assert (Hno : ~ touched [] partialForm treadmill).
  { intros [_ Hne]. apply Hne. reflexivity. }
  exists new. split; [reflexivity|].
  destruct (X12_cleared_estimate_comes_back (Some fullEstimates) []
              partialForm new treadmill E Hno) as [Hkeep Hgone].
  split; [exact Hkeep|].
  apply Hgone; [reflexivity|]. vm_compute. reflexivity.
Defined.

End EstimateMore.

(* ===================================================================== *)
(** * Further properties of the sorted lists *)
(* ===================================================================== *)

Module SortMore.
Import JS Leaderboard StorageReads NumberFacts LeaderboardFacts.

(** ** A stable sort by a comparator that follows an order *)
Section Ordered.
Context {A : Type} (cmp : A -> A -> number) (le : A -> A -> Prop).
Hypothesis le_trans : forall x y z, le x y -> le y z -> le x z.
Hypothesis cmp_le : forall x y, sign (cmp x y) <> Gt -> le x y.
Hypothesis cmp_gt : forall x y, sign (cmp x y) = Gt -> le y x.

Lemma Forall_insertSorted_le (x y : A) (l : list A) :
  le y x -> Forall (le y) l -> Forall (le y) (insertSorted cmp x l).
Proof.
  intros Hyx H. induction H as [|z l Hz Hl IH]; simpl.
  - constructor; [exact Hyx | constructor].
  - destruct (sign (cmp x z)); repeat constructor; assumption.
Qed.

Lemma insertSorted_ordered (x : A) (l : list A) :
  StronglySorted le l -> StronglySorted le (insertSorted cmp x l).
Proof.
  induction 1 as [|y l Hs IH Hy]; simpl.
  - constructor; constructor.
  - assert (Hfront : sign (cmp x y) <> Gt -> StronglySorted le (x :: y :: l)).
    { intros Hc. constructor; [constructor; assumption|].
      constructor; [apply cmp_le; exact Hc|].
      eapply List.Forall_impl; [|exact Hy].
      intros z Hz. apply (le_trans x y z); [apply cmp_le; exact Hc | exact Hz]. }
    destruct (sign (cmp x y)) eqn:Hc; try (apply Hfront; discriminate).
    constructor; [exact IH|].
    apply Forall_insertSorted_le; [apply cmp_gt; exact Hc | exact Hy].
Qed.

Lemma sort_ordered (l : list A) : StronglySorted le (sort cmp l).
Proof.
  induction l as [|x l IH]; simpl; [constructor|].
  apply insertSorted_ordered. exact IH.
Qed.
End Ordered.

(** ** Elements that the comparator does not tell apart keep their order *)
Section Stable.
Context {A : Type} (cmp : A -> A -> number) (same : A -> bool).
Hypothesis same_not_gt :
  forall x y, same x = true -> same y = true -> sign (cmp x y) <> Gt.

Lemma insertSorted_stable (x : A) (l : list A) :
  List.filter same (insertSorted cmp x l) = List.filter same (x :: l).
Proof.
  induction l as [|y l IH]; [reflexivity|].
  cbn [insertSorted].
  destruct (sign (cmp x y)) eqn:Hc; try reflexivity.
  cbn [List.filter] in *. rewrite IH.
  destruct (same x) eqn:Ex, (same y) eqn:Ey; try reflexivity.
  exfalso. exact (same_not_gt x y Ex Ey Hc).
Qed.

Lemma sort_stable (l : list A) :
  List.filter same (sort cmp l) = List.filter same l.
Proof.
  induction l as [|x l IH]; [reflexivity|].
  cbn [sort]. rewrite insertSorted_stable. cbn [List.filter].
  rewrite IH. reflexivity.
Qed.
End Stable.

(** X13.  [getAllResults] returns the cached results rearranged in
    non-decreasing order of total time; results with the same total time
    keep the order they have in the cache. *)
Theorem X13_getAllResults_orders_by_total_time (st : Storage.Store) :
  StronglySorted (fun a b => totalTime a <= totalTime b) (getAllResults st)
  /\ Permutation (Storage.resultsCache st) (getAllResults st)
  /\ forall t,
       List.filter (fun r => totalTime r =? t) (getAllResults st)
       = List.filter (fun r => totalTime r =? t) (Storage.resultsCache st).
Proof.
  unfold getAllResults. split; [|split].
  - apply sort_ordered.
    + intros x y z. lia.
    + intros x y. unfold byTotalTime. rewrite sign_sub_ofZ.
      intros H. apply Z.compare_le_iff. exact H.
    + intros x y. unfold byTotalTime. rewrite sign_sub_ofZ.
      intros H. apply Z.compare_gt_iff in H. lia.
  - apply sort_Permutation.
  - intros t. apply sort_stable.
    intros x y Hx Hy. unfold byTotalTime. rewrite sign_sub_ofZ.
    apply Z.eqb_eq in Hx, Hy. rewrite Hx, Hy, Z.compare_refl. discriminate.
Qed.

Lemma sortValue_rank (f : SortField) (r : RaceResult) :
  sortValue f r = match rank f r with Some z => ofZ z | None => PosInf end.
Proof.
  destruct f; cbn [sortValue rank]; try reflexivity;
    unfold splitValue, splitRank; cbn [splitTimeOf RaceResult_Timed];
    destruct (find _ (result_splits r)) as [s|]; try reflexivity;
    rewrite truthy_ofZ; destruct (time s =? 0); reflexivity.
Qed.

Lemma sign_sub_rank (a b : option Z) :
  let v o := match o with Some z => ofZ z | None => PosInf end in
  (sign (sub (v a) (v b)) <> Gt -> rankLe a b)
  /\ (sign (sub (v a) (v b)) = Gt -> rankLe b a)
  /\ (sign (sub (v b) (v a)) <> Gt -> rankLe b a)
  /\ (sign (sub (v b) (v a)) = Gt -> rankLe a b).
Proof.
  destruct a as [x|], b as [y|]; cbn zeta; cbn [rankLe];
    rewrite ?sign_sub_ofZ;
    repeat split; intros H; try exact I; try (exfalso; apply H; reflexivity);
    try discriminate;
    try (apply Z.compare_le_iff; exact H);
    try (apply Z.compare_gt_iff in H; lia).
Qed.

Lemma rankLe_trans (a b c : option Z) : rankLe a b -> rankLe b c -> rankLe a c.
Proof.
  destruct a, b, c; simpl; try tauto; lia.
Qed.

(** X14.  The leaderboard lists the results it is given, rearranged by
    the value of the sort field: non-decreasing in ascending direction,
    non-increasing in descending direction, a result without a non-zero
    split for the discipline counting as infinitely slow. *)
Theorem X14_sortedResults_follow_the_sort_field (allResults : list RaceResult)
    (f : SortField) :
  StronglySorted (fun a b => rankLe (rank f a) (rank f b))
    (sortedResults allResults f asc)
  /\ StronglySorted (fun a b => rankLe (rank f b) (rank f a))
       (sortedResults allResults f desc)
  /\ forall dir, Permutation allResults (sortedResults allResults f dir).
Proof.
  unfold sortedResults. split; [|split].
  - apply sort_ordered.
    + intros x y z. apply rankLe_trans.
    + intros x y. unfold compareResults. rewrite !sortValue_rank.
      apply (sign_sub_rank (rank f x) (rank f y)).
    + intros x y. unfold compareResults. rewrite !sortValue_rank.
      apply (sign_sub_rank (rank f x) (rank f y)).
  - apply sort_ordered.
    + intros x y z H1 H2. exact (rankLe_trans _ _ _ H2 H1).
    + intros x y. unfold compareResults. rewrite !sortValue_rank.
      apply (sign_sub_rank (rank f x) (rank f y)).
    + intros x y. unfold compareResults. rewrite !sortValue_rank.
      apply (sign_sub_rank (rank f x) (rank f y)).
  - intros dir. apply sort_Permutation.
Qed.

End SortMore.

(* ===================================================================== *)
(** * Properties of the provisional leaderboard entries *)
(* ===================================================================== *)

Module ProvisionalMore.
Import JS RaceTimerView LeaderboardView ActiveRacesManager NumberFacts.

Lemma add_zero_l (x : number) : add zero x = x.
Proof.
  destruct x as [| | |q]; try reflexivity.
  unfold zero, ofZ. cbn [add]. f_equal. apply Qcplus_0_l.
Qed.

Lemma add_zero_r (x : number) : add x zero = x.
Proof.
  destruct x as [| | |q]; try reflexivity.
  unfold zero, ofZ. cbn [add]. f_equal. apply Qcplus_0_r.
Qed.

Lemma orZero_truthy (v : number) : truthy v = true -> orZero (Some v) = v.
Proof. intros H. unfold orZero, orOpt. simpl. rewrite H. reflexivity. Qed.

Lemma orZero_falsy (o : option number) : truthyOpt o = false -> orZero o = zero.
Proof. intros H. unfold orZero, orOpt. rewrite H. reflexivity. Qed.

(** What one discipline adds to the shown splits and to the total. *)
Lemma shownFor_cases (d : Discipline) (race : ActiveRace) (now : Stamps) :
  (map shown_time (shownFor d race now) = [timeFor d race]
   /\ map shown_discipline (shownFor d race now) = [d]
   /\ (match find (isDiscipline d) (splits race) with
       | Some _ => true
       | None => truthyOpt (estimateIn d race)
       end = true))
  \/ (shownFor d race now = [] /\ timeFor d race = zero
      /\ (match find (isDiscipline d) (splits race) with
          | Some _ => true
          | None => truthyOpt (estimateIn d race)
          end = false)).
Proof.
  unfold shownFor, timeFor.
  destruct (find (isDiscipline d) (splits race)) as [s|] eqn:E.
  - left. cbn [map shown_time shown_discipline]. repeat split.
    apply find_some in E as [_ E]. unfold isDiscipline in E.
    destruct (discipline s), d; try discriminate; reflexivity.
  - destruct (estimateIn d race) as [e|]; cbn [truthyOpt].
    + destruct (truthy e) eqn:Et.
      * left. cbn [map shown_time shown_discipline].
        rewrite (orZero_truthy e Et). repeat split.
      * right. repeat split. apply orZero_falsy. exact Et.
    + right. repeat split.
Qed.

(** X15.  The total time of a provisional leaderboard entry is the sum of
    the times of the splits it shows.  The splits come in the order of
    the disciplines, one for each discipline that has a recorded split or
    a usable estimate, and a shown split is marked as estimated exactly
    when the race has no recorded split for its discipline. *)
Theorem X15_provisional_total_is_sum_of_shown_splits
    (toISOString : Z -> string) (race : ActiveRace) (now : Stamps) :
  er_totalTime (estimatedResult toISOString (race, now))
  = fold_left add
      (map shown_time (er_splits (estimatedResult toISOString (race, now)))) zero
  /\ map shown_discipline (er_splits (estimatedResult toISOString (race, now)))
     = List.filter
         (fun d => match find (isDiscipline d) (splits race) with
                   | Some _ => true
                   | None => truthyOpt (estimateIn d race)
                   end)
         [treadmill; skiErg; rowing]
  /\ forall s, In s (er_splits (estimatedResult toISOString (race, now))) ->
       (shown_isEstimated s = true
        <-> find (isDiscipline (shown_discipline s)) (splits race) = None).
Proof.
  cbn [estimatedResult er_totalTime er_splits].
  split; [|split].
  - rewrite !map_app.
    destruct (shownFor_cases treadmill race now) as [(Ht & _)|(Ht & Zt & _)];
    destruct (shownFor_cases skiErg race now) as [(Hs & _)|(Hs & Zs & _)];
    destruct (shownFor_cases rowing race now) as [(Hr & _)|(Hr & Zr & _)];
      rewrite Ht, Hs, Hr; cbn [map app fold_left];
      rewrite ?Zt, ?Zs, ?Zr, ?add_zero_l, ?add_zero_r; reflexivity.
  - rewrite !map_app. cbn [List.filter].
    destruct (shownFor_cases treadmill race now) as [(_ & Ht & Bt)|(Ht & _ & Bt)];
    destruct (shownFor_cases skiErg race now) as [(_ & Hs & Bs)|(Hs & _ & Bs)];
    destruct (shownFor_cases rowing race now) as [(_ & Hr & Br)|(Hr & _ & Br)];
      rewrite Ht, Hs, Hr, Bt, Bs, Br; reflexivity.
  - assert (Hone : forall d s, In s (shownFor d race now) ->
              (shown_isEstimated s = true
               <-> find (isDiscipline (shown_discipline s)) (splits race) = None)).
    { intros d s. unfold shownFor.
      destruct (find (isDiscipline d) (splits race)) as [r|] eqn:E.
      - intros [<-|[]]. cbn [shown_isEstimated shown_discipline].
        assert (Hd : discipline r = d).
        { apply find_some in E as [_ E]. unfold isDiscipline in E.
          destruct (discipline r), d; try discriminate; reflexivity. }
        rewrite Hd, E. split; discriminate.
      - destruct (estimateIn d race) as [e|]; [|intros []].
        destruct (truthy e); [|intros []].
        intros [<-|[]]. cbn [shown_isEstimated shown_discipline].
        rewrite E. split; reflexivity. }
    intros s Hin. apply in_app_or in Hin as [Hin|Hin]; [eauto|].
    apply in_app_or in Hin as [Hin|Hin]; eauto.
Qed.

(** X16.  For a race with estimates whose recorded splits all have a
    non-zero time, the total against which the timer compares the
    elapsed time is the total of the race's provisional leaderboard
    entry. *)
Theorem X16_timer_compares_with_the_provisional_total
    (toISOString : Z -> string) (race : ActiveRace) (now : Stamps)
    (est : EstimatedSplits) (currentTime : Z) :
  estimatedSplits race = Some est ->
  (forall s, In s (splits race) -> time s <> 0) ->
  getTotalEstimateComparison (stateFor race) currentTime
  = if isZero (er_totalTime (estimatedResult toISOString (race, now)))
    then None
    else Some (comparisonOf
                 (sub (ofZ currentTime)
                      (er_totalTime (estimatedResult toISOString (race, now))))).
Proof.
  intros Hest Hnz.
  assert (Hd : forall d,
             orZero (orOpt (recordedTime d (splits race)) (estimateOf d est))
             = timeFor d race).
  { intros d. unfold recordedTime, timeFor, estimateIn. rewrite Hest.
    destruct (find (isDiscipline d) (splits race)) as [s|] eqn:E.
    - apply find_some in E as [Hin _]. apply Hnz in Hin.
      assert (Ht : truthy (ofZ (time s)) = true).
      { rewrite truthy_ofZ. apply negb_true_iff, Z.eqb_neq. exact Hin. }
      unfold orOpt at 1. cbn [truthyOpt]. rewrite Ht.
      apply orZero_truthy. exact Ht.
    - reflexivity. }
  unfold getTotalEstimateComparison.
  cbn [stateFor RaceTimer.st_estimatedSplits RaceTimer.st_splits].
  rewrite Hest. cbv zeta.
  change (est_treadmill est) with (estimateOf treadmill est).
  change (est_skiErg est) with (estimateOf skiErg est).
  change (est_rowing est) with (estimateOf rowing est).
  rewrite !Hd. reflexivity.
Qed.

Lemma X16_timer_compares_with_the_provisional_total_witness :
  getTotalEstimateComparison (stateFor alicesRace) 2100000
  = if isZero (er_totalTime
                 (estimatedResult (fun _ => "1970-01-01T00:00:00.000Z")
                    (alicesRace, mkStamps "n1" "n2" "n3")))
    then None
    else Some (comparisonOf
                 (sub (ofZ 2100000)
                      (er_totalTime
                         (estimatedResult (fun _ => "1970-01-01T00:00:00.000Z")
                            (alicesRace, mkStamps "n1" "n2" "n3"))))).
Proof.
  assert (Hnz : forall s, In s (splits alicesRace) -> time s <> 0).
  { intros s [<-|[<-|[]]]; discriminate. }
  exact (X16_timer_compares_with_the_provisional_total
           (fun _ => "1970-01-01T00:00:00.000Z") alicesRace
           (mkStamps "n1" "n2" "n3") estimatesOfScenario 2100000 eq_refl Hnz).
Defined.

End ProvisionalMore.

(* ===================================================================== *)
(** * Further properties of the import *)
(* ===================================================================== *)

Module ImportMore.
Import Storage ExcelBackup ImportFacts.

Lemma fold_left_invariant {A B : Type} (f : A -> B -> A) (P : A -> Prop)
    (l : list B) (a : A) :
  P a -> (forall a b, P a -> In b l -> P (f a b)) -> P (fold_left f l a).
Proof.
  revert a. induction l as [|b l IH]; intros a Ha Hstep; simpl; [exact Ha|].
  apply IH.
  - apply Hstep; [exact Ha | left; reflexivity].
  - intros a' b' Ha' Hin. apply Hstep; [exact Ha' | right; exact Hin].
Qed.

Lemma hasId_In (ids : list string) (id : string) :
  hasId ids id = true <-> In id ids.
Proof.
  unfold hasId. rewrite List.existsb_exists. split.
  - intros (x & Hin & E). apply String.eqb_eq in E. subst. exact Hin.
  - intros Hin. exists id. split; [exact Hin | apply String.eqb_refl].
Qed.

(** ** The Persons sheet *)

Lemma importPerson_cases (ids : list string) (st : Store)
    (rn : PersonRow * string) :
  (isNewPerson ids rn = false /\ importPerson ids st rn = st)
  \/ (exists id name,
        prow_id (fst rn) = Some id /\ prow_name (fst rn) = Some name
        /\ hasId ids id = false
        /\ importPerson ids st rn
           = savePerson st
               {| person_id := id; person_name := name;
                  person_createdAt := orDefault (prow_createdAt (fst rn)) (snd rn);
                  person_createdBy := None |}).
Proof.
  destruct rn as [row now]. unfold importPerson, isNewPerson. cbn [fst snd].
  destruct (prow_id row) as [id|]; [|left; split; reflexivity].
  destruct (prow_name row) as [name|]; [|left; split; reflexivity].
  destruct (JS.nonEmpty id && JS.nonEmpty name && negb (hasId ids id)) eqn:E;
    [|left; split; reflexivity].
  right. exists id, name. repeat split.
  apply andb_true_iff in E as [_ E]. apply negb_true_iff. exact E.
Qed.

Lemma importPersons_keep (ids : list string) (rows : list (PersonRow * string))
    (st : Store) :
  let st' := fold_left (importPerson ids) rows st in
  resultsDocs st' = resultsDocs st
  /\ personsCache st' = personsCache st
  /\ resultsCache st' = resultsCache st
  /\ (forall id, In id ids -> personsDocs st' !! id = personsDocs st !! id).
Proof.
  cbv zeta.
  apply (fold_left_invariant (importPerson ids)
           (fun st' => resultsDocs st' = resultsDocs st
                       /\ personsCache st' = personsCache st
                       /\ resultsCache st' = resultsCache st
                       /\ (forall id, In id ids ->
                             personsDocs st' !! id = personsDocs st !! id))).
  - repeat split.
  - intros a rn (H1 & H2 & H3 & H4) _.
    destruct (importPerson_cases ids a rn)
      as [[_ ->]|(id & name & _ & _ & Hnew & ->)]; [auto|].
    cbn [savePerson resultsDocs personsCache resultsCache personsDocs person_id].
    repeat split; try assumption.
    intros k Hk. rewrite lookup_insert_ne; [auto|].
    intros <-. apply hasId_In in Hk. congruence.
Qed.

(** ** The Results sheet *)

Lemma importResult_cases (ids : list string) (pr : Progress)
    (re : ResultRow * RowEnv) :
  (readId (fst re) = None /\ importResult ids pr re = pr)
  \/ (exists id, readId (fst re) = Some id /\ hasId ids id = true
                 /\ importResult ids pr re
                    = {| store := store pr;
                         importedCount := importedCount pr;
                         skippedCount := S (skippedCount pr) |})
  \/ (exists id name st1 pid,
        readId (fst re) = Some id /\ hasId ids id = false
        /\ orElse (row_personName (fst re)) None = Some name
        /\ (st1 = store pr
            \/ st1 = fst (createPerson (store pr) name None
                            (createdAtNow (snd re)) (docId (snd re))
                            (uuid (snd re))))
        /\ importResult ids pr re
           = {| store :=
                  saveResult st1
                    {| result_id := id; personId := pid; personName := name;
                       result_splits :=
                         splitOf treadmill (row_treadmillMs (fst re))
                           (treadmillStamp (snd re))
                         ++ splitOf skiErg (row_skiErgMs (fst re))
                              (skiErgStamp (snd re))
                         ++ splitOf rowing (row_rowingMs (fst re))
                              (rowingStamp (snd re));
                       totalTime := default 0 (row_totalMs (fst re));
                       completedAt :=
                         orDefault (row_completedAt (fst re))
                           (completedAtNow (snd re));
                       result_createdBy := None |};
                importedCount := S (importedCount pr);
                skippedCount := skippedCount pr |}).
Proof.
  destruct re as [row env]. unfold importResult, readId. cbn [fst snd].
  destruct (orElse (row_resultId row) None) as [id|];
    [|left; split; reflexivity].
  destruct (orElse (row_personName row) None) as [name|];
    [|left; split; reflexivity].
  right. destruct (hasId ids id) eqn:E.
  - left. exists id. repeat split. exact E.
  - right. exists id, name.
    destruct (orElse (row_personId row) None) as [pid|].
    + exists (store pr), pid.
      split; [reflexivity|]. split; [exact E|]. split; [reflexivity|].
      split; [left; reflexivity | reflexivity].
    + unfold findOrCreatePerson.
      destruct (find _ (getPersons (store pr))) as [p|].
      * exists (store pr), (person_id p).
        split; [reflexivity|]. split; [exact E|]. split; [reflexivity|].
        split; [left; reflexivity | reflexivity].
      * eexists. eexists.
        split; [reflexivity|]. split; [exact E|]. split; [reflexivity|].
        split; [right; reflexivity | reflexivity].
Qed.

Lemma importResult_counts (ids : list string) (pr : Progress)
    (re : ResultRow * RowEnv) :
  importedCount (importResult ids pr re)
  = (importedCount pr + if isNew ids re then 1 else 0)%nat
  /\ skippedCount (importResult ids pr re)
     = (skippedCount pr + if isDuplicate ids re then 1 else 0)%nat.
Proof.
  unfold isNew, isDuplicate.
  destruct (importResult_cases ids pr re)
    as [[-> ->]|[(id & -> & -> & ->)|(id & name & st1 & pid & -> & -> & _ & _ & ->)]];
    simpl; lia.
Qed.

Lemma importResults_counts (ids : list string) (rows : list (ResultRow * RowEnv))
    (pr : Progress) :
  importedCount (fold_left (importResult ids) rows pr)
  = (importedCount pr + length (List.filter (isNew ids) rows))%nat
  /\ skippedCount (fold_left (importResult ids) rows pr)
     = (skippedCount pr + length (List.filter (isDuplicate ids) rows))%nat.
Proof.
  revert pr. induction rows as [|re rows IH]; intros pr; simpl; [lia|].
  destruct (IH (importResult ids pr re)) as [-> ->].
  destruct (importResult_counts ids pr re) as [-> ->].
  destruct (isNew ids re), (isDuplicate ids re); simpl; lia.
Qed.

(** X17.  The import reports as imported the number of rows of the
    Results sheet that have a Result ID and a Person Name and whose id
    the results cache does not list, and as skipped the number of those
    whose id it lists; a row without Result ID or Person Name is counted
    in neither, and an id that occurs in several rows is counted once for
    each. *)
Theorem X17_import_report_counts_the_rows (st : Store) (wb : Workbook)
    (rows : list (ResultRow * RowEnv)) :
  resultsSheet wb = Some rows ->
  snd (importFromExcel st wb)
  = {| success := true;
       message :=
         "Import successful! Imported "
         +:+ JS.toString
               (Z.of_nat (length (List.filter
                                    (isNew (map result_id (resultsCache st)))
                                    rows)))
         +:+ " results"
         +:+ (if (0 <? length (List.filter
                                 (isDuplicate (map result_id (resultsCache st)))
                                 rows))%nat
              then ", skipped "
                   +:+ JS.toString
                         (Z.of_nat
                            (length (List.filter
                                       (isDuplicate
                                          (map result_id (resultsCache st)))
                                       rows)))
                   +:+ " duplicates"
              else "")
         +:+ "." |}.
Proof.
  intros Hsheet. unfold importFromExcel. rewrite Hsheet. cbn [snd].
  unfold getResults, getPersons.
  destruct (importPersons_keep (map person_id (personsCache st))
              (default [] (personsSheet wb)) st) as (_ & _ & -> & _).
  match goal with
  | |- context [fold_left (importResult ?ids) rows ?pr] =>
      destruct (importResults_counts ids rows pr) as [-> ->]
  end.
  reflexivity.
Qed.

Lemma X17_import_report_counts_the_rows_witness :
  snd (importFromExcel emptyStore importBook)
  = {| success := true;
       message := "Import successful! Imported 1 results." |}
  /\ snd (importFromExcel storeWithResult importBook)
     = {| success := true;
          message := "Import successful! Imported 0 results, skipped 1 duplicates." |}.
Proof.
  split.
  - exact (X17_import_report_counts_the_rows emptyStore importBook
             [(importRow, importEnv)] eq_refl).
  - exact (X17_import_report_counts_the_rows storeWithResult importBook
             [(importRow, importEnv)] eq_refl).
Defined.

Lemma importResults_keep (ids pids : list string)
    (rows : list (ResultRow * RowEnv)) (pr : Progress) :
  let pr' := fold_left (importResult ids) rows pr in
  personsCache (store pr') = personsCache (store pr)
  /\ resultsCache (store pr') = resultsCache (store pr)
  /\ (forall id, In id ids ->
        resultsDocs (store pr') !! id = resultsDocs (store pr) !! id)
  /\ (forall id, (forall re, In re rows -> docId (snd re) <> id) ->
        personsDocs (store pr') !! id = personsDocs (store pr) !! id).
Proof.
  cbv zeta.
  apply (fold_left_invariant (importResult ids)
           (fun pr' =>
              personsCache (store pr') = personsCache (store pr)
              /\ resultsCache (store pr') = resultsCache (store pr)
              /\ (forall id, In id ids ->
                    resultsDocs (store pr') !! id = resultsDocs (store pr) !! id)
              /\ (forall id, (forall re, In re rows -> docId (snd re) <> id) ->
                    personsDocs (store pr') !! id
                    = personsDocs (store pr) !! id))).
  - repeat split.
  - intros a re (H1 & H2 & H3 & H4) Hin.
    destruct (importResult_cases ids a re)
      as [[_ ->]|[(id & _ & _ & ->)
                 |(id & name & st1 & pid & _ & Hnew & _ & Hst1 & ->)]];
      [auto | cbn [store]; auto |].
    cbn [store saveResult personsCache resultsCache resultsDocs personsDocs
           result_id].
    assert (Hc : personsCache st1 = personsCache (store a)
                 /\ resultsCache st1 = resultsCache (store a)
                 /\ resultsDocs st1 = resultsDocs (store a)
                 /\ forall k, docId (snd re) <> k ->
                      personsDocs st1 !! k = personsDocs (store a) !! k).
    { destruct Hst1 as [->| ->]; [repeat split|].
      cbn [createPerson fst personsCache resultsCache resultsDocs personsDocs].
      repeat split. intros k Hk. apply lookup_insert_ne. exact Hk. }
    destruct Hc as (C1 & C2 & C3 & C4).
    rewrite C1, C2, C3. repeat split; try assumption.
    + intros k Hk. rewrite lookup_insert_ne; [auto|].
      intros <-. apply hasId_In in Hk. congruence.
    + intros k Hk. rewrite C4 by (apply Hk; exact Hin). auto.
Qed.

(** X18.  The import leaves the caches as they are and never writes
    under an id that they list: the document of a cached result is not
    touched, and neither is the document of a cached person, as long as
    the ids that the store generates for newly created persons differ
    from it. *)
Theorem X18_import_keeps_what_the_caches_list (st : Store) (wb : Workbook) :
  personsCache (fst (importFromExcel st wb)) = personsCache st
  /\ resultsCache (fst (importFromExcel st wb)) = resultsCache st
  /\ (forall id, In id (map result_id (resultsCache st)) ->
        resultsDocs (fst (importFromExcel st wb)) !! id = resultsDocs st !! id)
  /\ (forall id, In id (map person_id (personsCache st)) ->
        (forall re, In re (default [] (resultsSheet wb)) ->
                    docId (snd re) <> id) ->
        personsDocs (fst (importFromExcel st wb)) !! id = personsDocs st !! id).
Proof.
  unfold importFromExcel.
  destruct (resultsSheet wb) as [rows|]; [|repeat split].
  cbn [fst default]. unfold getResults, getPersons.
  destruct (importPersons_keep (map person_id (personsCache st))
              (default [] (personsSheet wb)) st) as (P1 & P2 & P3 & P4).
  rewrite P3.
  match goal with
  | |- context [fold_left (importResult ?ids) rows ?pr] =>
      destruct (importResults_keep ids (map person_id (personsCache st)) rows pr)
        as (R1 & R2 & R3 & R4)
  end.
  cbn [store] in *.
  rewrite R1, R2, P2, P3. repeat split.
  - intros id Hid. rewrite (R3 id Hid). rewrite P1. reflexivity.
  - intros id Hid Hfresh. rewrite (R4 id Hfresh). apply P4. exact Hid.
Qed.

Lemma splitOf_positive (d : Discipline) (ms : option Z) (stamp : string) :
  Forall (fun s => 0 < time s /\ discipline s = d) (splitOf d ms stamp).
Proof.
  unfold splitOf, positiveMs. destruct ms as [z|]; [|constructor].
  destruct (negb (z =? 0) && (0 <? z)) eqn:E; [|constructor].
  constructor; [|constructor]. simpl.
  apply andb_true_iff in E as [_ E]. apply Z.ltb_lt in E.
  split; [exact E | reflexivity].
Qed.

(** X19.  A result document found after the import was there before, or
    was written for a row of the Results sheet that has its id, an id the
    results cache does not list: its person name and total time are the
    row's (0 when the row has no total), it carries no creator, and each
    of its splits has a positive time. *)
Theorem X19_imported_results_come_from_rows (st : Store) (wb : Workbook)
    (id : string) (data : ResultData) :
  resultsDocs (fst (importFromExcel st wb)) !! id = Some data ->
  resultsDocs st !! id = Some data
  \/ (~ In id (map result_id (resultsCache st))
      /\ exists re, In re (default [] (resultsSheet wb))
           /\ readId (fst re) = Some id
           /\ orElse (row_personName (fst re)) None = Some (rd_personName data)
           /\ rd_totalTime data = default 0 (row_totalMs (fst re))
           /\ rd_createdBy data = None
           /\ Forall (fun s => 0 < time s) (rd_splits data)).
Proof.
  unfold importFromExcel.
  destruct (resultsSheet wb) as [rows|]; [|left; assumption].
  cbn [fst default]. unfold getResults, getPersons.
  destruct (importPersons_keep (map person_id (personsCache st))
              (default [] (personsSheet wb)) st) as (P1 & _ & P3 & _).
  rewrite P3. rewrite <- P1.
  set (st1 := fold_left _ (default [] (personsSheet wb)) st).
  set (ids := map result_id (resultsCache st)).
  apply (fold_left_invariant (importResult ids)
           (fun pr =>
              resultsDocs (store pr) !! id = Some data ->
              resultsDocs st1 !! id = Some data
              \/ (~ In id ids
                  /\ exists re, In re rows
                       /\ readId (fst re) = Some id
                       /\ orElse (row_personName (fst re)) None
                          = Some (rd_personName data)
                       /\ rd_totalTime data = default 0 (row_totalMs (fst re))
                       /\ rd_createdBy data = None
                       /\ Forall (fun s => 0 < time s) (rd_splits data)))).
  - intros H. left. exact H.
  - intros a re IH Hin.
    destruct (importResult_cases ids a re)
      as [[_ ->]|[(k & _ & _ & ->)
                 |(k & name & s1 & pid & Hread & Hnew & Hname & Hs1 & ->)]];
      [exact IH | exact IH |].
    cbn [store saveResult resultsDocs result_id].
    assert (Hres : resultsDocs s1 = resultsDocs (store a))
      by (destruct Hs1 as [->| ->]; reflexivity).
    rewrite Hres.
    destruct (decide (k = id)) as [->|Hne].
    + rewrite lookup_insert_eq. intros [= <-]. right. split.
      * intros Hc. apply hasId_In in Hc. congruence.
      * exists re. split; [exact Hin|]. split; [exact Hread|].
        cbn [rd_personName rd_totalTime rd_createdBy rd_splits personName
               totalTime result_createdBy result_splits keepIfTruthy truthyStr].
        split; [exact Hname|]. split; [reflexivity|]. split; [reflexivity|].
        rewrite !Forall_app. repeat split;
          (eapply List.Forall_impl; [|apply splitOf_positive]);
          intros s [Hs _]; exact Hs.
    + rewrite lookup_insert_ne by exact Hne. exact IH.
Qed.

Lemma X19_imported_results_come_from_rows_witness :
  exists data,
    resultsDocs (fst (importFromExcel emptyStore importBook)) !! "res-1" = Some data
    /\ (resultsDocs emptyStore !! "res-1" = Some data
        \/ (~ In "res-1" (map result_id (resultsCache emptyStore))
            /\ exists re, In re [(importRow, importEnv)]
                 /\ readId (fst re) = Some "res-1"
                 /\ orElse (row_personName (fst re)) None
                    = Some (rd_personName data)
                 /\ rd_totalTime data = default 0 (row_totalMs (fst re))
                 /\ rd_createdBy data = None
                 /\ Forall (fun s => 0 < time s) (rd_splits data))).
Proof.
  destruct (resultsDocs (fst (importFromExcel emptyStore importBook)) !! "res-1")
    as [data|] eqn:E.
  - exists data. split; [reflexivity|].
    exact (X19_imported_results_come_from_rows emptyStore importBook
             "res-1" data E).
  - exfalso. vm_compute in E. discriminate.
Defined.

(** X20.  Importing a workbook in which every read row of the Results
    sheet has an id that the results cache lists, and every row of the
    Persons sheet with ID and Name has an id that the persons cache
    lists, changes nothing in the store. *)
Theorem X20_import_of_known_rows_changes_nothing (st : Store) (wb : Workbook) :
  (forall re, In re (default [] (resultsSheet wb)) ->
              isNew (map result_id (resultsCache st)) re = false) ->
  (forall rn, In rn (default [] (personsSheet wb)) ->
              isNewPerson (map person_id (personsCache st)) rn = false) ->
  fst (importFromExcel st wb) = st.
Proof.
  intros Hres Hper. unfold importFromExcel.
  destruct (resultsSheet wb) as [rows|]; [|reflexivity].
  cbn [fst default] in *. unfold getResults, getPersons.
  assert (H1 : fold_left (importPerson (map person_id (personsCache st)))
                 (default [] (personsSheet wb)) st = st).
  { apply (fold_left_invariant _ (fun st' => st' = st)); [reflexivity|].
    intros a rn -> Hin. specialize (Hper rn Hin).
    destruct (importPerson_cases (map person_id (personsCache st)) st rn)
      as [[_ H]|(k & name & Hk & Hn & _ & _)]; [exact H|].
    unfold isNewPerson in Hper. unfold importPerson.
    destruct rn as [row now]. cbn [fst] in *.
    rewrite Hk, Hn in *. rewrite Hper. reflexivity. }
  rewrite H1.
  apply (fold_left_invariant _ (fun pr => store pr = st)); [reflexivity|].
  intros a re Ha Hin. specialize (Hres re Hin). unfold isNew in Hres.
  destruct (importResult_cases (map result_id (resultsCache st)) a re)
    as [[_ ->]|[(k & _ & _ & ->)|(k & name & s1 & pid & Hread & Hnew & _)]];
    [exact Ha | exact Ha |].
  rewrite Hread, Hnew in Hres. discriminate.
Qed.

Lemma X20_import_of_known_rows_changes_nothing_witness :
  fst (importFromExcel storeWithResult importBook) = storeWithResult.
Proof.
  apply (X20_import_of_known_rows_changes_nothing storeWithResult importBook).
  - intros re [<-|[]]. vm_compute. reflexivity.
  - intros rn [].
Defined.

End ImportMore.

(* ===================================================================== *)
(** * Properties of the person forms and of the storage *)
(* ===================================================================== *)

Module PeopleMore.
Import JS Storage StorageReads ActiveRacesManager ManagerFacts.

Lemma trimEnd_idem (s : string) : trimEnd (trimEnd s) = trimEnd s.
Proof.
  induction s as [|c s IH]; [reflexivity|].
  cbn [trimEnd]. destruct (trimEnd s) as [|c2 t2] eqn:E.
  - destruct (isWhiteSpace c) eqn:W; [reflexivity|].
    cbn [trimEnd]. rewrite W. reflexivity.
  - cbn [trimEnd] in *. rewrite IH. reflexivity.
Qed.

Lemma trimStart_head (s : string) :
  trimStart s = EmptyString
  \/ exists c t, trimStart s = String c t /\ isWhiteSpace c = false.
Proof.
  induction s as [|c s IH]; [left; reflexivity|].
  cbn [trimStart]. destruct (isWhiteSpace c) eqn:W; [exact IH|].
  right. exists c, s. split; [reflexivity | exact W].
Qed.

Lemma trimEnd_head (c : ascii) (t : string) :
  isWhiteSpace c = false -> exists t', trimEnd (String c t) = String c t'.
Proof.
  intros W. cbn [trimEnd]. destruct (trimEnd t); [rewrite W|]; eauto.
Qed.

Lemma trim_idem (s : string) : trim (trim s) = trim s.
Proof.
  unfold trim.
  destruct (trimStart_head s) as [->|(c & t & -> & W)]; [reflexivity|].
  destruct (trimEnd_head c t W) as [t' E].
  rewrite E. cbn [trimStart]. rewrite W, <- E. apply trimEnd_idem.
Qed.

Lemma keepIfTruthy_callerIdentity (a : Auth) :
  keepIfTruthy (callerIdentity a) = callerIdentity a.
Proof.
  unfold keepIfTruthy, callerIdentity, orElse, truthyStr.
  destruct (currentUserId a) as [s|]; [|reflexivity].
  destruct (nonEmpty s) eqn:E; [rewrite E|]; reflexivity.
Qed.

(** X21.  The form for a new person does nothing for a blank name.  For
    any other name it adds one person document, under the id that the
    store generates, with the name stripped of surrounding white space
    (stripping it again changes nothing) and the caller's identity as
    creator; the results are not touched. *)
Theorem X21_new_person_gets_the_trimmed_name (a : Auth) (st : Store)
    (newPersonName createdAtNow docId uuid : string) :
  (trim newPersonName = ""%string ->
   AddPerson.handleCreatePerson a st newPersonName createdAtNow docId uuid = st)
  /\ (trim newPersonName <> ""%string ->
      personsDocs
        (AddPerson.handleCreatePerson a st newPersonName createdAtNow docId uuid)
      = <[docId := {| pd_name := trim newPersonName;
                      pd_createdAt := createdAtNow;
                      pd_createdBy := callerIdentity a |}]> (personsDocs st)
      /\ trim (trim newPersonName) = trim newPersonName
      /\ resultsDocs
           (AddPerson.handleCreatePerson a st newPersonName createdAtNow
              docId uuid)
         = resultsDocs st).
Proof.
  unfold AddPerson.handleCreatePerson. split.
  - intros ->. reflexivity.
  - intros Hne. apply nonEmpty_true in Hne. rewrite Hne.
    cbn [createPerson fst personsDocs resultsDocs].
    rewrite keepIfTruthy_callerIdentity.
    split; [reflexivity|]. split; [apply trim_idem | reflexivity].
Qed.

(** X22.  A saved result is read back from its document as it was saved,
    except that an empty creator is dropped.  Saving leaves the other
    result documents as they are, a second save under the same id
    replaces the first, and deleting the result afterwards leaves the
    collection without a document of that id. *)
Theorem X22_saved_result_reads_back (st : Store) (r r2 : RaceResult) :
  option_map (resultOfDoc (result_id r))
    (resultsDocs (saveResult st r) !! result_id r)
  = Some {| result_id := result_id r; personId := personId r;
            personName := personName r; result_splits := result_splits r;
            totalTime := totalTime r; completedAt := completedAt r;
            result_createdBy := keepIfTruthy (result_createdBy r) |}
  /\ (result_createdBy r <> Some ""%string ->
      option_map (resultOfDoc (result_id r))
        (resultsDocs (saveResult st r) !! result_id r) = Some r)
  /\ (forall k, k <> result_id r ->
        resultsDocs (saveResult st r) !! k = resultsDocs st !! k)
  /\ (result_id r2 = result_id r ->
      resultsDocs (saveResult (saveResult st r) r2)
      = resultsDocs (saveResult st r2))
  /\ resultsDocs (deleteResult (saveResult st r) (result_id r)) !! result_id r
     = None.
Proof.
  cbn [saveResult deleteResult resultsDocs].
  split; [|split; [|split; [|split]]].
  - rewrite lookup_insert_eq. reflexivity.
  - intros Hne. rewrite lookup_insert_eq. cbn [option_map]. unfold resultOfDoc.
    cbn [rd_personId rd_personName rd_splits rd_totalTime rd_completedAt
           rd_createdBy].
    assert (Hk : keepIfTruthy (result_createdBy r) = result_createdBy r).
    { unfold keepIfTruthy, truthyStr.
      destruct (result_createdBy r) as [s|]; [|reflexivity].
      destruct s; [contradiction Hne; reflexivity | reflexivity]. }
    rewrite Hk. destruct r; reflexivity.
  - intros k Hk. apply lookup_insert_ne. congruence.
  - intros ->. apply insert_insert_eq.
  - apply lookup_delete_eq.
Qed.

End PeopleMore.

(* ===================================================================== *)
(** * Properties of the race starter *)
(* ===================================================================== *)

Module StarterMore.
Import RaceStarter ActiveRacesManager ManagerFacts.

(** X23.  Toggling a person in a selection without repetition gives a
    selection without repetition: the person is in it afterwards exactly
    when it was not before, and every other person stays in or out. *)
Theorem X23_toggle_flips_one_person (personId : string) (prev : list string) :
  List.NoDup prev ->
  List.NoDup (togglePersonSelection personId prev)
  /\ (In personId (togglePersonSelection personId prev) <-> ~ In personId prev)
  /\ (forall x, x <> personId ->
        (In x (togglePersonSelection personId prev) <-> In x prev)).
Proof.
  intros Hnd. unfold togglePersonSelection.
  destruct (existsb (String.eqb personId) prev) eqn:E.
  - assert (Hin : In personId prev).
    { apply List.existsb_exists in E as (x & Hx & Ex).
      apply String.eqb_eq in Ex. subst. exact Hx. }
    split; [apply List.NoDup_filter; exact Hnd|]. split.
    + rewrite filter_In, String.eqb_refl. simpl.
      split; [intros [_ ?]; discriminate | intros H; contradiction].
    + intros x Hx. rewrite filter_In.
      apply String.eqb_neq in Hx. rewrite Hx. simpl. tauto.
  - assert (Hout : ~ In personId prev).
    { intros Hin.
      assert (existsb (String.eqb personId) prev = true) as E'.
      { apply List.existsb_exists. exists personId.
        split; [exact Hin | apply String.eqb_refl]. }
      congruence. }
    split; [|split].
    + apply List.NoDup_app; [exact Hnd | repeat constructor; intros [] |].
      intros x Hx [<-|[]]. contradiction.
    + rewrite in_app_iff. simpl. tauto.
    + intros x Hx. rewrite in_app_iff. simpl.
      split; [intros [H|[H|[]]]; [exact H | congruence] | auto].
Qed.

Lemma X23_toggle_flips_one_person_witness :
  List.NoDup (togglePersonSelection "p2" ["p1"; "p2"; "p3"])
  /\ (In "p2" (togglePersonSelection "p2" ["p1"; "p2"; "p3"])
      <-> ~ In "p2" ["p1"; "p2"; "p3"])
  /\ (forall x, x <> "p2"%string ->
        (In x (togglePersonSelection "p2" ["p1"; "p2"; "p3"])
         <-> In x ["p1"; "p2"; "p3"])).
Proof.
  apply (X23_toggle_flips_one_person "p2" ["p1"; "p2"; "p3"]).
  repeat constructor; simpl; intros H;
    repeat (destruct H as [H|H]; [discriminate|]); exact H.
Defined.

Lemma startRace_fresh (a : Auth) (currentRaces : list ActiveRace) (w : World)
    (p : Person) (uuid : string) (now : Z) :
  storage (fst (startRace a currentRaces w p None uuid now)) = storage w
  /\ (forall k, k <> uuid ->
        activeRaceDocs (fst (startRace a currentRaces w p None uuid now)) !! k
        = activeRaceDocs w !! k)
  /\ (existsb (racesOf p) currentRaces = false ->
      activeRaceDocs (fst (startRace a currentRaces w p None uuid now)) !! uuid
      = Some {| doc_person := Some p; doc_startTime := Some now;
                doc_splits := Some []; doc_currentDisciplineIndex := Some 0%nat;
                doc_estimatedSplits := None;
                doc_createdBy := callerIdentity a |}).
Proof.
  unfold startRace.
  destruct (existsb (racesOf p) currentRaces).
  - repeat split. discriminate.
  - cbn [fst storage activeRaceDocs race_id person startTime splits
           currentDisciplineIndex estimatedSplits createdBy].
    split; [reflexivity|]. split.
    + intros k Hk. apply lookup_insert_ne. congruence.
    + intros _. apply lookup_insert_eq.
Qed.

Section MassStart.
Variable a : Auth.
Variable currentRaces : list ActiveRace.
Variable uuidAt : nat -> string.
Variable nowAt : nat -> Z.

Lemma startAll_storage (people : list Person) (n : nat) (w : World) :
  storage (startAll a currentRaces uuidAt nowAt n people w) = storage w.
Proof.
  revert n w. induction people as [|p people IH]; intros n w; [reflexivity|].
  cbn [startAll]. rewrite IH. apply startRace_fresh.
Qed.

Lemma startAll_other (people : list Person) (n : nat) (w : World) (k : string) :
  (forall i, (n <= i < n + length people)%nat -> uuidAt i <> k) ->
  activeRaceDocs (startAll a currentRaces uuidAt nowAt n people w) !! k
  = activeRaceDocs w !! k.
Proof.
  revert n w. induction people as [|p people IH]; intros n w Hk; [reflexivity|].
  cbn [startAll]. rewrite IH.
  - apply startRace_fresh. intros E. apply (Hk n); [simpl; lia | auto].
  - intros i Hi. apply Hk. simpl. lia.
Qed.

Lemma startAll_started (people : list Person) (n : nat) (w : World)
    (i : nat) (p : Person) :
  (forall j k, (n <= j < k)%nat -> (k < n + length people)%nat ->
               uuidAt j <> uuidAt k) ->
  nth_error people i = Some p ->
  existsb (racesOf p) currentRaces = false ->
  activeRaceDocs (startAll a currentRaces uuidAt nowAt n people w)
    !! uuidAt (n + i)
  = Some {| doc_person := Some p; doc_startTime := Some (nowAt (n + i));
            doc_splits := Some []; doc_currentDisciplineIndex := Some 0%nat;
            doc_estimatedSplits := None;
            doc_createdBy := callerIdentity a |}.
Proof.
  revert n w i. induction people as [|q people IH]; intros n w i Hd Hi Hfree.
  { destruct i; discriminate. }
  cbn [startAll]. destruct i as [|i].
  - injection Hi as ->. rewrite Nat.add_0_r.
    rewrite startAll_other.
    + apply startRace_fresh. exact Hfree.
    + intros j Hj. apply not_eq_sym. apply Hd; simpl; lia.
  - replace (n + S i)%nat with (S n + i)%nat by lia.
    apply IH; [|exact Hi | exact Hfree].
    intros j k Hjk Hk. apply Hd; simpl; lia.
Qed.
End MassStart.

(** X24.  A mass start with a non-empty selection clears the selection
    and starts a race for every selected person that is known and has no
    race in the cached list: when the generated ids are distinct, each
    such person gets a document of its own with no splits, no estimates,
    the caller as creator and the clock read of its own call.  The result
    storage is not touched. *)
Theorem X24_mass_start_starts_everyone_selected (a : Auth)
    (currentRaces : list ActiveRace) (uuidAt : nat -> string) (nowAt : nat -> Z)
    (persons : list Person) (selectedPersons : list string) (w : World) :
  selectedPersons <> [] ->
  (forall j k, (j < k)%nat ->
     (k < length (selectedPersonList persons selectedPersons))%nat ->
     uuidAt j <> uuidAt k) ->
  snd (handleMassStart a currentRaces uuidAt nowAt persons selectedPersons w) = []
  /\ storage (fst (handleMassStart a currentRaces uuidAt nowAt persons
                     selectedPersons w)) = storage w
  /\ forall i p,
       nth_error (selectedPersonList persons selectedPersons) i = Some p ->
       existsb (racesOf p) currentRaces = false ->
       activeRaceDocs (fst (handleMassStart a currentRaces uuidAt nowAt persons
                              selectedPersons w)) !! uuidAt i
       = Some {| doc_person := Some p; doc_startTime := Some (nowAt i);
                 doc_splits := Some []; doc_currentDisciplineIndex := Some 0%nat;
                 doc_estimatedSplits := None;
                 doc_createdBy := callerIdentity a |}.
Proof.
  intros Hsel Hd. unfold handleMassStart.
  destruct selectedPersons as [|id rest]; [contradiction Hsel; reflexivity|].
  cbn [fst snd]. split; [reflexivity|]. split; [apply startAll_storage|].
  intros i p Hi Hfree.
  apply (startAll_started a currentRaces uuidAt nowAt _ 0 w i p);
    [|exact Hi | exact Hfree].
  intros j k Hjk Hk. apply Hd; lia.
Qed.

Lemma X24_mass_start_starts_everyone_selected_witness :
  snd (handleMassStart alice [] twoUuids (fun n => 5000 + Z.of_nat n)
         [scenarioPerson; secondPerson] ["p2"; "p1"] someWorld) = []
  /\ activeRaceDocs
       (fst (handleMassStart alice [] twoUuids (fun n => 5000 + Z.of_nat n)
               [scenarioPerson; secondPerson] ["p2"; "p1"] someWorld))
     !! "race-b"
     = Some {| doc_person := Some scenarioPerson; doc_startTime := Some 5001;
               doc_splits := Some []; doc_currentDisciplineIndex := Some 0%nat;
               doc_estimatedSplits := None;
               doc_createdBy := Some "alice@example.org" |}.
Proof.
  assert (Hsel : ["p2"; "p1"] <> @nil string) by discriminate.
  assert (Hd : forall j k, (j < k)%nat ->
             (k < length (selectedPersonList [scenarioPerson; secondPerson]
                            ["p2"; "p1"]))%nat ->
             twoUuids j <> twoUuids k).
  { intros j k Hjk Hk. simpl in Hk.
    destruct k as [|[|k]]; [lia | | lia].
    destruct j as [|j]; [discriminate | lia]. }
  destruct (X24_mass_start_starts_everyone_selected alice [] twoUuids
              (fun n => 5000 + Z.of_nat n) [scenarioPerson; secondPerson]
              ["p2"; "p1"] someWorld Hsel Hd) as (Hclear & _ & Hdocs).
  split; [exact Hclear|].
  exact (Hdocs 1%nat scenarioPerson eq_refl eq_refl).
Defined.

End StarterMore.

(* ===================================================================== *)
(** * Export and import *)
(* ===================================================================== *)

Module ExportMore.
Import Storage ExcelBackup ExcelExport ImportFacts ImportMore.

Lemma orElse_Some_l (s : string) (b : option string) :
  s <> ""%string -> orElse (Some s) b = Some s.
Proof.
  intros H. simpl. apply ManagerFacts.nonEmpty_true in H. rewrite H.
  reflexivity.
Qed.

Lemma positiveMs_Some (z : Z) : positiveMs (Some z) = (0 <? z).
Proof.
  unfold positiveMs.
  destruct (Z.ltb_spec 0 z), (Z.eqb_spec z 0); simpl; try reflexivity; lia.
Qed.

(** X25.  The row that the export builds for a result with an id, a
    person id and a person name, read by the import while the results
    cache does not list the id, writes the result back under its id with
    the same person, total time and, for each discipline, the time of the
    result's first split for it when that time is positive, and no split
    otherwise.  The creator is not exported, so the document has none;
    no person is created. *)
Theorem X25_exported_row_imports_back (toISOString : string -> option string)
    (r : RaceResult) (row : ResultRow) (ids : list string) (pr : Progress)
    (env : RowEnv) :
  resultRow toISOString r = Some row ->
  result_id r <> ""%string -> personName r <> ""%string ->
  personId r <> ""%string ->
  hasId ids (result_id r) = false ->
  exists data,
    resultsDocs (store (importResult ids pr (row, env)))
    = <[result_id r := data]> (resultsDocs (store pr))
    /\ personsDocs (store (importResult ids pr (row, env)))
       = personsDocs (store pr)
    /\ rd_personId data = personId r
    /\ rd_personName data = personName r
    /\ rd_totalTime data = totalTime r
    /\ rd_createdBy data = None
    /\ (forall iso, toISOString (completedAt r) = Some iso -> iso <> ""%string ->
          rd_completedAt data = iso)
    /\ forall d,
         map time (List.filter (isDiscipline d) (rd_splits data))
         = if 0 <? timeMs d r then [timeMs d r] else [].
Proof.
  intros Hrow Hid Hname Hpid Hnew. unfold resultRow in Hrow.
  destruct (toISOString (completedAt r)) as [iso|]; [|discriminate].
  injection Hrow as <-.
  unfold importResult.
  cbn [row_resultId row_personName row_personId row_treadmillMs row_skiErgMs
         row_rowingMs row_totalMs row_completedAt].
  rewrite (orElse_Some _ Hid), (orElse_Some _ Hname), (orElse_Some _ Hpid), Hnew.
  cbn [store saveResult resultsDocs personsDocs result_id].
  eexists. split; [reflexivity|]. split; [reflexivity|].
  cbn [rd_personId rd_personName rd_totalTime rd_createdBy rd_completedAt
         rd_splits personId personName totalTime result_createdBy completedAt
         result_splits].
  split; [reflexivity|]. split; [reflexivity|]. split; [reflexivity|].
  split; [reflexivity|]. split.
  - intros iso' [= <-] Hiso. unfold orDefault.
    rewrite (orElse_Some_l _ _ Hiso). reflexivity.
  - intros d. unfold splitOf. rewrite !positiveMs_Some.
    destruct d;
      destruct (0 <? timeMs treadmill r), (0 <? timeMs skiErg r),
        (0 <? timeMs rowing r); reflexivity.
Qed.

Lemma X25_exported_row_imports_back_witness :
  exists data,
    resultsDocs (store (importResult []
                   {| store := emptyStore; importedCount := 0;
                      skippedCount := 0 |} (finisherRow, importEnv)))
    = <["r1" := data]> (resultsDocs emptyStore)
    /\ rd_personId data = "p1"%string
    /\ rd_personName data = "A"%string
    /\ rd_totalTime data = 2500000
    /\ rd_createdBy data = None
    /\ rd_completedAt data = "t3"%string
    /\ map time (rd_splits data) = [900000; 1100000; 500000].
Proof.
  destruct (X25_exported_row_imports_back (fun s => Some s) finisher finisherRow
              [] {| store := emptyStore; importedCount := 0; skippedCount := 0 |}
              importEnv eq_refl)
    as (data & Hdocs & _ & Hpid & Hname & Htot & Hby & Hat & _);
    try discriminate; [reflexivity|].
  exists data. split; [exact Hdocs|]. split; [exact Hpid|].
  split; [exact Hname|]. split; [exact Htot|]. split; [exact Hby|].
  split; [apply Hat; [reflexivity | discriminate]|].
  apply (f_equal (fun m => m !! "r1")) in Hdocs.
  rewrite lookup_insert_eq in Hdocs.
  vm_compute in Hdocs. injection Hdocs as <-. reflexivity.
Defined.

End ExportMore.

(* ===================================================================== *)
(** * Properties of the manual result entry *)
(* ===================================================================== *)

Module ManualMore.
Import JS ManualResultEntry TimeFormat NumberFacts EstimateFacts.

Lemma no_errors (f : Form) :
  (if nonEmpty (selectedPersonId f) then [] else ["person"%string])
  ++ (if truthyOpt (parseTimeToMs (treadmillTime f)) then []
      else ["treadmill"%string])
  ++ (if truthyOpt (parseTimeToMs (skiErgTime f)) then [] else ["skiErg"%string])
  ++ (if truthyOpt (parseTimeToMs (rowingTime f)) then [] else ["rowing"%string])
  = []
  <-> selectedPersonId f <> ""%string
      /\ rejected (treadmillTime f) = false
      /\ rejected (skiErgTime f) = false
      /\ rejected (rowingTime f) = false.
Proof.
  unfold rejected, parseTimeToMs.
  rewrite <- ManagerFacts.nonEmpty_true.
  destruct (nonEmpty (selectedPersonId f));
    destruct (truthyOpt (EstimateInput.parseTimeToMs (treadmillTime f)));
    destruct (truthyOpt (EstimateInput.parseTimeToMs (skiErgTime f)));
    destruct (truthyOpt (EstimateInput.parseTimeToMs (rowingTime f)));
    simpl; split; try discriminate; try tauto;
    intros (? & ? & ? & ?); discriminate.
Qed.

Lemma truthy_parsed (s : string) :
  rejected s = false ->
  exists ms, EstimateInput.parseTimeToMs s = Some ms /\ gtZero ms = true.
Proof.
  unfold rejected. intros H. apply negb_false_iff in H.
  destruct (EstimateInput.parseTimeToMs s) as [ms|] eqn:E; [|discriminate].
  exists ms. split; [reflexivity|].
  exact (accepted_value_positive s ms E H).
Qed.

Lemma truthy_gtZero_parsed (s : string) (ms : number) :
  EstimateInput.parseTimeToMs s = Some ms -> truthy ms = true ->
  rejected s = false /\ gtZero ms = true.
Proof.
  intros E H. split; [unfold rejected; rewrite E; simpl; rewrite H; reflexivity|].
  exact (accepted_value_positive s ms E H).
Qed.

(** The result built from an accepted form. *)
Lemma saved_intro (a : Auth) (persons : list Person) (f : Form) (env : Env)
    (t s w : number) (p : Person) (completed : string) :
  selectedPersonId f <> ""%string ->
  EstimateInput.parseTimeToMs (treadmillTime f) = Some t -> truthy t = true ->
  EstimateInput.parseTimeToMs (skiErgTime f) = Some s -> truthy s = true ->
  EstimateInput.parseTimeToMs (rowingTime f) = Some w -> truthy w = true ->
  find (fun q => String.eqb (person_id q) (selectedPersonId f)) persons = Some p ->
  completedAt env = Some completed ->
  validateAndSave a persons f env
  = Saved {| en_id := uuid env;
             en_personId := person_id p;
             en_personName := person_name p;
             en_splits :=
               [ {| es_discipline := treadmill; es_time := t;
                    es_timestamp := treadmillStamp env |};
                 {| es_discipline := skiErg; es_time := s;
                    es_timestamp := skiErgStamp env |};
                 {| es_discipline := rowing; es_time := w;
                    es_timestamp := rowingStamp env |} ];
             en_totalTime := add (add t s) w;
             en_completedAt := completed;
             en_createdBy := callerIdentity a |}.
Proof.
  intros Hsel Et Tt Es Ts Ew Tw Hfind Hdate.
  apply ManagerFacts.nonEmpty_true in Hsel.
  unfold validateAndSave, parseTimeToMs. cbv zeta.
  rewrite Et, Es, Ew, Hsel. cbn [truthyOpt toNumber].
  rewrite Tt, Ts, Tw. cbn [app]. rewrite Hfind, Hdate.
  change (fold_left _ _ zero) with (add (add (add zero t) s) w).
  rewrite ProvisionalMore.add_zero_l. reflexivity.
Qed.

(** What a saved result tells about the form. *)
Lemma saved_inv (a : Auth) (persons : list Person) (f : Form) (env : Env)
    (r : EnteredResult) :
  validateAndSave a persons f env = Saved r ->
  selectedPersonId f <> ""%string
  /\ exists t s w p completed,
       EstimateInput.parseTimeToMs (treadmillTime f) = Some t
       /\ truthy t = true
       /\ EstimateInput.parseTimeToMs (skiErgTime f) = Some s
       /\ truthy s = true
       /\ EstimateInput.parseTimeToMs (rowingTime f) = Some w
       /\ truthy w = true
       /\ find (fun q => String.eqb (person_id q) (selectedPersonId f)) persons
          = Some p
       /\ completedAt env = Some completed.
Proof.
  unfold validateAndSave, parseTimeToMs. cbv zeta.
  rewrite <- ManagerFacts.nonEmpty_true.
  destruct (nonEmpty (selectedPersonId f)); [|discriminate].
  destruct (EstimateInput.parseTimeToMs (treadmillTime f)) as [t|];
    [|discriminate].
  destruct (EstimateInput.parseTimeToMs (skiErgTime f)) as [s|];
    [|cbn [truthyOpt]; destruct (truthy t); discriminate].
  destruct (EstimateInput.parseTimeToMs (rowingTime f)) as [w|];
    [|cbn [truthyOpt]; destruct (truthy t), (truthy s); discriminate].
  cbn [truthyOpt].
  destruct (truthy t) eqn:Tt; [|discriminate].
  destruct (truthy s) eqn:Ts; [|discriminate].
  destruct (truthy w) eqn:Tw; [|discriminate].
  cbn [app].
  destruct (find _ persons) as [p|]; [|discriminate].
  destruct (completedAt env) as [completed|]; [|discriminate].
  intros _. split; [reflexivity|].
  exists t, s, w, p, completed. repeat split; assumption.
Qed.

Lemma entered_saved :
  validateAndSave alice [scenarioPerson] enteredForm enteredEnv
  = Saved {| en_id := "m-1"; en_personId := "p1"; en_personName := "P";
             en_splits :=
               [ mkEnteredSplit treadmill (ofZ 900000) "n1";
                 mkEnteredSplit skiErg (ofZ 1100000) "n2";
                 mkEnteredSplit rowing (ofZ 500000) "n3" ];
             en_totalTime := ofZ 2500000;
             en_completedAt := "2024-05-01T21:59:59.999Z";
             en_createdBy := Some "alice@example.org" |}.
Proof. vm_compute. reflexivity. Qed.

(** X26.  [validateAndSave] saves a result exactly when a person is
    selected and found in the list, the three time fields are accepted
    (they parse to a non-zero time) and the date is valid.  The saved
    result has one split for each discipline, in order, each with a
    positive time, and its total time is the sum of the three split
    times; it carries the generated id, the selected person's id and
    name, and the caller's identity as creator. *)
Theorem X26_manual_result_totals_its_splits (a : Auth) (persons : list Person)
    (f : Form) (env : Env) :
  ((exists r, validateAndSave a persons f env = Saved r)
   <-> selectedPersonId f <> ""%string
       /\ rejected (treadmillTime f) = false
       /\ rejected (skiErgTime f) = false
       /\ rejected (rowingTime f) = false
       /\ (exists p, In p persons /\ person_id p = selectedPersonId f)
       /\ is_Some (completedAt env))
  /\ (forall r, validateAndSave a persons f env = Saved r ->
        exists t s w,
          map es_discipline (en_splits r) = [treadmill; skiErg; rowing]
          /\ map es_time (en_splits r) = [t; s; w]
          /\ gtZero t = true /\ gtZero s = true /\ gtZero w = true
          /\ en_totalTime r = add (add t s) w
          /\ gtZero (en_totalTime r) = true
          /\ en_id r = uuid env
          /\ en_createdBy r = callerIdentity a
          /\ exists p, In p persons /\ person_id p = selectedPersonId f
                       /\ en_personId r = person_id p
                       /\ en_personName r = person_name p).
Proof.
  split; [split|].
  - intros [r H].
    apply saved_inv in H
      as (Hsel & t & s & w & p & c & Et & Tt & Es & Ts & Ew & Tw & Hfind & Hdate).
    apply find_some in Hfind as [Hin Hp]. apply String.eqb_eq in Hp.
    split; [exact Hsel|].
    split; [exact (proj1 (truthy_gtZero_parsed _ _ Et Tt))|].
    split; [exact (proj1 (truthy_gtZero_parsed _ _ Es Ts))|].
    split; [exact (proj1 (truthy_gtZero_parsed _ _ Ew Tw))|].
    split; [eauto | rewrite Hdate; eauto].
  - intros (Hsel & Rt & Rs & Rw & (p & Hin & Hp) & [c Hdate]).
    unfold rejected in Rt, Rs, Rw.
    apply negb_false_iff in Rt, Rs, Rw.
    destruct (EstimateInput.parseTimeToMs (treadmillTime f)) as [t|] eqn:Et;
      [|discriminate].
    destruct (EstimateInput.parseTimeToMs (skiErgTime f)) as [s|] eqn:Es;
      [|discriminate].
    destruct (EstimateInput.parseTimeToMs (rowingTime f)) as [w|] eqn:Ew;
      [|discriminate].
    destruct (find (fun q => String.eqb (person_id q) (selectedPersonId f))
                persons) as [q|] eqn:Hfind.
    + eexists.
      exact (saved_intro a persons f env t s w q c Hsel Et Rt Es Rs Ew Rw
               Hfind Hdate).
    + apply (find_none _ _ Hfind) in Hin.
      rewrite Hp, String.eqb_refl in Hin. discriminate.
  - intros r H. pose proof H as H'.
    apply saved_inv in H'
      as (Hsel & t & s & w & p & c & Et & Tt & Es & Ts & Ew & Tw & Hfind & Hdate).
    rewrite (saved_intro a persons f env t s w p c Hsel Et Tt Es Ts Ew Tw
               Hfind Hdate) in H.
    injection H as <-.
    apply find_some in Hfind as [Hin Hp]. apply String.eqb_eq in Hp.
    pose proof (proj2 (truthy_gtZero_parsed _ _ Et Tt)) as Pt.
    pose proof (proj2 (truthy_gtZero_parsed _ _ Es Ts)) as Ps.
    pose proof (proj2 (truthy_gtZero_parsed _ _ Ew Tw)) as Pw.
    exists t, s, w.
    cbn [en_splits en_totalTime en_id en_createdBy en_personId en_personName
           map es_discipline es_time].
    repeat split; try assumption.
    + apply gtZero_add; [apply gtZero_add|]; assumption.
    + exists p. repeat split; assumption.
Qed.

Lemma X26_manual_result_totals_its_splits_witness :
  exists t s w,
    map es_time
      (en_splits
         {| en_id := "m-1"; en_personId := "p1"; en_personName := "P";
            en_splits :=
              [ mkEnteredSplit treadmill (ofZ 900000) "n1";
                mkEnteredSplit skiErg (ofZ 1100000) "n2";
                mkEnteredSplit rowing (ofZ 500000) "n3" ];
            en_totalTime := ofZ 2500000;
            en_completedAt := "2024-05-01T21:59:59.999Z";
            en_createdBy := Some "alice@example.org" |}) = [t; s; w]
    /\ gtZero t = true /\ gtZero s = true /\ gtZero w = true
    /\ ofZ 2500000 = add (add t s) w.
Proof.
  destruct (proj2 (X26_manual_result_totals_its_splits alice [scenarioPerson]
                     enteredForm enteredEnv) _ entered_saved)
    as (t & s & w & _ & Hm & Pt & Ps & Pw & Htot & _).
  exists t, s, w. repeat split; assumption.
Defined.

Lemma formatTimeHMS_msToTimeString (ms : Z) :
  formatTimeHMS ms = EstimateInput.msToTimeString ms.
Proof. reflexivity. Qed.

(** X27.  A result typed into the manual entry form as the leaderboard
    prints it ([formatTimeHMS] of each split time, each at least one
    second and together at most [Number.MAX_SAFE_INTEGER] milliseconds)
    is saved with every split time rounded down to whole seconds and with
    the sum of the rounded times as total. *)
Theorem X27_manual_entry_of_printed_times (a : Auth) (persons : list Person)
    (p : Person) (t s w : Z) (env : Env) (completed : string) :
  In p persons -> person_id p <> ""%string ->
  1000 <= t -> 1000 <= s -> 1000 <= w ->
  t + s + w <= MAX_SAFE_INTEGER ->
  completedAt env = Some completed ->
  exists r,
    validateAndSave a persons
      {| selectedPersonId := person_id p;
         treadmillTime := formatTimeHMS t;
         skiErgTime := formatTimeHMS s;
         rowingTime := formatTimeHMS w |} env = Saved r
    /\ map es_time (en_splits r)
       = [ofZ (t / 1000 * 1000); ofZ (s / 1000 * 1000); ofZ (w / 1000 * 1000)]
    /\ en_totalTime r
       = ofZ (t / 1000 * 1000 + s / 1000 * 1000 + w / 1000 * 1000).
Proof.
  intros Hin Hid Ht Hs Hw _ Hdate.
  assert (Hacc : forall d, 1000 <= d ->
            EstimateInput.parseTimeToMs (formatTimeHMS d)
            = Some (ofZ (d / 1000 * 1000))
            /\ truthy (ofZ (d / 1000 * 1000)) = true).
  { intros d Hd. rewrite formatTimeHMS_msToTimeString.
    split; [apply RoundTrip.parse_format; lia|].
    rewrite NumberFacts.truthy_ofZ.
    assert (1 <= d / 1000) by (apply Z.div_le_lower_bound; lia).
    replace (d / 1000 * 1000 =? 0) with false by lia. reflexivity. }
  destruct (Hacc t Ht) as [Pt Tt].
  destruct (Hacc s Hs) as [Ps Ts].
  destruct (Hacc w Hw) as [Pw Tw].
  destruct (find (fun q => String.eqb (person_id q) (person_id p)) persons)
    as [q|] eqn:Hfind.
  2:{ apply (find_none _ _ Hfind) in Hin.
      rewrite String.eqb_refl in Hin. discriminate. }
  eexists. split.
  - exact (saved_intro a persons
             {| selectedPersonId := person_id p;
                treadmillTime := formatTimeHMS t;
                skiErgTime := formatTimeHMS s;
                rowingTime := formatTimeHMS w |} env _ _ _ q completed
             Hid Pt Tt Ps Ts Pw Tw Hfind Hdate).
  - cbn [en_splits en_totalTime map es_time].
    split; [reflexivity|]. rewrite !ofZ_add. reflexivity.
Qed.

Lemma X27_manual_entry_of_printed_times_witness :
  exists r,
    validateAndSave alice [scenarioPerson]
      {| selectedPersonId := "p1";
         treadmillTime := formatTimeHMS 900500;
         skiErgTime := formatTimeHMS 1100000;
         rowingTime := formatTimeHMS 3723999 |} enteredEnv = Saved r
    /\ map es_time (en_splits r)
       = [ofZ (900500 / 1000 * 1000); ofZ (1100000 / 1000 * 1000);
          ofZ (3723999 / 1000 * 1000)]
    /\ en_totalTime r
       = ofZ (900500 / 1000 * 1000 + 1100000 / 1000 * 1000
              + 3723999 / 1000 * 1000).
Proof.
  apply (X27_manual_entry_of_printed_times alice [scenarioPerson]
           scenarioPerson 900500 1100000 3723999 enteredEnv
           "2024-05-01T21:59:59.999Z");
    try lia; try reflexivity;
    [left; reflexivity | discriminate | unfold MAX_SAFE_INTEGER; lia].
Defined.

End ManualMore.

(* ===================================================================== *)
(** * Validation of the estimate form *)
(* ===================================================================== *)

Module FormValidation.
Import JS EstimateInput NumberFacts StringFacts RoundTrip EstimateFacts.

(** ** Reading digits *)




(** ** The value of the seconds component *)





(** ** Texts whose components are numbers *)






(** ** Components that are no numbers, or negative ones *)










End FormValidation.
